(** * VD data crawler: the transform-and-partition pipeline

    A shallow embedding of [main.py] and [vd_pipeline_refactored.py]:
    the fetch scheduler, the decompressor, the two document transformers
    ([_parse_xml_lxml] and [_parse_xml]), the table combiner, the
    partition writer and the orchestrator, followed by the properties of
    the specification that were checked against them. *)

From Stdlib Require Import ZArith Lia List Permutation Ascii.
From stdpp Require Import base strings list gmap sorting.

Set Warnings "-register-all,-clear-no-such-hyp".
Local Open Scope string_scope.
Local Open Scope Z_scope.
Local Open Scope list_scope.

(** ** Python dictionaries

    A [dict] keeps its keys in insertion order; the rows and the columns
    of the tables produced downstream depend on that order, so
    dictionaries are association lists without duplicate keys:
    assigning to an existing key keeps its position, assigning to a new
    key appends it. *)

Module Dict.

Definition t (V : Type) : Type := list (string * V).

Fixpoint get {V} (k : string) (d : t V) : option V :=
  match d with
  | [] => None
  | (k', v) :: r => if String.eqb k' k then Some v else get k r
  end.

(** [d[k] = v] *)
Fixpoint set {V} (k : string) (v : V) (d : t V) : t V :=
  match d with
  | [] => [(k, v)]
  | (k', v') :: r =>
      if String.eqb k' k then (k', v) :: r else (k', v') :: set k v r
  end.

(** [d.setdefault(k, dflt)]: the value now stored under [k], and the
    dictionary after the call. *)
Definition setdefault {V} (k : string) (dflt : V) (d : t V) : V * t V :=
  match get k d with
  | Some v => (v, d)
  | None => (dflt, set k dflt d)
  end.

(** [d.update(other)] *)
Definition update {V} (d other : t V) : t V :=
  fold_left (fun acc kv => set (fst kv) (snd kv) acc) other d.

Definition keys {V} (d : t V) : list string := map fst d.

(** [{}] *)
Definition empty {V} : t V := [].

End Dict.

(** Python truthiness of a string: [not s] holds of the empty string. *)
Definition is_empty (s : string) : bool :=
  match s with
  | EmptyString => true
  | String _ _ => false
  end.

(** ** Element trees

    What both parsers hand to the loop body: an element with its
    qualified tag in Clark notation ([{uri}local]), its text ([None] for
    an element without text) and its children in document order.
    Attributes and tails are never read by the program. *)

Inductive element : Type :=
  Element (tag : string) (text : option string) (children : list element).

Definition tag (e : element) : string :=
  match e with Element t _ _ => t end.
Definition text (e : element) : option string :=
  match e with Element _ x _ => x end.
Definition children (e : element) : list element :=
  match e with Element _ _ cs => cs end.

(** [elem.clear()]: the subelements and the text go, the tag stays. *)
Definition clear (e : element) : element := Element (tag e) None [].

(** All proper descendants, in document order. *)
Fixpoint descendants (e : element) : list element :=
  match e with
  | Element _ _ cs =>
      (fix go (l : list element) : list element :=
         match l with
         | [] => []
         | c :: r => c :: descendants c ++ go r
         end) cs
  end.

(** The two path shapes the program uses: [tag] (children) and
    [.//tag] (descendants at any depth). *)
Inductive path : Type :=
| Child (qname : string)
| Descendant (qname : string).

Definition findall (p : path) (e : element) : list element :=
  match p with
  | Child q => filter (fun c => tag c = q) (children e)
  | Descendant q => filter (fun c => tag c = q) (descendants e)
  end.

Definition find (p : path) (e : element) : option element :=
  head (findall p e).

(** [findtext]: the text of the first match, the empty string when the
    match has no text, [default] when there is no match. *)
Definition findtext (p : path) (default : string) (e : element) : string :=
  match find p e with
  | None => default
  | Some c => match text c with Some s => s | None => EmptyString end
  end.

(** A document on disk either parses to a tree or makes the parser
    raise. *)
Inductive document : Type :=
| WellFormed (root : element)
| Malformed.

(** ** Data frames

    A cell is a string or the absent-value marker (NaN), [None]. A frame
    has its column labels and its rows, each row aligned with the
    columns. *)

Definition cell : Type := option string.
Definition NaN : cell := None.

Record DataFrame : Type := mkDataFrame {
  columns : list string;
  values : list (list cell)
}.

(** Position of the first occurrence of a label. *)
Fixpoint index_of (c : string) (cols : list string) : option nat :=
  match cols with
  | [] => None
  | c' :: r => if String.eqb c' c then Some O else S <$> index_of c r
  end.

(** The cell of row [r] under column [c]; [None] when the frame has no
    such column. *)
Definition at_col (cols : list string) (r : list cell) (c : string)
  : option cell :=
  i ← index_of c cols; Some (default NaN (r !! i)).

(** Labels of [l2] appended to [l1] in order of first appearance. *)
Definition union_cols (l1 l2 : list string) : list string :=
  fold_left (fun acc c => if bool_decide (c ∈ acc) then acc else acc ++ [c])
            l2 l1.

(** [pd.DataFrame(rows)] for a list of dictionaries: the columns are the
    keys in order of first appearance, a key missing from a row is NaN. *)
Definition DataFrame_of_records (rows : list (Dict.t string)) : DataFrame :=
  let cols := fold_left (fun acc r => union_cols acc (Dict.keys r)) rows [] in
  mkDataFrame cols (map (fun r => map (fun c => Dict.get c r) cols) rows).

(** ** Document transformer, [main.py]: [_parse_xml_lxml] *)

Abbreviation lane_rec := (Dict.t string).
Abbreviation lanes_t := (Dict.t (Dict.t string)).
Abbreviation data_t := (Dict.t (Dict.t (Dict.t string))).

(** The end of both transformers (identical in the two files):
    [rows = []; for vdid, lanes in data.items(): ...]. *)

(** [{f"{lane_id}_{k}": v for k, v in kv.items()}] *)
Definition record_columns (lane_id : string) (kv : Dict.t string)
  : Dict.t string :=
  fold_left (fun acc '(k, v) => Dict.set (lane_id +:+ "_" +:+ k) v acc) kv [].

(** [row = {"VDID": vdid}] and one [row.update(...)] per lane. *)
Definition flatten_row (vdid : string) (lanes : lanes_t) : Dict.t string :=
  fold_left
    (fun row '(lane_id, kv) => Dict.update row (record_columns lane_id kv))
    lanes [("VDID", vdid)].

Definition flatten_rows (data : data_t) : list (Dict.t string) :=
  map (fun '(vdid, lanes) => flatten_row vdid lanes) data.

Module Lxml.

Definition NAMESPACE : string :=
  "http://traffic.transportdata.tw/standard/traffic/schema/".
Definition NS : string := "{" +:+ NAMESPACE +:+ "}".

(** The body of [for veh in lane.findall(...)]. *)
Definition vehicle_body (rec : lane_rec) (veh : element) : lane_rec :=
  let vt := findtext (Child (NS +:+ "VehicleType")) EmptyString veh in
  if is_empty vt then rec
  else
    let rec :=
      Dict.set (vt +:+ "_Volume")
               (findtext (Child (NS +:+ "Volume")) EmptyString veh) rec in
    Dict.set (vt +:+ "_Vehicle_Speed")
             (findtext (Child (NS +:+ "Speed")) EmptyString veh) rec.

(** The body of [for lane in elem.findall(...)]. *)
Definition lane_body (lanes : lanes_t) (lane : element) : lanes_t :=
  let lane_id := findtext (Child (NS +:+ "LaneID")) EmptyString lane in
  let '(rec, lanes) := Dict.setdefault ("L" +:+ lane_id) Dict.empty lanes in
  let rec := Dict.set "Speed" (findtext (Child (NS +:+ "Speed")) EmptyString lane) rec in
  let rec :=
    Dict.set "Occupancy" (findtext (Child (NS +:+ "Occupancy")) EmptyString lane) rec in
  let rec :=
    fold_left vehicle_body (findall (Descendant (NS +:+ "Vehicle")) lane) rec in
  Dict.set ("L" +:+ lane_id) rec lanes.

(** The loop body for one yielded element: the data after it, and the
    element as the body leaves it. *)
Definition body (data : data_t) (elem : element) : data_t * element :=
  let vdid_elem := find (Child (NS +:+ "VDID")) elem in
  let vdid :=
    match vdid_elem with
    | Some v => text v
    | None => Some EmptyString
    end in
  match vdid with
  | None => (data, clear elem)
  | Some vdid =>
      if is_empty vdid then (data, clear elem)
      else
        let '(lanes, data) := Dict.setdefault vdid Dict.empty data in
        let lanes :=
          fold_left lane_body (findall (Descendant (NS +:+ "Lane")) elem)
                    lanes in
        (Dict.set vdid lanes data, clear elem)
  end.

(** [etree.iterparse(path, events=("end",), tag=...)] driving the loop:
    an element is complete, and yielded when its tag is the requested
    one, after all its children were; what the body did to a child is
    seen by its ancestors. *)
Fixpoint iterparse_loop (wanted : string) (data : data_t) (e : element)
  : data_t * element :=
  match e with
  | Element t x cs =>
      let '(data, cs) :=
        (fix go (data : data_t) (l : list element)
           : data_t * list element :=
           match l with
           | [] => (data, [])
           | c :: r =>
               let '(data, c) := iterparse_loop wanted data c in
               let '(data, r) := go data r in
               (data, c :: r)
           end) data cs in
      if String.eqb t wanted then body data (Element t x cs)
      else (data, Element t x cs)
  end.

Definition _parse_xml_lxml (root : element) : DataFrame :=
  let '(data, _) := iterparse_loop (NS +:+ "VDLive") [] root in
  DataFrame_of_records (flatten_rows data).

End Lxml.

(** ** Document transformer, [vd_pipeline_refactored.py]: [_parse_xml] *)

Module ET.

Definition NAMESPACE : Dict.t string :=
  [("ns", "http://traffic.transportdata.tw/standard/traffic/schema/")].

(** [NAMESPACE['ns']] *)
Definition NAMESPACE_ns : string :=
  default EmptyString (Dict.get "ns" NAMESPACE).

(** A prefixed name of a path, resolved through the [namespaces]
    argument. *)
Definition qname (namespaces : Dict.t string) (prefix local : string)
  : string :=
  match Dict.get prefix namespaces with
  | Some uri => "{" +:+ uri +:+ "}" +:+ local
  | None => prefix +:+ ":" +:+ local
  end.

(** The body of [for veh in lane.findall(...)]. *)
Definition vehicle_body (rec : lane_rec) (veh : element) : lane_rec :=
  let vt := findtext (Child (qname NAMESPACE "ns" "VehicleType")) EmptyString veh in
  if is_empty vt then rec
  else
    let rec :=
      Dict.set (vt +:+ "_Volume")
               (findtext (Child (qname NAMESPACE "ns" "Volume")) EmptyString veh) rec in
    Dict.set (vt +:+ "_Vehicle_Speed")
             (findtext (Child (qname NAMESPACE "ns" "Speed")) EmptyString veh) rec.

(** The body of [for lane in elem.findall(...)]. *)
Definition lane_body (lanes : lanes_t) (lane : element) : lanes_t :=
  let lane_id := findtext (Child (qname NAMESPACE "ns" "LaneID")) EmptyString lane in
  let '(rec, lanes) := Dict.setdefault ("L" +:+ lane_id) Dict.empty lanes in
  let rec :=
    Dict.set "Speed"
             (findtext (Child (qname NAMESPACE "ns" "Speed")) EmptyString lane) rec in
  let rec :=
    Dict.set "Occupancy"
             (findtext (Child (qname NAMESPACE "ns" "Occupancy")) EmptyString lane)
             rec in
  let rec :=
    fold_left vehicle_body
              (findall (Descendant (qname NAMESPACE "ns" "Vehicle")) lane) rec in
  Dict.set ("L" +:+ lane_id) rec lanes.

(** The loop body; every element of the document reaches it, the ones
    that are not [VDLive] are left as they are ([continue]). *)
Definition body (data : data_t) (elem : element) : data_t * element :=
  if negb (String.eqb (tag elem) ("{" +:+ NAMESPACE_ns +:+ "}VDLive"))
  then (data, elem)
  else
    let vdid := findtext (Child (qname NAMESPACE "ns" "VDID")) EmptyString elem in
    if is_empty vdid then (data, clear elem)
    else
      let '(lanes, data) := Dict.setdefault vdid Dict.empty data in
      let lanes :=
        fold_left lane_body
                  (findall (Descendant (qname NAMESPACE "ns" "Lane")) elem)
                  lanes in
      (Dict.set vdid lanes data, clear elem).

(** [ET.iterparse(path, events=("end",))] driving the loop: the end
    event of an element comes after those of its children. *)
Fixpoint iterparse_loop (data : data_t) (e : element) : data_t * element :=
  match e with
  | Element t x cs =>
      let '(data, cs) :=
        (fix go (data : data_t) (l : list element)
           : data_t * list element :=
           match l with
           | [] => (data, [])
           | c :: r =>
               let '(data, c) := iterparse_loop data c in
               let '(data, r) := go data r in
               (data, c :: r)
           end) data cs in
      body data (Element t x cs)
  end.

Definition _parse_xml (root : element) : DataFrame :=
  let '(data, _) := iterparse_loop [] root in
  DataFrame_of_records (flatten_rows data).

End ET.

(** A small document: two devices, one of them with two lanes and two
    vehicle classes, and one snapshot without a device identifier. *)
Module Sample.
Definition q (l : string) : string := Lxml.NS +:+ l.
Definition leaf (l s : string) : element := Element (q l) (Some s) [].
Definition vehicle (vt vol spd : string) : element :=
  Element (q "Vehicle") None
          [leaf "VehicleType" vt; leaf "Volume" vol; leaf "Speed" spd].
Definition lane (id spd occ : string) (vs : list element) : element :=
  Element (q "Lane") None
          [leaf "LaneID" id; leaf "Speed" spd; leaf "Occupancy" occ;
           Element (q "Vehicles") None vs].
Definition vdlive (id : list element) (ls : list element) : element :=
  Element (q "VDLive") None
          (id ++ [Element (q "LinkFlows") None
                    [Element (q "LinkFlow") None
                       [Element (q "Lanes") None ls]]]).
Definition doc : element :=
  Element (q "VDLiveList") None
    [Element (q "VDLives") None
       [vdlive [leaf "VDID" "V001"]
               [lane "1" "60" "5" [vehicle "S" "3" "61"; vehicle "L" "1" "55"];
                lane "2" "70" "4" [vehicle "S" "2" "71"; vehicle EmptyString "0" "0"]];
        vdlive [Element (q "VDID") None []] [lane "1" "10" "1" []];
        vdlive [] [lane "1" "11" "1" []];
        vdlive [leaf "VDID" "V002"] [lane "1" "80" "2" []]]].

(** Two per-document tables with different columns. *)
Definition table_a : DataFrame :=
  mkDataFrame ["VDID"; "L1_Speed"] [[Some "A"; Some "60"]].
Definition table_b : DataFrame :=
  mkDataFrame ["VDID"; "L2_Speed"] [[Some "B"; Some "70"]].


End Sample.


(** ** Documents as files

    The two programs read the same files with two libraries, and the
    libraries do not build the same tree from the same markup: lxml
    keeps comments and processing instructions as nodes of the tree, so
    that the text of an element ends where the first of them begins;
    ElementTree leaves them out and joins the character data around
    them. Neither is matched by a tag name. *)

Inductive markup : Type :=
| Tag (name : string) (content : list markup)
| Chars (s : string)
| Aside (s : string).   (* a comment or a processing instruction *)

(** The character data an element starts with, up to its first child
    node. *)
Fixpoint leading_text (asides_are_nodes : bool) (content : list markup)
  : string :=
  match content with
  | Chars s :: r => s +:+ leading_text asides_are_nodes r
  | Aside _ :: r =>
      if asides_are_nodes then EmptyString
      else leading_text asides_are_nodes r
  | _ => EmptyString
  end.

(** The elements a piece of markup contributes to its parent's
    children. *)
Fixpoint tree (asides_are_nodes : bool) (m : markup) : list element :=
  match m with
  | Tag t content =>
      let s := leading_text asides_are_nodes content in
      [Element t (if is_empty s then None else Some s)
         ((fix go (l : list markup) : list element :=
             match l with
             | [] => []
             | c :: r => tree asides_are_nodes c ++ go r
             end) content)]
  | Chars _ | Aside _ => []
  end.

(** The tree [etree.iterparse] of lxml walks, and the tree
    [ET.iterparse] of the standard library walks, for a file. *)
Definition lxml_tree (file : markup) : option element :=
  head (tree true file).
Definition et_tree (file : markup) : option element :=
  head (tree false file).

(** The table each program makes of a file. *)
Definition main_table (file : markup) : option DataFrame :=
  Lxml._parse_xml_lxml <$> lxml_tree file.
Definition refactored_table (file : markup) : option DataFrame :=
  ET._parse_xml <$> et_tree file.

Fixpoint no_asides (m : markup) : bool :=
  match m with
  | Tag _ content =>
      (fix go (l : list markup) : bool :=
         match l with
         | [] => true
         | c :: r => no_asides c && go r
         end) content
  | Chars _ => true
  | Aside _ => false
  end.

(** A file with one snapshot whose device identifier follows a comment:
    [<VDList><VDLive><VDID><!--c-->V9</VDID></VDLive></VDList>]. *)
Module Files.
Definition commented : markup :=
  Tag (Sample.q "VDList")
    [Tag (Sample.q "VDLive")
       [Tag (Sample.q "VDID") [Aside "c"; Chars "V9"]]].
End Files.

(** ** Exceptions *)

Inductive exn : Type :=
| OSError           (* a directory or file operation failed *)
| RequestException  (* connection, timeout or HTTP status error *)
| ParseError        (* the XML parser rejected the document *)
| ValueError        (* [pd.concat]: no objects to concatenate *)
| KeyError          (* [groupby] on a column the frame lacks *)
| CsvError.         (* [pd.read_csv] rejected the file *)

Inductive result (A : Type) : Type :=
| Ok (a : A)
| Raise (e : exn).
Arguments Ok {A} a.
Arguments Raise {A} e.

(** ** pandas operations used by the table combiner and the partition
    writer *)

(** [df.assign(col=v)]: the column is overwritten when it exists and
    added last otherwise. *)
Definition assign (col v : string) (df : DataFrame) : DataFrame :=
  match index_of col (columns df) with
  | Some i =>
      mkDataFrame (columns df) (map (fun r => <[i := Some v]> r) (values df))
  | None =>
      mkDataFrame (columns df ++ [col]) (map (fun r => r ++ [Some v]) (values df))
  end.

(** A row laid out again under new column labels; NaN where the old
    frame had no such column. *)
Definition reindex (new old : list string) (r : list cell) : list cell :=
  map (fun c => default NaN (at_col old r c)) new.

(** [pd.concat(frames, ignore_index=True)]: outer join of the columns in
    order of first appearance, rows in order; raises on no frame at
    all. *)
Definition concat (dfs : list DataFrame) : result DataFrame :=
  match dfs with
  | [] => Raise ValueError
  | _ :: _ =>
      let cols := fold_left (fun acc df => union_cols acc (columns df)) dfs [] in
      Ok (mkDataFrame cols
            (flat_map (fun df => map (reindex cols (columns df)) (values df))
                      dfs))
  end.

(** The cell a row is grouped by. *)
Definition group_key (i : nat) (r : list cell) : cell := default NaN (r !! i).

(** [list(df.groupby(col))]: one group per distinct value of the column,
    in sorted order of the values; rows whose value is NaN belong to no
    group (pandas' default [dropna=True]); the rows of a group keep the
    order of the frame. *)
Definition groupby (col : string) (df : DataFrame)
  : result (list (string * DataFrame)) :=
  match index_of col (columns df) with
  | None => Raise KeyError
  | Some i =>
      let keys :=
        merge_sort String.le (remove_dups (omap (group_key i) (values df))) in
      Ok (map (fun k =>
                 (k, mkDataFrame (columns df)
                       (filter (fun r => group_key i r = Some k) (values df))))
              keys)
  end.

(** ** The world the pipeline runs in *)

(** A downloaded artifact: its size in bytes and what decompressing it
    does: it either inflates to a document, or the copy breaks and
    leaves what had been written so far. *)
Inductive gunzip_result : Type :=
| Inflates (doc : document)
| Breaks (partial : document).

Record gz_file : Type := mkGz { st_size : Z; gunzip : gunzip_result }.

(** The directory of one day ([BASE_DIR/<date>]), by subdirectory. *)
Record day_dir : Type := mkDay {
  compressed : gmap string gz_file;
  decompressed : gmap string document;
  csv : gmap string DataFrame;
  VDID : gmap string DataFrame
}.

Definition empty_day : day_dir := mkDay ∅ ∅ ∅ ∅.

Inductive subdir : Type := Compressed | Decompressed | Csv | Vdid.

Record world : Type := mkWorld {
  days : gmap string day_dir;   (* day folders under BASE_DIR, by date *)
  zips : gmap string day_dir;   (* [<date>.zip] archives under BASE_DIR *)
  requests : list string        (* URLs retrieved so far, latest first *)
}.

(** What one [sess.get(url, stream=True, timeout=30)] and the streaming
    of its body to the destination come to, transport-level retries
    included. *)
Inductive response : Type :=
| Refused                    (* [get] or [raise_for_status] raises *)
| Interrupted                (* the stream breaks after [dest] was opened *)
| Complete (body : gz_file).

(** The directories of a day folder that hold tables. *)
Inductive table_dir : Type := InCsv | InVdid.

(** What the operating system makes of a write to [out_dir / name] when
    [name] is no plain file name (it holds a path separator, so that it
    names a path through other directories, or it cannot be a file name
    at all): the write raises, or it lands in a table file of some day
    folder, or it lands outside the four directories of the day
    folders, which are all of the file system that is followed here. *)
Inductive landing : Type :=
| Fails (e : exn)
| Lands (date : string) (dir : table_dir) (name : string)
| Unseen.

(** Everything ambient: configuration read from the process environment,
    the remote archive, the operating system, and the library functions
    that are not modelled further. *)
Record env : Type := mkEnv {
  MIN_FILE_SIZE : Z;
  remote : string -> response;
  mkdir_ok : string -> subdir -> bool;
  (* the order in which the tasks of a pool complete *)
  completion_order : forall A : Type, list A -> list A;
  (* the order in which [glob] lists a directory *)
  glob_order : list string -> list string;
  (* what [pd.read_csv] makes of the file [to_csv] wrote for a frame *)
  read_csv : DataFrame -> result DataFrame;
  (* [datetime.strptime(s, "%Y%m%d")] as a day number, [strftime] back *)
  strptime : string -> option Z;
  strftime : Z -> string;
  (* the longest file name the file system takes, in bytes *)
  NAME_MAX : nat;
  (* a write under [BASE_DIR/<date>/VDID] to a name that is not plain,
     in the world as it is *)
  to_csv_elsewhere : string -> string -> world -> landing
}.

(** Computations that read and change the world and may raise; what was
    done before an exception stays done. *)
Definition M (A : Type) : Type := world -> result A * world.

#[global] Instance M_ret : MRet M := fun A a w => (Ok a, w).
#[global] Instance M_bind : MBind M := fun A B f m w =>
  match m w with
  | (Ok a, w') => f a w'
  | (Raise e, w') => (Raise e, w')
  end.

Definition raise {A} (e : exn) : M A := fun w => (Raise e, w).
Definition try_except {A} (m : M A) (handler : exn -> M A) : M A := fun w =>
  match m w with
  | (Ok a, w') => (Ok a, w')
  | (Raise e, w') => handler e w'
  end.
Definition lift_result {A} (r : result A) : M A := fun w => (r, w).
Definition get_world : M world := fun w => (Ok w, w).
Definition modify (f : world -> world) : M unit := fun w => (Ok tt, f w).

(** [for x in l: body(x)] *)
Fixpoint for_each {A} (body : A -> M unit) (l : list A) : M unit :=
  match l with
  | [] => mret tt
  | x :: r => body x ;; for_each body r
  end.

(** A worker pool: every submitted task runs to its end whatever the
    others do; the outcomes are listed in completion order. *)
Fixpoint run_pool {A B} (task : A -> M B) (l : list A)
  : world -> list (A * result B) * world := fun w =>
  match l with
  | [] => ([], w)
  | x :: r =>
      let '(o, w) := task x w in
      let '(os, w) := run_pool task r w in
      ((x, o) :: os, w)
  end.

Definition day_of (date : string) (w : world) : day_dir :=
  default empty_day (days w !! date).

Definition set_day (date : string) (d : day_dir) (w : world) : world :=
  mkWorld (<[date := d]> (days w)) (zips w) (requests w).

Definition update_day (date : string) (f : day_dir -> day_dir) : M unit :=
  modify (fun w => set_day date (f (day_of date w)) w).

(** [ensure_dir(BASE_DIR / date / sub)] *)
Definition ensure_dir (E : env) (date : string) (sub : subdir) : M unit :=
  if mkdir_ok E date sub then update_day date (fun d => d)
  else raise OSError.

(** ** File names *)

(** [s] ends with [suffix]: the names a pattern [*suffix] matches. *)
Fixpoint ends_with (suffix s : string) : bool :=
  String.eqb s suffix
  || match s with
     | EmptyString => false
     | String _ r => ends_with suffix r
     end.

Fixpoint has_dot (s : string) : bool :=
  match s with
  | EmptyString => false
  | String c r => Ascii.eqb c "."%char || has_dot r
  end.

Fixpoint has_char (c : ascii) (s : string) : bool :=
  match s with
  | EmptyString => false
  | String c' r => Ascii.eqb c' c || has_char c r
  end.

(** A name that is one path component and can be a file name, by the
    rules of POSIX: no path separator, no NUL, not longer than the file
    system takes. A write to such a name in a directory that is there
    returns, like every other write of the pipeline: the disk is taken
    to have room. *)
Definition plain_name (E : env) (name : string) : bool :=
  negb (has_char "/"%char name) && negb (has_char Ascii.zero name)
  && (String.length name <=? NAME_MAX E)%nat.

(** [gz.with_suffix(...).name] with the empty suffix: the name up to its
    last dot (the names this is applied to end in [.gz]). *)
Fixpoint with_suffix_empty (s : string) : string :=
  match s with
  | EmptyString => EmptyString
  | String c r =>
      if Ascii.eqb c "."%char && negb (has_dot r) then EmptyString
      else String c (with_suffix_empty r)
  end.

(** [name.replace(".xml", ".csv")]: every occurrence, left to right. *)
Fixpoint replace_xml_csv (s : string) : string :=
  match s with
  | String "." (String "x" (String "m" (String "l" r))) =>
      ".csv" +:+ replace_xml_csv r
  | String c r => String c (replace_xml_csv r)
  | EmptyString => EmptyString
  end.

Definition digit (n : nat) : string :=
  String (Ascii.ascii_of_nat (48 + n)) EmptyString.

(** [f"{n:02d}"] for the hours and minutes of a day. *)
Definition two_digits (n : nat) : string :=
  digit (n / 10) +:+ digit (n mod 10).

(** [glob] of a directory for the names that end with [suffix]. *)
Definition glob {V} (E : env) (suffix : string) (dir : gmap string V)
  : list string :=
  glob_order E (filter (fun n => ends_with suffix n = true)
                       (map fst (map_to_list dir))).

(** ** 1. Download *)

Definition with_compressed (f : gmap string gz_file -> gmap string gz_file)
  (d : day_dir) : day_dir :=
  mkDay (f (compressed d)) (decompressed d) (csv d) (VDID d).
Definition with_decompressed
  (f : gmap string document -> gmap string document) (d : day_dir) : day_dir :=
  mkDay (compressed d) (f (decompressed d)) (csv d) (VDID d).
Definition with_csv (f : gmap string DataFrame -> gmap string DataFrame)
  (d : day_dir) : day_dir :=
  mkDay (compressed d) (decompressed d) (f (csv d)) (VDID d).
Definition with_VDID (f : gmap string DataFrame -> gmap string DataFrame)
  (d : day_dir) : day_dir :=
  mkDay (compressed d) (decompressed d) (csv d) (f (VDID d)).

(** A destination of the fetch stage: [BASE_DIR/<date>/compressed/<name>]. *)
Definition gz_path : Type := string * string.

Definition gz_at (dest : gz_path) (w : world) : option gz_file :=
  compressed (day_of dest.1 w) !! dest.2.

(** [dest.exists()] *)
Definition gz_exists (dest : gz_path) : M bool :=
  w ← get_world; mret (bool_decide (is_Some (gz_at dest w))).

(** [dest.unlink(missing_ok=...)] *)
Definition gz_unlink (missing_ok : bool) (dest : gz_path) : M unit :=
  ex ← gz_exists dest;
  if ex : bool then update_day dest.1 (with_compressed (delete dest.2))
  else if missing_ok then mret tt else raise OSError.

Definition gz_write (dest : gz_path) (f : gz_file) : M unit :=
  update_day dest.1 (with_compressed (<[dest.2 := f]>)).

(** [dest.stat().st_size] *)
Definition gz_stat_size (dest : gz_path) : M Z :=
  w ← get_world;
  match gz_at dest w with
  | Some f => mret (st_size f)
  | None => raise OSError
  end.

(** [sess.get(url, stream=True, timeout=30)] followed by
    [r.raise_for_status()]: one network retrieval. *)
Definition add_request (url : string) (w : world) : world :=
  mkWorld (days w) (zips w) (url :: requests w).

Definition sess_get (E : env) (url : string) : M response :=
  modify (add_request url);;
  match remote E url with
  | Refused => raise RequestException
  | r => mret r
  end.

(** The file as [dest.open("wb")] leaves it before the first chunk. *)
Definition just_opened : gz_file := mkGz 0 (Breaks Malformed).

Definition _download_one (E : env) (url : string) (dest : gz_path) : M bool :=
  ex ← gz_exists dest;
  if ex : bool then mret true
  else
    fetched ← try_except
      (r ← sess_get E url;
       ensure_dir E dest.1 Compressed;;
       gz_write dest just_opened;;
       match r with
       | Complete body => gz_write dest body
       | _ => raise RequestException
       end;;
       mret true)
      (fun _ => gz_unlink true dest;; mret false);
    if fetched : bool then
      sz ← gz_stat_size dest;
      if sz <? MIN_FILE_SIZE E then gz_unlink false dest;; mret false
      else mret true
    else mret false.

Definition URL_PREFIX : string :=
  "https://tisvcloud.freeway.gov.tw/history/motc20/VD/".

(** [f"VDLive_{h:02d}{m:02d}.xml.gz"] *)
Definition file_name (h m : nat) : string :=
  "VDLive_" +:+ two_digits h +:+ two_digits m +:+ ".xml.gz".

(** The 1440 resource descriptors of a day. *)
Definition tasks (date : string) : list (string * gz_path) :=
  h ← seq 0 24; m ← seq 0 60;
  [(URL_PREFIX +:+ date +:+ "/" +:+ file_name h m, (date, file_name h m))].

(** [fut.result()] for each future, in completion order. *)
Definition results {A B} (outcomes : list (A * result B)) : M unit :=
  for_each (fun o => lift_result o.2 ;; mret tt) outcomes.

Definition download_day (E : env) (date : string) : M string :=
  ensure_dir E date Compressed;;
  outcomes ← (fun w =>
    let '(os, w) :=
      run_pool (fun t => _download_one E t.1 t.2)
               (completion_order E _ (tasks date)) w in
    (Ok os, w));
  results outcomes;;
  mret date.

(** ** 2. Decompress *)

Definition decompress_day (E : env) (day : string) : M string :=
  ensure_dir E day Decompressed;;
  w ← get_world;
  let gz_files := glob E ".xml.gz" (compressed (day_of day w)) in
  for_each
    (fun gz =>
       let out := with_suffix_empty gz in
       w ← get_world;
       if bool_decide (is_Some (decompressed (day_of day w) !! out))
       then mret tt
       else
         try_except
           (match compressed (day_of day w) !! gz with
            | None => raise OSError
            | Some f =>
                match gunzip f with
                | Inflates doc =>
                    update_day day (with_decompressed (<[out := doc]>))
                | Breaks partial =>
                    update_day day (with_decompressed (<[out := partial]>));;
                    raise OSError
                end
            end)
           (fun _ => mret tt))
    gz_files;;
  mret day.

(** ** 3. XML to CSV *)

(** One parse task: the worker opens the document and runs the parser
    on it; a document that is not well-formed makes the parser raise. *)
Definition parse_task (parser : element -> DataFrame) (day name : string)
  : M DataFrame :=
  w ← get_world;
  match decompressed (day_of day w) !! name with
  | None => raise OSError
  | Some Malformed => raise ParseError
  | Some (WellFormed root) => mret (parser root)
  end.

Definition xml_to_csv (E : env) (parser : element -> DataFrame) (day : string)
  : M string :=
  ensure_dir E day Csv;;
  w ← get_world;
  let xml_files := glob E ".xml" (decompressed (day_of day w)) in
  outcomes ← (fun w =>
    let '(os, w) :=
      run_pool (parse_task parser day) (completion_order E _ xml_files) w in
    (Ok os, w));
  for_each
    (fun o =>
       df ← lift_result o.2;
       update_day day (with_csv (<[replace_xml_csv o.1 := df]>)))
    outcomes;;
  mret day.

(** ** 4. Split by VDID *)

(** [for x in l: yield f(x)], consumed to its end. *)
Fixpoint collect {A B} (f : A -> M B) (l : list A) : M (list B) :=
  match l with
  | [] => mret []
  | x :: r => y ← f x; ys ← collect f r; mret (y :: ys)
  end.

(** [pd.read_csv(p)], with the name of the file. *)
Definition read_table (E : env) (day name : string) : M (string * DataFrame) :=
  w ← get_world;
  match csv (day_of day w) !! name with
  | None => raise OSError
  | Some f => df ← lift_result (read_csv E f); mret (name, df)
  end.

(** The table combiner:
    [pd.concat((t.assign(file_name=name) for ...), ignore_index=True)]. *)
Definition table_combiner (tables : list (string * DataFrame))
  : result DataFrame :=
  concat (map (fun nt => assign "file_name" nt.1 nt.2) tables).

Definition write_table (date : string) (dir : table_dir) (name : string)
  (t : DataFrame) : M unit :=
  match dir with
  | InCsv => update_day date (with_csv (<[name := t]>))
  | InVdid => update_day date (with_VDID (<[name := t]>))
  end.

(** [gdf.to_csv(out_dir / f"{vdid}.csv", index=False)]: the identifier
    goes into the path as it is. A plain name is a file of the
    partition directory; any other is resolved by the operating
    system. *)
Definition write_partition (E : env) (day vdid : string) (gdf : DataFrame)
  : M unit :=
  let name := vdid +:+ ".csv" in
  if plain_name E name then write_table day InVdid name gdf
  else
    w ← get_world;
    match to_csv_elsewhere E day name w with
    | Fails e => raise e
    | Lands d dir n => write_table d dir n gdf
    | Unseen => mret tt
    end.

(** The partition writer: [for vdid, gdf in combined.groupby("VDID"):
    gdf.to_csv(out_dir / f"{vdid}.csv", index=False)]. *)
Definition partition_writer (E : env) (day : string) (combined : DataFrame)
  : M unit :=
  groups ← lift_result (groupby "VDID" combined);
  for_each (fun g => write_partition E day g.1 g.2) groups.

Definition split_by_vdid (E : env) (day : string) : M string :=
  ensure_dir E day Vdid;;
  w ← get_world;
  tables ← collect (read_table E day) (glob E ".csv" (csv (day_of day w)));
  combined ← lift_result (table_combiner tables);
  partition_writer E day combined;;
  mret day.

(** ** 5. Cleanup and zip *)

(** [shutil.rmtree(day_folder / sub, ignore_errors=True)] *)
Definition rmtree_sub (day : string) (clear_sub : day_dir -> day_dir) : M unit :=
  modify (fun w =>
    match days w !! day with
    | Some d => set_day day (clear_sub d) w
    | None => w
    end).

Definition cleanup (day : string) (keep_gz keep_xml keep_csv : bool) : M unit :=
  (if keep_gz then mret tt else rmtree_sub day (with_compressed (fun _ => ∅)));;
  (if keep_xml then mret tt
   else rmtree_sub day (with_decompressed (fun _ => ∅)));;
  (if keep_csv then mret tt else rmtree_sub day (with_csv (fun _ => ∅))).

Definition zip_day (day : string) (delete_after : bool) : M string :=
  modify (fun w =>
    mkWorld (days w) (<[day := day_of day w]> (zips w)) (requests w));;
  (if delete_after then
     w ← get_world;
     match days w !! day with
     | Some _ =>
         modify (fun w => mkWorld (delete day (days w)) (zips w) (requests w))
     | None => raise OSError
     end
   else mret tt);;
  mret day.

(** ** 6. Orchestration *)

Record options : Type := mkOptions {
  keep_gz : bool;
  keep_xml : bool;
  keep_csv : bool;
  zip_and_delete : bool
}.

Definition default_options : options := mkOptions false false true true.

Definition process_day (E : env) (parser : element -> DataFrame)
  (date : string) (o : options) : M unit :=
  day_folder ← download_day E date;
  decompress_day E day_folder;;
  csv_dir ← xml_to_csv E parser day_folder;
  split_by_vdid E csv_dir;;
  cleanup day_folder (keep_gz o) (keep_xml o) (keep_csv o);;
  (if zip_and_delete o then zip_day day_folder true;; mret tt else mret tt).

(** [for _ in range(days): process_day(...); dt -= timedelta(days=1)] *)
Fixpoint batch_loop (E : env) (parser : element -> DataFrame) (o : options)
  (n : nat) (dt : Z) : M unit :=
  match n with
  | O => mret tt
  | S n =>
      process_day E parser (strftime E dt) o;;
      batch_loop E parser o n (dt - 1)
  end.

Definition batch (E : env) (parser : element -> DataFrame)
  (start_date : string) (days : Z) (o : options) : M unit :=
  match strptime E start_date with
  | None => raise ValueError
  | Some dt => batch_loop E parser o (Z.to_nat days) dt
  end.

(** The two programs differ in the parser they run (and in logging). *)
Module Main.
Definition xml_to_csv (E : env) := xml_to_csv E Lxml._parse_xml_lxml.
Definition process_day (E : env) := process_day E Lxml._parse_xml_lxml.
Definition batch (E : env) := batch E Lxml._parse_xml_lxml.
End Main.

Module Refactored.
Definition xml_to_csv (E : env) := xml_to_csv E ET._parse_xml.
Definition process_day (E : env) := process_day E ET._parse_xml.
Definition batch (E : env) := batch E ET._parse_xml.
End Refactored.

(** ** Command line *)

(** What [build_cli().parse_args()] returns. *)
Record args : Type := mkArgs {
  arg_date : string;
  arg_days : Z;
  arg_keep_gz : bool;
  arg_keep_xml : bool;
  arg_keep_csv : bool;
  arg_no_zip : bool
}.

(** The flags as [build_cli] defaults them ([--days 1], every
    [store_true] flag off), for a given [--date]. *)
Definition cli_defaults (date : string) : args :=
  mkArgs date 1 false false false false.

(** The [__main__] block. *)
Definition main (E : env) (parser : element -> DataFrame) (a : args) : M unit :=
  let kwargs :=
    mkOptions (arg_keep_gz a) (arg_keep_xml a) (arg_keep_csv a)
              (negb (arg_no_zip a)) in
  if arg_days a =? 1 then process_day E parser (arg_date a) kwargs
  else batch E parser (arg_date a) (arg_days a) kwargs.

(** ** A calendar for the examples

    The proleptic Gregorian calendar as day numbers, with the
    [%Y%m%d] format for eight-digit dates. *)
Module Calendar.

Definition days_from_civil (y m d : Z) : Z :=
  let y := if m <=? 2 then y - 1 else y in
  let era := y / 400 in
  let yoe := y - era * 400 in
  let doy := (153 * (if m >? 2 then m - 3 else m + 9) + 2) / 5 + d - 1 in
  let doe := yoe * 365 + yoe / 4 - yoe / 100 + doy in
  era * 146097 + doe - 719468.

Definition civil_from_days (z : Z) : Z * Z * Z :=
  let z := z + 719468 in
  let era := z / 146097 in
  let doe := z - era * 146097 in
  let yoe := (doe - doe / 1460 + doe / 36524 - doe / 146096) / 365 in
  let doy := doe - (365 * yoe + yoe / 4 - yoe / 100) in
  let mp := (5 * doy + 2) / 153 in
  let d := doy - (153 * mp + 2) / 5 + 1 in
  let m := if mp <? 10 then mp + 3 else mp - 9 in
  ((yoe + era * 400) + (if m <=? 2 then 1 else 0), m, d).

Definition strftime (z : Z) : string :=
  let '(y, m, d) := civil_from_days z in
  two_digits (Z.to_nat (y / 100)) +:+ two_digits (Z.to_nat (y mod 100))
    +:+ two_digits (Z.to_nat m) +:+ two_digits (Z.to_nat d).

Definition digit_value (c : ascii) : option Z :=
  let n := Z.of_nat (nat_of_ascii c) in
  if (48 <=? n) && (n <=? 57) then Some (n - 48) else None.

Fixpoint number (acc : Z) (s : string) : option Z :=
  match s with
  | EmptyString => Some acc
  | String c r => v ← digit_value c; number (10 * acc + v) r
  end.

Definition strptime (s : string) : option Z :=
  if bool_decide (String.length s = 8%nat) then
    y ← number 0 (String.substring 0 4 s);
    m ← number 0 (String.substring 4 2 s);
    d ← number 0 (String.substring 6 2 s);
    let z := days_from_civil y m d in
    if bool_decide (civil_from_days z = (y, m, d)) then Some z else None
  else None.

End Calendar.

(** ** A small archive for the examples

    Two minutes of the day are published: [0000] holds the sample
    document, [0001] a file that is too short. *)
Module Demo.

Definition good : gz_file := mkGz 2048 (Inflates (WellFormed Sample.doc)).
Definition short : gz_file := mkGz 10 (Inflates (WellFormed Sample.doc)).
Definition corrupt : gz_file := mkGz 4096 (Breaks Malformed).

Definition url (date hhmm : string) : string :=
  URL_PREFIX +:+ date +:+ "/VDLive_" +:+ hhmm +:+ ".xml.gz".

Definition archive (u : string) : response :=
  if String.eqb u (url "20240530" "0000") then Complete good
  else if String.eqb u (url "20240530" "0001") then Complete short
  else if String.eqb u (url "20240530" "0002") then Interrupted
  else if String.eqb u (url "20240529" "0000") then Complete good
  else Refused.

Definition E : env :=
  mkEnv 1024 archive (fun _ _ => true) (fun _ l => l) (fun l => l) Ok
        Calendar.strptime Calendar.strftime 255 (fun _ _ _ => Fails OSError).

Definition w0 : world := mkWorld ∅ ∅ [].

(** An archive whose file for minute 0000 is fine and whose file for
    minute 0001 is corrupt: the decompressor breaks on it. *)
Definition archive_corrupt (u : string) : response :=
  if String.eqb u (url "20240530" "0000") then Complete good
  else if String.eqb u (url "20240530" "0001") then Complete corrupt
  else Refused.

Definition E_corrupt : env :=
  mkEnv 1024 archive_corrupt (fun _ _ => true) (fun _ l => l) (fun l => l) Ok
        Calendar.strptime Calendar.strftime 255 (fun _ _ _ => Fails OSError).

(** A day folder with two documents, one of which does not parse. *)
Definition w_docs : world :=
  mkWorld {[ "20240530" :=
             mkDay ∅ {[ "VDLive_0000.xml" := WellFormed Sample.doc;
                        "VDLive_0001.xml" := Malformed ]} ∅ ∅ ]}
          ∅ [].

Definition keep_all : options := mkOptions true true true false.

(** A day folder that already holds a ten-byte file for minute 0000. *)
Definition w_stale : world :=
  mkWorld {[ "20240530" :=
             mkDay {[ "VDLive_0000.xml.gz" := short ]} ∅ ∅ ∅ ]} ∅ [].

End Demo.

(** ** Vocabulary of the properties *)

(** The elements the loop body receives over a whole document, in
    order and each as the body finds it, and the element as the loop
    leaves it: a [VDLive] element is cleared once the body is done with
    it, whatever its identifier. *)
Fixpoint end_events (e : element) : list element * element :=
  match e with
  | Element t x cs =>
      let '(evs, cs) :=
        (fix go (l : list element) : list element * list element :=
           match l with
           | [] => ([], [])
           | c :: r =>
               let '(ec, c) := end_events c in
               let '(er, r) := go r in
               (ec ++ er, c :: r)
           end) cs in
      let e := Element t x cs in
      (evs ++ [e],
       if String.eqb t (Lxml.NS +:+ "VDLive") then clear e else e)
  end.

(** The stages of [process_day] that come before the split. *)
Definition first_three_stages (E : env) (parser : element -> DataFrame)
  (date : string) : M string :=
  day_folder ← download_day E date;
  decompress_day E day_folder;;
  xml_to_csv E parser day_folder.


(** Device [vdid] has, in its lane record [lane_key], the field [k]. *)
Definition has_field (data : data_t) (vdid lane_key k : string) : Prop :=
  exists lanes rec,
    Dict.get vdid data = Some lanes
    /\ Dict.get lane_key lanes = Some rec
    /\ is_Some (Dict.get k rec).

Definition lanes_have (lanes : lanes_t) (lane_key k : string) : Prop :=
  exists rec, Dict.get lane_key lanes = Some rec /\ is_Some (Dict.get k rec).

(** Shorthands for the fields the transformers read. *)
Definition VDID_of (e : element) : string :=
  findtext (Child (Lxml.NS +:+ "VDID")) EmptyString e.
Definition LaneID_of (lane : element) : string :=
  findtext (Child (Lxml.NS +:+ "LaneID")) EmptyString lane.
Definition VehicleType_of (veh : element) : string :=
  findtext (Child (Lxml.NS +:+ "VehicleType")) EmptyString veh.
Definition Volume_of (veh : element) : string :=
  findtext (Child (Lxml.NS +:+ "Volume")) EmptyString veh.
Definition Speed_of (veh : element) : string :=
  findtext (Child (Lxml.NS +:+ "Speed")) EmptyString veh.
Definition lanes_of (e : element) : list element :=
  findall (Descendant (Lxml.NS +:+ "Lane")) e.
Definition vehicles_of (lane : element) : list element :=
  findall (Descendant (Lxml.NS +:+ "Vehicle")) lane.

Definition Occupancy_of (lane : element) : string :=
  findtext (Child (Lxml.NS +:+ "Occupancy")) EmptyString lane.

(** The device identifiers the loop acts on, in document order: those of
    the snapshot elements it is given, the empty ones left out. *)
Definition device_ids (root : element) : list string :=
  filter (fun v => v <> EmptyString)
    (map VDID_of
       (filter (fun x => tag x = Lxml.NS +:+ "VDLive") (end_events root).1)).

(** A computation keeps an observation of the world when the
    observation is the same after it as before, whether it returns or
    raises. *)
Definition keeps {X A : Type} (obs : world -> X) (m : M A) : Prop :=
  forall w, obs (m w).2 = obs w.


(** A frame whose rows all have one cell per column. *)
Definition rectangular (df : DataFrame) : Prop :=
  Forall (fun r => length r = length (columns df)) (values df).

(** The names a lane record is filled under: the two readings of the
    lane, [rec["Speed"]] and [rec["Occupancy"]], and for a vehicle
    type that is given, [f"{vt}_Volume"] and [f"{vt}_Vehicle_Speed"]. *)
Definition lane_field (k : string) : Prop :=
  k = "Speed" \/ k = "Occupancy"
  \/ exists vt, vt <> EmptyString
       /\ (k = vt +:+ "_Volume" \/ k = vt +:+ "_Vehicle_Speed").

(** The label of a lane column, [f"{lane_id}_{k}"], where the lane key
    is [f"L{lane_id}"] and [k] is a name of a lane record. *)
Definition lane_column (c : string) : Prop :=
  exists lane_id k, c = ("L" +:+ lane_id) +:+ "_" +:+ k /\ lane_field k.

(** Lane records filled under those names only, kept under lane keys. *)
Definition lane_records (lanes : lanes_t) : Prop :=
  Forall (fun lkv => (exists lane_id, lkv.1 = "L" +:+ lane_id)
                     /\ Forall (fun kv => lane_field kv.1) lkv.2) lanes.

(** What decompressing an artifact leaves in the output file: the
    document, or what had been copied when the copy broke. *)
Definition unpacked (f : gz_file) : document :=
  match gunzip f with
  | Inflates doc => doc
  | Breaks partial => partial
  end.

(** The body of the loop of [decompress_day] for one artifact. *)
Definition decompress_body (day gz : string) : M unit :=
  let out := with_suffix_empty gz in
  w ← get_world;
  if bool_decide (is_Some (decompressed (day_of day w) !! out))
  then mret tt
  else
    try_except
      (match compressed (day_of day w) !! gz with
       | None => raise OSError
       | Some f =>
           match gunzip f with
           | Inflates doc =>
               update_day day (with_decompressed (<[out := doc]>))
           | Breaks partial =>
               update_day day (with_decompressed (<[out := partial]>));;
               raise OSError
           end
       end)
      (fun _ => mret tt).

(** Parts of the sample document: the first snapshot element the loop
    sees, its first lane, that lane's second vehicle element, and the
    snapshot element that has no device identifier. *)
Module SampleParts.
Definition seen : list element := (end_events Sample.doc).1.
Definition snapshot : element := default Sample.doc (seen !! 30%nat).
Definition lane : element := default Sample.doc (lanes_of snapshot !! 0%nat).
Definition veh : element := default Sample.doc (vehicles_of lane !! 1%nat).
Definition anonymous : element := default Sample.doc (seen !! 49%nat).
End SampleParts.

(** Day folders for the examples: one with a single well-formed
    document, one with two tables. *)
Module Folders.
Definition one_document : world :=
  mkWorld {[ "20240530" :=
             mkDay ∅ {[ "VDLive_0000.xml" := WellFormed Sample.doc ]} ∅ ∅ ]}
          ∅ [].
Definition two_tables : world :=
  mkWorld {[ "20240530" :=
             mkDay ∅ ∅ {[ "a.csv" := Sample.table_a;
                          "b.csv" := Sample.table_b ]} ∅ ]}
          ∅ [].

(** A combined table with a device whose identifier holds a slash. *)
Definition slashed : DataFrame :=
  mkDataFrame ["VDID"; "L1_Speed"; "file_name"]
    [[Some "N1/S"; Some "60"; Some "VDLive_0000.csv"];
     [Some "B"; Some "50"; Some "VDLive_0000.csv"]].

(** A combined table with a device whose identifier is the empty
    string. *)
Definition unnamed : DataFrame :=
  mkDataFrame ["VDID"; "L1_Speed"; "file_name"]
    [[Some "A"; Some "60"; Some "VDLive_0000.csv"];
     [Some EmptyString; Some "50"; Some "VDLive_0000.csv"]].

(** A folder with the table of such a device. *)
Definition slashed_table : world :=
  mkWorld {[ "20240530" :=
             mkDay ∅ ∅ {[ "VDLive_0000.csv" :=
                          mkDataFrame ["VDID"; "L1_Speed"]
                            [[Some "N1/S"; Some "60"];
                             [Some "B"; Some "50"]] ]} ∅ ]}
          ∅ [].

(** A file system in which the path of a name that is not plain leads
    into the partitions of the day before. *)
Definition E_escape : env :=
  mkEnv 1024 Demo.archive (fun _ _ => true) (fun _ l => l) (fun l => l) Ok
        Calendar.strptime Calendar.strftime 255
        (fun _ _ _ => Lands "20240529" InVdid "A.csv").
End Folders.

(** * Properties *)

(** ** Element trees: induction through the children *)

Lemma element_children_ind (P : element -> Prop)
  (step : forall t x cs, Forall P cs -> P (Element t x cs)) :
  forall e, P e.
Proof.
  fix IH 1. intros [t x cs]. apply step.
  induction cs as [|c cs IHcs]; constructor; [apply IH | exact IHcs].
Qed.

(** ** The two transformers agree *)

Lemma lane_body_agree lanes lane :
  Lxml.lane_body lanes lane = ET.lane_body lanes lane.
Proof. reflexivity. Qed.

Lemma body_agree data e :
  tag e = Lxml.NS +:+ "VDLive" ->
  Lxml.body data e = ET.body data e.
Proof.
  intros Ht. unfold ET.body.
  replace ("{" +:+ ET.NAMESPACE_ns +:+ "}VDLive") with (Lxml.NS +:+ "VDLive")
    by reflexivity.
  rewrite Ht, String.eqb_refl. cbn [negb].
  unfold Lxml.body, findtext.
  change (ET.qname ET.NAMESPACE "ns" "VDID") with (Lxml.NS +:+ "VDID").
  change (ET.qname ET.NAMESPACE "ns" "Lane") with (Lxml.NS +:+ "Lane").
  destruct (find (Child (Lxml.NS +:+ "VDID")) e) as [v|]; [|reflexivity].
  destruct (text v) as [s|]; [|reflexivity].
  destruct (is_empty s); [reflexivity|].
  destruct (Dict.setdefault s Dict.empty data) as [lanes data'].
  reflexivity.
Qed.

Lemma body_skip data e :
  tag e <> Lxml.NS +:+ "VDLive" -> ET.body data e = (data, e).
Proof.
  intros Ht. unfold ET.body.
  replace ("{" +:+ ET.NAMESPACE_ns +:+ "}VDLive") with (Lxml.NS +:+ "VDLive")
    by reflexivity.
  apply String.eqb_neq in Ht. rewrite Ht. reflexivity.
Qed.

Lemma iterparse_loop_agree e :
  forall data,
    Lxml.iterparse_loop (Lxml.NS +:+ "VDLive") data e = ET.iterparse_loop data e.
Proof.
  induction e as [t x cs IH] using element_children_ind. intros data.
  cbn [Lxml.iterparse_loop ET.iterparse_loop].
  match goal with
  | |- (let '(_, _) := ?f data cs in _) = (let '(_, _) := ?g data cs in _) =>
      assert (Hgo : forall d, f d cs = g d cs)
  end.
  { induction IH as [|c cs Hc _ IHcs]; intros d; [reflexivity|].
    rewrite Hc. destruct (ET.iterparse_loop d c) as [d1 c'].
    rewrite IHcs. reflexivity. }
  rewrite Hgo.
  match goal with |- context [?g data cs] => destruct (g data cs) as [d' cs'] end.
  destruct (String.eqb t (Lxml.NS +:+ "VDLive")) eqn:Ht.
  - apply String.eqb_eq in Ht. apply body_agree. exact Ht.
  - apply String.eqb_neq in Ht. symmetry. apply body_skip. exact Ht.
Qed.

(** Given one and the same element tree, the two loops build the same
    table. *)
Lemma loops_agree_on_a_tree :
  (forall root : element, Lxml._parse_xml_lxml root = ET._parse_xml root)
  /\ (forall day name w,
        parse_task Lxml._parse_xml_lxml day name w
        = parse_task ET._parse_xml day name w).
Proof.
  assert (H : forall root, Lxml._parse_xml_lxml root = ET._parse_xml root).
  { intros root. unfold Lxml._parse_xml_lxml, ET._parse_xml.
    rewrite iterparse_loop_agree. reflexivity. }
  split; [exact H|].
  intros day name w. unfold parse_task, mbind, M_bind, get_world.
  destruct (decompressed (day_of day w) !! name) as [[root|]|]; try reflexivity.
  rewrite H. reflexivity.
Qed.

(** The two libraries build the same tree from markup that holds no
    comment and no processing instruction. *)
Lemma tree_without_asides (m : markup) :
  no_asides m = true -> tree true m = tree false m.
Proof.
  revert m. fix IH 1. intros [t content| s | s]; [|reflexivity|discriminate].
  cbn [no_asides tree]. intros Hc.
  assert (Htext : leading_text true content = leading_text false content).
  { induction content as [|[t' c'|s'|s'] r IHr]; try reflexivity.
    - cbn [leading_text]. f_equal. apply IHr.
      cbn in Hc. exact Hc.
    - cbn in Hc. discriminate. }
  rewrite Htext. clear Htext. do 2 f_equal.
  induction content as [|c r IHr]; [reflexivity|].
  apply andb_true_iff in Hc as [Hc Hr].
  rewrite (IH c Hc). f_equal. apply IHr. exact Hr.
Qed.

(** C4. The file
    [<VDList><VDLive><VDID><!--c-->V9</VDID></VDLive></VDList>] is read
    differently by the two programs: for lxml the text of the [VDID]
    element ends at the comment, so [_parse_xml_lxml] of [main.py] finds
    no device identifier and returns the empty table; ElementTree drops
    the comment, so [_parse_xml] of [vd_pipeline_refactored.py] returns
    one row for device [V9]. The difference is in the trees the
    libraries build: given one and the same tree, the two loops return
    the same table. *)
Theorem comment_splits_the_parsers :
  main_table Files.commented = Some (mkDataFrame [] [])
  /\ refactored_table Files.commented
     = Some (mkDataFrame ["VDID"] [[Some "V9"]])
  /\ lxml_tree Files.commented <> et_tree Files.commented
  /\ (forall root : element, Lxml._parse_xml_lxml root = ET._parse_xml root).
Proof.
  split; [vm_compute; reflexivity|]. split; [vm_compute; reflexivity|].
  split; [vm_compute; discriminate | apply loops_agree_on_a_tree].
Qed.

(** On a file without comments and processing instructions the two
    programs make the same table. *)
Lemma tables_agree_without_asides (file : markup) :
  no_asides file = true -> main_table file = refactored_table file.
Proof.
  intros Hfile. unfold main_table, refactored_table, lxml_tree, et_tree.
  rewrite (tree_without_asides file Hfile).
  destruct (head (tree false file)) as [root|]; [|reflexivity].
  cbn. f_equal. apply loops_agree_on_a_tree.
Qed.

(** ** Strings *)

Lemma to_list_append (a b : string) :
  String.list_ascii_of_string (a +:+ b)
  = String.list_ascii_of_string a ++ String.list_ascii_of_string b.
Proof.
  induction a as [|c a IH]; [reflexivity|].
  change (String c a +:+ b) with (String c (a +:+ b)).
  cbn [String.list_ascii_of_string app]. now rewrite IH.
Qed.

Lemma to_list_inj (a b : string) :
  String.list_ascii_of_string a = String.list_ascii_of_string b -> a = b.
Proof.
  intros H. rewrite <- (String.string_of_list_ascii_of_string a),
    <- (String.string_of_list_ascii_of_string b). now rewrite H.
Qed.

Lemma append_inj_l (s a b : string) : a +:+ s = b +:+ s -> a = b.
Proof.
  intros H. apply to_list_inj.
  apply (f_equal String.list_ascii_of_string) in H.
  rewrite !to_list_append in H. now apply app_inv_tail in H.
Qed.

Lemma append_inj_r (s a b : string) : s +:+ a = s +:+ b -> a = b.
Proof.
  intros H. apply to_list_inj.
  apply (f_equal String.list_ascii_of_string) in H.
  rewrite !to_list_append in H. now apply app_inv_head in H.
Qed.

Lemma last_append (a b : string) :
  b <> EmptyString ->
  last (String.list_ascii_of_string (a +:+ b)) = last (String.list_ascii_of_string b).
Proof.
  intros Hb. rewrite to_list_append.
  destruct b as [|c b]; [congruence|]. cbn [String.list_ascii_of_string].
  induction (String.list_ascii_of_string a) as [|x l IH]; [reflexivity|].
  cbn [app]. rewrite <- IH. destruct l; reflexivity.
Qed.


Lemma is_empty_true (s : string) : is_empty s = true <-> s = EmptyString.
Proof. destruct s; cbn; split; congruence. Qed.

Lemma is_empty_false (s : string) : is_empty s = false <-> s <> EmptyString.
Proof. destruct s; cbn; split; congruence. Qed.

(** ** Dictionaries *)

Lemma get_set_eq {V} (k : string) (v : V) (d : Dict.t V) :
  Dict.get k (Dict.set k v d) = Some v.
Proof.
  induction d as [|[k' v'] d IH]; cbn.
  - now rewrite String.eqb_refl.
  - destruct (String.eqb k' k) eqn:E; cbn; rewrite E; [reflexivity | exact IH].
Qed.

Lemma get_set_ne {V} (k k' : string) (v : V) (d : Dict.t V) :
  k <> k' -> Dict.get k' (Dict.set k v d) = Dict.get k' d.
Proof.
  intros Hne. induction d as [|[k0 v0] d IH]; cbn.
  - apply String.eqb_neq in Hne. now rewrite Hne.
  - destruct (String.eqb k0 k) eqn:E; cbn.
    + apply String.eqb_eq in E. subst k0.
      apply String.eqb_neq in Hne. now rewrite Hne.
    + now rewrite IH.
Qed.

Lemma get_set {V} (k k' : string) (v : V) (d : Dict.t V) :
  Dict.get k' (Dict.set k v d)
  = if String.eqb k k' then Some v else Dict.get k' d.
Proof.
  destruct (String.eqb k k') eqn:E.
  - apply String.eqb_eq in E. subst. apply get_set_eq.
  - apply String.eqb_neq in E. now apply get_set_ne.
Qed.

Lemma get_Some_elem {V} (k : string) (v : V) (d : Dict.t V) :
  Dict.get k d = Some v -> (k, v) ∈ d.
Proof.
  induction d as [|[k' v'] d IH]; cbn; [discriminate|].
  destruct (String.eqb k' k) eqn:E.
  - apply String.eqb_eq in E. intros [= ->]. subst. left.
  - intros H. right. now apply IH.
Qed.

Lemma elem_get_is_Some {V} (k : string) (v : V) (d : Dict.t V) :
  (k, v) ∈ d -> is_Some (Dict.get k d).
Proof.
  induction d as [|[k' v'] d IH]; [inversion 1|].
  intros H. cbn. destruct (String.eqb k' k) eqn:E; [eauto|].
  apply IH. apply elem_of_cons in H as [[= -> ->]|H]; [|exact H].
  now rewrite String.eqb_refl in E.
Qed.

Lemma keys_get {V} (k : string) (d : Dict.t V) :
  k ∈ Dict.keys d <-> is_Some (Dict.get k d).
Proof.
  unfold Dict.keys. split.
  - intros H. apply list_elem_of_fmap in H as ([k' v] & -> & H).
    now apply elem_get_is_Some in H.
  - intros [v H]. apply get_Some_elem in H.
    apply list_elem_of_fmap. exists (k, v). auto.
Qed.

(** Assigning a key only ever adds that key. *)
Lemma Forall_keys_set {V} (Q : string -> Prop) (k : string) (v : V)
  (d : Dict.t V) :
  Q k -> Forall (fun kv => Q kv.1) d -> Forall (fun kv => Q kv.1) (Dict.set k v d).
Proof.
  intros Hk. induction 1 as [|[k' v'] d Hx Hd IH]; cbn.
  - repeat constructor. exact Hk.
  - destruct (String.eqb k' k); constructor; auto.
Qed.

Lemma Forall_keys_setdefault {V} (Q : string -> Prop) (k : string) (v : V)
  (d : Dict.t V) :
  Q k -> Forall (fun kv => Q kv.1) d ->
  Forall (fun kv => Q kv.1) (Dict.setdefault k v d).2.
Proof.
  intros Hk Hd. unfold Dict.setdefault.
  destruct (Dict.get k d); cbn [snd]; [exact Hd|].
  now apply Forall_keys_set.
Qed.

Lemma get_update_other {V} (k : string) (d other : Dict.t V) :
  Forall (fun kv => kv.1 <> k) other ->
  Dict.get k (Dict.update d other) = Dict.get k d.
Proof.
  unfold Dict.update. intros H. revert d.
  induction H as [|[k' v'] other Hx _ IH]; intros d; cbn; [reflexivity|].
  rewrite IH. now apply get_set_ne.
Qed.

Lemma get_update_elem {V} (k : string) (d other : Dict.t V) :
  is_Some (Dict.get k other) \/ is_Some (Dict.get k d) ->
  is_Some (Dict.get k (Dict.update d other)).
Proof.
  unfold Dict.update. revert d.
  induction other as [|[k' v'] other IH]; intros d; cbn.
  - intros [[? [=]]|H]; exact H.
  - intros H. apply IH. rewrite get_set.
    destruct (String.eqb k' k) eqn:E; [right; eauto|].
    destruct H as [H|H]; [left | right]; exact H.
Qed.

(** ** Invariants of the parsing loop *)

(** What the loop body preserves, the whole loop preserves. *)
Lemma iterparse_loop_inv (P : data_t -> Prop)
  (HP : forall d e, P d -> P (ET.body d e).1) :
  forall e d, P d -> P (ET.iterparse_loop d e).1.
Proof.
  induction e as [t x cs IH] using element_children_ind. intros d Hd.
  cbn [ET.iterparse_loop].
  match goal with
  | |- context [let '(_, _) := ?g d cs in _] =>
      assert (Hgo : forall d, P d -> P (g d cs).1)
  end.
  { clear d Hd. induction IH as [|c cs Hc _ IHcs]; intros d Hd; [exact Hd|].
    specialize (Hc d Hd). destruct (ET.iterparse_loop d c) as [d1 c'].
    specialize (IHcs d1 Hc).
    match goal with |- context [?g d1 cs] => destruct (g d1 cs) end.
    exact IHcs. }
  specialize (Hgo d Hd).
  match goal with |- context [?g d cs] => destruct (g d cs) as [d' cs'] end.
  apply HP, Hgo.
Qed.

Lemma body_keys_nonempty d e :
  Forall (fun kv => kv.1 <> EmptyString) d -> Forall (fun kv => kv.1 <> EmptyString) (ET.body d e).1.
Proof.
  intros Hd. unfold ET.body.
  destruct (negb _); [exact Hd|].
  destruct (is_empty _) eqn:Hv; [exact Hd|].
  apply is_empty_false in Hv.
  pose proof (Forall_keys_setdefault (fun k => k <> EmptyString) _ Dict.empty d Hv Hd)
    as H.
  destruct (Dict.setdefault _ Dict.empty d) as [lanes data']. cbn [fst snd] in *.
  now apply (Forall_keys_set (fun k => k <> EmptyString)).
Qed.

Lemma parse_keys_nonempty root :
  Forall (fun kv => kv.1 <> EmptyString) (ET.iterparse_loop [] root).1.
Proof.
  apply (iterparse_loop_inv (Forall (fun kv => kv.1 <> EmptyString))).
  - apply body_keys_nonempty.
  - constructor.
Qed.

(** ** Flattening *)

Lemma record_columns_keys lane_id kv :
  Forall (fun c => exists k, c.1 = lane_id +:+ "_" +:+ k)
         (record_columns lane_id kv).
Proof.
  unfold record_columns.
  assert (H : forall acc : Dict.t string,
    Forall (fun c => exists k, c.1 = lane_id +:+ "_" +:+ k) acc ->
    Forall (fun c => exists k, c.1 = lane_id +:+ "_" +:+ k)
      (fold_left (fun acc '(k, v) => Dict.set (lane_id +:+ "_" +:+ k) v acc)
                 kv acc)).
  { induction kv as [|[k v] kv IH]; intros acc Hacc; [exact Hacc|].
    cbn. apply IH.
    apply (Forall_keys_set (fun c => exists k, c = lane_id +:+ "_" +:+ k));
      eauto. }
  apply H. constructor.
Qed.

Lemma underscore_not_VDID (a b : string) : a +:+ "_" +:+ b <> "VDID".
Proof.
  intros H. apply (f_equal String.list_ascii_of_string) in H.
  rewrite !to_list_append in H.
  assert (Hin : "_"%char ∈ String.list_ascii_of_string "VDID").
  { rewrite <- H. set_solver. }
  cbn in Hin. set_solver.
Qed.

Lemma flatten_row_VDID vdid lanes :
  Dict.get "VDID" (flatten_row vdid lanes) = Some vdid.
Proof.
  unfold flatten_row.
  assert (H : forall row : Dict.t string,
    Dict.get "VDID" row = Some vdid ->
    Dict.get "VDID"
      (fold_left (fun row '(lane_id, kv) =>
                    Dict.update row (record_columns lane_id kv)) lanes row)
    = Some vdid).
  { induction lanes as [|[lk kv] lanes IH]; intros row Hrow; [exact Hrow|].
    cbn. apply IH. rewrite get_update_other; [exact Hrow|].
    eapply Forall_impl; [apply record_columns_keys|].
    intros c [k Hk]. rewrite Hk. apply underscore_not_VDID. }
  apply H. reflexivity.
Qed.

(** ** Frames built from records *)

Lemma union_cols_app l1 l2 c :
  c ∈ union_cols l1 l2 <-> c ∈ l1 \/ c ∈ l2.
Proof.
  unfold union_cols. revert l1.
  induction l2 as [|x l2 IH]; intros l1; cbn.
  - set_solver.
  - rewrite IH. case_bool_decide; set_solver.
Qed.

Lemma record_cols_elem (rows : list (Dict.t string)) acc c :
  c ∈ fold_left (fun acc r => union_cols acc (Dict.keys r)) rows acc
  <-> c ∈ acc \/ exists r, r ∈ rows /\ c ∈ Dict.keys r.
Proof.
  revert acc. induction rows as [|r rows IH]; intros acc; cbn.
  - set_solver.
  - rewrite IH, union_cols_app. set_solver.
Qed.

Lemma index_of_lookup c cols :
  c ∈ cols -> exists i, index_of c cols = Some i /\ cols !! i = Some c.
Proof.
  induction cols as [|c' cols IH]; [inversion 1|].
  intros H. cbn. destruct (String.eqb c' c) eqn:E.
  - apply String.eqb_eq in E. subst. exists O. auto.
  - apply elem_of_cons in H as [->|H].
    + now rewrite String.eqb_refl in E.
    + destruct (IH H) as (i & -> & Hi). exists (S i). auto.
Qed.

Lemma index_of_None c cols : c ∉ cols -> index_of c cols = None.
Proof.
  induction cols as [|c' cols IH]; [reflexivity|].
  intros H. cbn. destruct (String.eqb c' c) eqn:E.
  - apply String.eqb_eq in E. subst. exfalso. apply H. left.
  - rewrite IH; [reflexivity|]. intros Hc. apply H. now right.
Qed.

Lemma at_col_map (f : string -> cell) cols c :
  c ∈ cols -> at_col cols (map f cols) c = Some (f c).
Proof.
  intros H. destruct (index_of_lookup c cols H) as (i & Hi & Hc).
  unfold at_col. rewrite Hi. cbn.
  change (map f cols) with (f <$> cols).
  now rewrite list_lookup_fmap, Hc.
Qed.

Lemma at_col_None cols r c : c ∉ cols -> at_col cols r c = None.
Proof. intros H. unfold at_col. now rewrite index_of_None. Qed.

(** A key of a record is a column of the frame, and the record's row
    holds its value there. *)
Lemma DataFrame_of_records_cell rows r k v :
  r ∈ rows -> Dict.get k r = Some v ->
  let df := DataFrame_of_records rows in
  k ∈ columns df
  /\ at_col (columns df) (map (fun c => Dict.get c r) (columns df)) k
     = Some (Some v).
Proof.
  intros Hr Hk df.
  assert (Hc : k ∈ columns df).
  { apply record_cols_elem. right. exists r. split; [exact Hr|].
    apply keys_get. eauto. }
  split; [exact Hc|]. rewrite at_col_map by exact Hc. now rewrite Hk.
Qed.

Lemma DataFrame_of_records_values rows r' :
  r' ∈ values (DataFrame_of_records rows) ->
  exists r, r ∈ rows
    /\ r' = map (fun c => Dict.get c r) (columns (DataFrame_of_records rows)).
Proof.
  cbn. intros H. apply list_elem_of_fmap in H as (r & -> & Hr). eauto.
Qed.

Lemma parse_rows_VDID root r :
  r ∈ values (ET._parse_xml root) ->
  exists v, at_col (columns (ET._parse_xml root)) r "VDID" = Some (Some v)
            /\ v <> EmptyString.
Proof.
  unfold ET._parse_xml. pose proof (parse_keys_nonempty root) as Hkeys.
  destruct (ET.iterparse_loop [] root) as [data e']. cbn [fst] in Hkeys.
  intros Hr. apply DataFrame_of_records_values in Hr as (r0 & Hr0 & ->).
  assert (Hr0' := Hr0). unfold flatten_rows in Hr0'.
  apply list_elem_of_fmap in Hr0' as ([vdid lanes] & Hrow & Hin).
  exists vdid. split.
  - apply (DataFrame_of_records_cell _ r0 "VDID" vdid Hr0).
    rewrite Hrow. apply flatten_row_VDID.
  - rewrite Forall_forall in Hkeys. apply (Hkeys _ Hin).
Qed.

Lemma lxml_parse_is_et root : Lxml._parse_xml_lxml root = ET._parse_xml root.
Proof.
  unfold Lxml._parse_xml_lxml, ET._parse_xml.
  now rewrite iterparse_loop_agree.
Qed.

(** C5. A sensor-snapshot element whose device identifier is empty or
    absent leaves the collected data as it was, in both transformers, and
    every row of the table either transformer produces for a document has
    a VDID cell that is present and not the empty string. *)
Theorem no_blank_VDID :
  (forall data e,
      findtext (Child (Lxml.NS +:+ "VDID")) EmptyString e = EmptyString ->
      (Lxml.body data e).1 = data /\ (ET.body data e).1 = data)
  /\ (forall root df r,
        df = Lxml._parse_xml_lxml root \/ df = ET._parse_xml root ->
        r ∈ values df ->
        exists v, at_col (columns df) r "VDID" = Some (Some v) /\ v <> EmptyString).
Proof.
  split.
  - intros data e He. split.
    + unfold Lxml.body. unfold findtext in He.
      destruct (find (Child (Lxml.NS +:+ "VDID")) e) as [v|]; [|reflexivity].
      destruct (text v) as [s|]; [|reflexivity]. now rewrite He.
    + unfold ET.body. destruct (negb _); [reflexivity|].
      change (ET.qname ET.NAMESPACE "ns" "VDID") with (Lxml.NS +:+ "VDID").
      now rewrite He.
  - intros root df r [-> | ->] Hr.
    + rewrite lxml_parse_is_et in *. now apply parse_rows_VDID.
    + now apply parse_rows_VDID.
Qed.

Lemma no_blank_VDID_witness :
  ((Lxml.body [] SampleParts.anonymous).1 = []
   /\ (ET.body [] SampleParts.anonymous).1 = [])
  /\ exists v,
       at_col (columns (Lxml._parse_xml_lxml Sample.doc))
              (nth 1 (values (Lxml._parse_xml_lxml Sample.doc)) []) "VDID"
       = Some (Some v) /\ v <> EmptyString.
Proof.
  split.
  - apply (proj1 no_blank_VDID [] SampleParts.anonymous). reflexivity.
  - apply (proj2 no_blank_VDID Sample.doc (Lxml._parse_xml_lxml Sample.doc)).
    + left. reflexivity.
    + vm_compute. right. left.
Defined.

(** ** Lane records *)

Lemma is_Some_get_set {V} (k k' : string) (v : V) (d : Dict.t V) :
  is_Some (Dict.get k d) -> is_Some (Dict.get k (Dict.set k' v d)).
Proof. intros H. rewrite get_set. destruct (String.eqb k' k); eauto. Qed.

Lemma vehicle_body_get (rec : lane_rec) (veh : element) (k : string) :
  Dict.get k (Lxml.vehicle_body rec veh)
  = if is_empty (VehicleType_of veh) then Dict.get k rec
    else if String.eqb (VehicleType_of veh +:+ "_Vehicle_Speed") k
         then Some (Speed_of veh)
         else if String.eqb (VehicleType_of veh +:+ "_Volume") k
              then Some (Volume_of veh)
              else Dict.get k rec.
Proof.
  unfold Lxml.vehicle_body.
  change (findtext (Child (Lxml.NS +:+ "VehicleType")) EmptyString veh)
    with (VehicleType_of veh).
  destruct (is_empty (VehicleType_of veh)); [reflexivity|].
  now rewrite !get_set.
Qed.



Lemma vehicle_fold_mono (vs : list element) (rec : lane_rec) (k : string) :
  is_Some (Dict.get k rec) ->
  is_Some (Dict.get k (fold_left Lxml.vehicle_body vs rec)).
Proof.
  revert rec. induction vs as [|x vs IH]; intros rec H; [exact H|].
  cbn [fold_left]. apply IH. unfold Lxml.vehicle_body.
  destruct (is_empty _); [exact H|]. now do 2 apply is_Some_get_set.
Qed.

(** The record a lane element leaves under its key. *)
Lemma lane_body_get (lanes : lanes_t) (lane : element) :
  Dict.get ("L" +:+ LaneID_of lane) (Lxml.lane_body lanes lane)
  = Some (fold_left Lxml.vehicle_body (vehicles_of lane)
            (Dict.set "Occupancy"
               (findtext (Child (Lxml.NS +:+ "Occupancy")) EmptyString lane)
               (Dict.set "Speed"
                  (findtext (Child (Lxml.NS +:+ "Speed")) EmptyString lane)
                  (default Dict.empty (Dict.get ("L" +:+ LaneID_of lane) lanes))))).
Proof.
  unfold Lxml.lane_body.
  change (findtext (Child (Lxml.NS +:+ "LaneID")) EmptyString lane) with (LaneID_of lane).
  unfold Dict.setdefault.
  destruct (Dict.get ("L" +:+ LaneID_of lane) lanes) as [rec|];
    cbn [default]; now rewrite get_set_eq.
Qed.

Lemma lane_body_get_ne (lanes : lanes_t) (lane : element) (lk : string) :
  lk <> "L" +:+ LaneID_of lane ->
  Dict.get lk (Lxml.lane_body lanes lane) = Dict.get lk lanes.
Proof.
  intros Hne. unfold Lxml.lane_body.
  change (findtext (Child (Lxml.NS +:+ "LaneID")) EmptyString lane) with (LaneID_of lane).
  unfold Dict.setdefault.
  destruct (Dict.get ("L" +:+ LaneID_of lane) lanes) as [rec|];
    rewrite !get_set_ne by congruence; reflexivity.
Qed.

Lemma lane_body_mono lanes lane lk k :
  lanes_have lanes lk k -> lanes_have (Lxml.lane_body lanes lane) lk k.
Proof.
  intros (rec & Hrec & Hk). unfold lanes_have.
  destruct (decide (lk = "L" +:+ LaneID_of lane)) as [->|Hne].
  - rewrite lane_body_get, Hrec. cbn [default]. eexists. split; [reflexivity|].
    apply vehicle_fold_mono. now do 2 apply is_Some_get_set.
  - rewrite lane_body_get_ne by exact Hne. eauto.
Qed.

Lemma lane_fold_mono ls lanes lk k :
  lanes_have lanes lk k -> lanes_have (fold_left Lxml.lane_body ls lanes) lk k.
Proof.
  revert lanes. induction ls as [|l ls IH]; intros lanes H; [exact H|].
  cbn [fold_left]. apply IH. now apply lane_body_mono.
Qed.


(** ** The loop as a fold over the elements it yields *)

Lemma body_snd d x :
  (ET.body d x).2
  = if String.eqb (tag x) (Lxml.NS +:+ "VDLive") then clear x else x.
Proof.
  unfold ET.body.
  replace ("{" +:+ ET.NAMESPACE_ns +:+ "}VDLive") with (Lxml.NS +:+ "VDLive")
    by reflexivity.
  destruct (String.eqb (tag x) (Lxml.NS +:+ "VDLive")); cbn [negb];
    [|reflexivity].
  destruct (is_empty _); [reflexivity|].
  now destruct (Dict.setdefault _ Dict.empty d).
Qed.

Lemma iterparse_loop_events e :
  forall d,
    ET.iterparse_loop d e
    = (fold_left (fun d x => (ET.body d x).1) (end_events e).1 d,
       (end_events e).2).
Proof.
  induction e as [t x cs IH] using element_children_ind. intros d.
  cbn [ET.iterparse_loop end_events].
  match goal with
  | |- (let '(_, _) := ?f d cs in _) = (_ (let '(_, _) := ?g cs in _).1 _, _) =>
      assert (Hgo : forall d,
                 f d cs
                 = (fold_left (fun d x => (ET.body d x).1) (g cs).1 d, (g cs).2))
  end.
  { induction IH as [|c cs Hc _ IHcs]; intros d0; [reflexivity|].
    rewrite Hc, IHcs. destruct (end_events c) as [ec c'].
    match goal with |- context [let '(_, _) := ?g cs in _] =>
      destruct (g cs) as [er r'] end.
    cbn [fst snd]. now rewrite fold_left_app. }
  rewrite Hgo.
  match goal with |- context [let '(_, _) := ?g cs in _] =>
    destruct (g cs) as [evs cs'] end.
  cbn [fst snd]. rewrite fold_left_app. cbn [fold_left].
  match goal with |- ET.body ?d' ?e' = _ =>
    pose proof (body_snd d' e') as Hs; cbn [tag] in Hs; rewrite <- Hs;
    now destruct (ET.body d' e')
  end.
Qed.

(** ** Fields, once written, stay *)

Lemma body_data d x :
  (ET.body d x).1
  = if String.eqb (tag x) (Lxml.NS +:+ "VDLive") then
      if is_empty (VDID_of x) then d
      else Dict.set (VDID_of x)
             (fold_left Lxml.lane_body (lanes_of x)
                        (default Dict.empty (Dict.get (VDID_of x) d)))
             (Dict.setdefault (VDID_of x) Dict.empty d).2
    else d.
Proof.
  unfold ET.body.
  replace ("{" +:+ ET.NAMESPACE_ns +:+ "}VDLive") with (Lxml.NS +:+ "VDLive")
    by reflexivity.
  destruct (String.eqb (tag x) (Lxml.NS +:+ "VDLive")); cbn [negb];
    [|reflexivity].
  change (findtext (Child (ET.qname ET.NAMESPACE "ns" "VDID")) EmptyString x)
    with (VDID_of x).
  destruct (is_empty (VDID_of x)); [reflexivity|].
  unfold Dict.setdefault.
  destruct (Dict.get (VDID_of x) d); reflexivity.
Qed.

Lemma body_get d x vdid :
  Dict.get vdid (ET.body d x).1
  = if String.eqb (tag x) (Lxml.NS +:+ "VDLive")
       && negb (is_empty (VDID_of x)) && String.eqb (VDID_of x) vdid
    then Some (fold_left Lxml.lane_body (lanes_of x)
                 (default Dict.empty (Dict.get vdid d)))
    else Dict.get vdid d.
Proof.
  rewrite body_data.
  destruct (String.eqb (tag x) _); cbn [andb negb]; [|reflexivity].
  destruct (is_empty (VDID_of x)); cbn [andb negb]; [reflexivity|].
  rewrite get_set. destruct (String.eqb (VDID_of x) vdid) eqn:E.
  - apply String.eqb_eq in E. now subst.
  - apply String.eqb_neq in E. unfold Dict.setdefault.
    destruct (Dict.get (VDID_of x) d); cbn [snd]; [reflexivity|].
    now apply get_set_ne.
Qed.

Lemma body_mono d x vdid lk k :
  has_field d vdid lk k -> has_field (ET.body d x).1 vdid lk k.
Proof.
  intros (lanes & rec & Hl & Hr & Hk). unfold has_field. rewrite body_get.
  destruct (_ && _ && _).
  - rewrite Hl. cbn [default].
    destruct (lane_fold_mono (lanes_of x) lanes lk k) as (rec' & ? & ?);
      [exists rec; auto|]. eauto.
  - eauto.
Qed.

Lemma events_mono evs d vdid lk k :
  has_field d vdid lk k ->
  has_field (fold_left (fun d x => (ET.body d x).1) evs d) vdid lk k.
Proof.
  revert d. induction evs as [|x evs IH]; intros d H; [exact H|].
  cbn [fold_left]. apply IH. now apply body_mono.
Qed.



(** ** From a field to a cell *)

Lemma record_columns_get lk (kv : Dict.t string) k :
  is_Some (Dict.get k kv) ->
  is_Some (Dict.get (lk +:+ "_" +:+ k) (record_columns lk kv)).
Proof.
  unfold record_columns.
  assert (H : forall acc : Dict.t string,
    is_Some (Dict.get (lk +:+ "_" +:+ k) acc) \/ is_Some (Dict.get k kv) ->
    is_Some (Dict.get (lk +:+ "_" +:+ k)
      (fold_left (fun acc '(k, v) => Dict.set (lk +:+ "_" +:+ k) v acc) kv acc))).
  { induction kv as [|[k0 v0] kv IH]; intros acc.
    - cbn. intros [H|[? [=]]]. exact H.
    - cbn [fold_left Dict.get]. intros H. apply IH.
      destruct (String.eqb k0 k) eqn:E.
      + apply String.eqb_eq in E. subst. left. rewrite get_set_eq. eauto.
      + destruct H as [H|H]; [left; now apply is_Some_get_set | now right]. }
  intros Hk. apply H. now right.
Qed.

Lemma flatten_row_field vdid (lanes : lanes_t) lk rec k :
  Dict.get lk lanes = Some rec -> is_Some (Dict.get k rec) ->
  is_Some (Dict.get (lk +:+ "_" +:+ k) (flatten_row vdid lanes)).
Proof.
  intros Hlk Hk. apply get_Some_elem in Hlk.
  apply list_elem_of_split in Hlk as (l1 & l2 & ->).
  unfold flatten_row. rewrite fold_left_app. cbn [fold_left].
  match goal with |- context [Dict.update ?r _] => generalize r end.
  intros row.
  assert (H : forall row : Dict.t string,
    is_Some (Dict.get (lk +:+ "_" +:+ k) row) ->
    is_Some (Dict.get (lk +:+ "_" +:+ k)
      (fold_left (fun row '(lane_id, kv) =>
                    Dict.update row (record_columns lane_id kv)) l2 row))).
  { induction l2 as [|[lk' kv'] l2 IH]; intros row' Hrow; [exact Hrow|].
    cbn [fold_left]. apply IH. apply get_update_elem. now right. }
  apply H. apply get_update_elem. left. now apply record_columns_get.
Qed.

Lemma has_field_cell data vdid lk k :
  has_field data vdid lk k ->
  let df := DataFrame_of_records (flatten_rows data) in
  exists r v,
    r ∈ values df
    /\ at_col (columns df) r "VDID" = Some (Some vdid)
    /\ at_col (columns df) r (lk +:+ "_" +:+ k) = Some (Some v).
Proof.
  intros (lanes & rec & Hl & Hr & Hk) df.
  assert (Hrow : flatten_row vdid lanes ∈ flatten_rows data).
  { apply get_Some_elem in Hl. unfold flatten_rows.
    apply list_elem_of_fmap. now exists (vdid, lanes). }
  destruct (flatten_row_field vdid lanes lk rec k Hr Hk) as [v Hv].
  exists (map (fun c => Dict.get c (flatten_row vdid lanes)) (columns df)), v.
  split; [|split].
  - cbn. apply list_elem_of_fmap. eauto.
  - apply (DataFrame_of_records_cell _ _ "VDID" vdid Hrow).
    apply flatten_row_VDID.
  - now apply (DataFrame_of_records_cell _ _ _ v Hrow).
Qed.




(** ** The fetch stage *)

Lemma day_of_set_day date date' d w :
  day_of date' (set_day date d w)
  = if decide (date = date') then d else day_of date' w.
Proof.
  unfold day_of, set_day. cbn [days]. rewrite lookup_insert.
  destruct (decide (date = date')); reflexivity.
Qed.

Lemma gz_at_set_day date d w (p : gz_path) :
  gz_at p (set_day date d w)
  = if decide (date = p.1) then compressed d !! p.2 else gz_at p w.
Proof.
  unfold gz_at. rewrite day_of_set_day.
  destruct (decide (date = p.1)); reflexivity.
Qed.

Lemma gz_at_add_request url w (p : gz_path) :
  gz_at p (add_request url w) = gz_at p w.
Proof. reflexivity. Qed.

Lemma day_of_add_request url w date :
  day_of date (add_request url w) = day_of date w.
Proof. reflexivity. Qed.

Lemma requests_set_day date d w : requests (set_day date d w) = requests w.
Proof. reflexivity. Qed.

Lemma requests_add_request url w :
  requests (add_request url w) = url :: requests w.
Proof. reflexivity. Qed.

Lemma compressed_with_compressed f d :
  compressed (with_compressed f d) = f (compressed d).
Proof. reflexivity. Qed.

(** Rewriting a world observation down to the world before. *)
Ltac observe :=
  repeat first
    [ rewrite gz_at_set_day | rewrite gz_at_add_request
    | rewrite day_of_set_day | rewrite day_of_add_request
    | rewrite requests_set_day | rewrite requests_add_request
    | rewrite compressed_with_compressed
    | rewrite decide_True by reflexivity
    | rewrite lookup_insert_eq | rewrite lookup_delete_eq
    | rewrite lookup_insert_ne by congruence
    | rewrite lookup_delete_ne by congruence
    | progress cbn [fst snd] ].

(** Running the monadic operations of the fetch stage one step. *)
Ltac run_fetch :=
  cbv beta iota zeta delta
    [_download_one try_except sess_get modify raise mbind M_bind mret M_ret
     gz_unlink gz_exists get_world ensure_dir update_day gz_write
     gz_stat_size fst snd].

(** What one download task does: it never raises; it touches no other
    destination; an existing destination is left alone without any
    request; a missing one costs one request and ends up either missing or
    holding the complete body, which then is not undersized. *)
Lemma download_one_spec E url (dest : gz_path) w :
  exists b w',
    _download_one E url dest w = (Ok b, w')
    /\ (forall p, p <> dest -> gz_at p w' = gz_at p w)
    /\ match gz_at dest w with
       | Some f => w' = w
       | None =>
           requests w' = url :: requests w
           /\ (gz_at dest w' = None
               \/ exists body,
                   remote E url = Complete body
                   /\ gz_at dest w' = Some body
                   /\ MIN_FILE_SIZE E <= st_size body)
       end.
Proof.
  destruct dest as [date name]. run_fetch.
  destruct (gz_at (date, name) w) as [f|] eqn:Hat.
  { rewrite bool_decide_eq_true_2 by eauto. eauto 6. }
  rewrite bool_decide_eq_false_2 by (intros [? [=]]).
  assert (Hframe : forall (p : gz_path) d w0,
    p <> (date, name) ->
    (forall n, n <> name -> compressed d !! n = compressed (day_of date w) !! n) ->
    gz_at p w0 = gz_at p w ->
    gz_at p (set_day date d w0) = gz_at p w).
  { intros [pd pn] d w0 Hp Hd Hw0. rewrite gz_at_set_day. cbn [fst snd].
    destruct (decide (date = pd)) as [<-|]; [|exact Hw0].
    unfold gz_at. cbn [fst snd]. apply Hd. congruence. }
  destruct (remote E url) as [| |body] eqn:Hrem;
    [|destruct (mkdir_ok E date Compressed)..]; cbv beta iota zeta.
  all: repeat first
    [ rewrite gz_at_add_request, Hat
    | rewrite (bool_decide_eq_false_2 (is_Some None)) by (intros [? [=]])
    | progress cbv beta iota zeta ].
  - (* refused *)
    do 2 eexists. split; [reflexivity|]. split; [reflexivity|].
    split; [reflexivity|]. left. exact Hat.
  - (* interrupted after the destination was opened *)
    observe. rewrite bool_decide_eq_true_2 by eauto. cbv beta iota zeta.
    do 2 eexists. split; [reflexivity|].
    split; [|split; [reflexivity|left; now observe]].
    intros p Hp. repeat (apply Hframe; [exact Hp| |]); try reflexivity;
      intros n Hn; now observe.
  - (* the directory cannot be made *)
    do 2 eexists. split; [reflexivity|]. split; [reflexivity|].
    split; [reflexivity|]. left. exact Hat.
  - (* complete *)
    observe. cbv beta iota zeta.
    destruct (st_size body <? MIN_FILE_SIZE E) eqn:Hsz; cbv beta iota zeta.
    + observe. rewrite bool_decide_eq_true_2 by eauto. cbv beta iota zeta.
      do 2 eexists. split; [reflexivity|].
      split; [|split; [reflexivity|left; now observe]].
      intros p Hp. repeat (apply Hframe; [exact Hp| |]); try reflexivity;
        intros n Hn; now observe.
    + do 2 eexists. split; [reflexivity|].
      split; [|split; [reflexivity|right]].
      * intros p Hp. repeat (apply Hframe; [exact Hp| |]); try reflexivity;
          intros n Hn; now observe.
      * exists body. split; [reflexivity|]. split; [now observe|lia].
  - (* the directory cannot be made *)
    do 2 eexists. split; [reflexivity|]. split; [reflexivity|].
    split; [reflexivity|]. left. exact Hat.
Qed.

(** The file names of the day are pairwise different: each one spells
    its minute of the day. *)
Lemma file_names_NoDup : NoDup (h ← seq 0 24; m ← seq 0 60; [file_name h m]).
Proof.
  pose (digit_at := fun (i : nat) (s : string) =>
    match String.get i s with
    | Some c => Z.of_nat (nat_of_ascii c) - 48
    | None => 0
    end).
  apply (NoDup_fmap_1 (fun s =>
    60 * (10 * digit_at 7%nat s + digit_at 8%nat s)
    + (10 * digit_at 9%nat s + digit_at 10%nat s))).
  match goal with |- NoDup ?l => replace l with (seqZ 0 1440) end.
  - apply NoDup_seqZ.
  - vm_compute. reflexivity.
Qed.

Lemma tasks_dests date :
  map snd (tasks date)
  = map (pair date) (h ← seq 0 24; m ← seq 0 60; [file_name h m]).
Proof. reflexivity. Qed.

Lemma tasks_NoDup date : NoDup (map snd (tasks date)).
Proof.
  rewrite tasks_dests. apply (NoDup_fmap_2 (pair date)), file_names_NoDup.
Qed.

Lemma results_ok {A B} (os : list (A * result B)) w :
  Forall (fun o => exists b, o.2 = Ok b) os -> results os w = (Ok tt, w).
Proof.
  unfold results. induction 1 as [|[a o] os [b Hb] _ IH]; [reflexivity|].
  cbn in Hb. subst o.
  cbv beta iota zeta delta [for_each mbind M_bind lift_result mret M_ret snd].
  exact IH.
Qed.

(** The pool of download tasks: no task raises, a destination that
    exists is left as it is, one that is missing ends up missing or
    holding a body that is not undersized. *)
Lemma fetch_pool_spec E (l : list (string * gz_path)) : forall w,
  Forall (fun o => exists b, o.2 = Ok b)
         (run_pool (fun t => _download_one E t.1 t.2) l w).1
  /\ forall p,
       match gz_at p w with
       | Some f =>
           gz_at p (run_pool (fun t => _download_one E t.1 t.2) l w).2 = Some f
       | None =>
           gz_at p (run_pool (fun t => _download_one E t.1 t.2) l w).2 = None
           \/ exists body,
               gz_at p (run_pool (fun t => _download_one E t.1 t.2) l w).2
               = Some body
               /\ MIN_FILE_SIZE E <= st_size body
       end.
Proof.
  induction l as [|[url dest] l IH]; intros w.
  { cbn. split; [constructor|]. intros p. destruct (gz_at p w); auto. }
  cbn [run_pool fst snd].
  destruct (download_one_spec E url dest w) as (b & w1 & -> & Hframe & Hdest).
  destruct (IH w1) as [Hok Hfiles].
  destruct (run_pool _ l w1) as [os w'] eqn:Hrun. cbn [fst snd] in *.
  split; [constructor; [eexists; reflexivity | exact Hok]|].
  intros p. specialize (Hfiles p).
  destruct (decide (p = dest)) as [->|Hp].
  - destruct (gz_at dest w) as [f|] eqn:Hw.
    + subst w1. now rewrite Hw in Hfiles.
    + destruct Hdest as [_ [Hnone | (body & _ & Hbody & Hsz)]].
      * now rewrite Hnone in Hfiles.
      * rewrite Hbody in Hfiles. right. eauto.
  - now rewrite (Hframe p Hp) in Hfiles.
Qed.

(** The requests the pool makes: one per task whose destination is
    missing, when no two tasks share a destination. *)
Lemma fetch_pool_requests E (l : list (string * gz_path)) : forall w,
  NoDup (map snd l) ->
  requests (run_pool (fun t => _download_one E t.1 t.2) l w).2
  = rev (map fst (filter (fun t => gz_at t.2 w = None) l)) ++ requests w.
Proof.
  induction l as [|[url dest] l IH]; intros w Hnd; [reflexivity|].
  cbn [map snd] in Hnd. apply NoDup_cons in Hnd as [Hnotin Hnd].
  cbn [run_pool fst snd].
  destruct (download_one_spec E url dest w) as (b & w1 & -> & Hframe & Hdest).
  specialize (IH w1 Hnd).
  destruct (run_pool _ l w1) as [os w'] eqn:Hrun. cbn [fst snd] in *.
  assert (Hsame : filter (fun t : string * gz_path => gz_at t.2 w1 = None) l
                  = filter (fun t : string * gz_path => gz_at t.2 w = None) l).
  { clear -Hframe Hnotin. induction l as [|t l IHl]; [reflexivity|].
    assert (Ht : t.2 <> dest).
    { intros <-. apply Hnotin. cbn. left. }
    assert (Hl : dest ∉ map snd l).
    { intros Hin. apply Hnotin. cbn. now right. }
    rewrite !filter_cons, (Hframe _ Ht), (IHl Hl). reflexivity. }
  rewrite IH, Hsame. rewrite filter_cons. cbn [snd].
  destruct (gz_at dest w) as [f|] eqn:Hw.
  - subst w1. rewrite decide_False by discriminate. reflexivity.
  - destruct Hdest as [-> _]. rewrite decide_True by reflexivity.
    cbn [map fst rev]. now rewrite <- app_assoc.
Qed.

Lemma filter_none {A} (P : A -> Prop) `{forall x, Decision (P x)} (l : list A) :
  (forall x, x ∈ l -> ~ P x) -> filter P l = [].
Proof.
  induction l as [|x l IH]; intros Hl; [reflexivity|].
  rewrite filter_cons, decide_False by (apply Hl; left).
  apply IH. intros y Hy. apply Hl. now right.
Qed.

Lemma download_day_run E date w :
  mkdir_ok E date Compressed = true ->
  download_day E date w
  = (Ok date,
     (run_pool (fun t => _download_one E t.1 t.2)
               (completion_order E _ (tasks date))
               (set_day date (day_of date w) w)).2).
Proof.
  intros Hmk. unfold download_day, ensure_dir. rewrite Hmk.
  cbv beta iota zeta delta [mbind M_bind update_day modify].
  pose proof (fetch_pool_spec E (completion_order E _ (tasks date))
                (set_day date (day_of date w) w)) as [Hok _].
  destruct (run_pool _ _ _) as [os w']. cbn [fst snd] in *.
  now rewrite (results_ok os w' Hok).
Qed.

Lemma download_day_fail E date w :
  mkdir_ok E date Compressed = false ->
  download_day E date w = (Raise OSError, w).
Proof. intros Hmk. unfold download_day, ensure_dir. now rewrite Hmk. Qed.

Lemma gz_at_ensured date w p :
  gz_at p (set_day date (day_of date w) w) = gz_at p w.
Proof.
  rewrite gz_at_set_day. destruct (decide (date = p.1)) as [->|]; reflexivity.
Qed.

(** C2, as the code has it. After the fetch scheduler has run for a
    date, a destination that did not exist before either still does not
    exist or holds a file of at least the minimum size; a destination that
    existed before is skipped and holds the very file it held, whatever
    its size. The scheduler returns normally as soon as the directory of
    the day can be made. *)
Theorem fetched_files_valid (E : env) (date : string) (w : world) :
  (mkdir_ok E date Compressed = true ->
   (download_day E date w).1 = Ok date)
  /\ forall dest : gz_path,
       match gz_at dest w with
       | Some f => gz_at dest (download_day E date w).2 = Some f
       | None =>
           gz_at dest (download_day E date w).2 = None
           \/ exists f,
               gz_at dest (download_day E date w).2 = Some f
               /\ MIN_FILE_SIZE E <= st_size f
       end.
Proof.
  destruct (mkdir_ok E date Compressed) eqn:Hmk.
  - rewrite download_day_run by exact Hmk. split; [reflexivity|].
    intros dest.
    pose proof (fetch_pool_spec E (completion_order E _ (tasks date))
                  (set_day date (day_of date w) w)) as [_ H].
    specialize (H dest). now rewrite gz_at_ensured in H.
  - rewrite download_day_fail by exact Hmk. split; [discriminate|].
    intros dest. cbn [snd]. destruct (gz_at dest w); auto.
Qed.

Lemma fetched_files_valid_witness :
  (download_day Demo.E "20240530" Demo.w_stale).1 = Ok "20240530".
Proof.
  apply (proj1 (fetched_files_valid Demo.E "20240530" Demo.w_stale)).
  reflexivity.
Defined.

(** C2 as stated fails: a short file that was at a destination before
    the run is skipped without validation and is still there, below the
    threshold, when the scheduler returns. *)
Lemma stale_undersized_file_survives :
  let dest : gz_path := ("20240530", "VDLive_0000.xml.gz") in
  let w' := (download_day Demo.E "20240530" Demo.w_stale).2 in
  dest ∈ map snd (tasks "20240530")
  /\ ~ (gz_at dest w' = None
        \/ exists f, gz_at dest w' = Some f
                     /\ MIN_FILE_SIZE Demo.E <= st_size f).
Proof.
  cbv zeta. split.
  - apply (list_elem_of_lookup_2 _ 0%nat). reflexivity.
  - assert (H : gz_at ("20240530", "VDLive_0000.xml.gz")
                  (download_day Demo.E "20240530" Demo.w_stale).2
                = Some Demo.short) by (vm_compute; reflexivity).
    rewrite H. intros [[=] | (f & [= <-] & Hsz)]. cbn in Hsz. lia.
Qed.

(** C9, as the code has it. With a pool that runs every task once, a
    second run right after a first one makes one retrieval for each
    descriptor whose destination is missing after the first run (its
    fetch failed or was undersized, and the file was deleted) and none
    for the others; when every destination exists after the first run,
    the second run makes no retrieval at all. *)
Theorem second_run_retrievals (E : env) (date : string) (w0 : world) :
  (forall A (l : list A), completion_order E A l ≡ₚ l) ->
  mkdir_ok E date Compressed = true ->
  let w1 := (download_day E date w0).2 in
  let w2 := (download_day E date w1).2 in
  (exists new,
      requests w2 = new ++ requests w1
      /\ new ≡ₚ map fst (filter (fun t => gz_at t.2 w1 = None) (tasks date)))
  /\ ((forall t, t ∈ tasks date -> is_Some (gz_at t.2 w1)) ->
      requests w2 = requests w1).
Proof.
  intros Hperm Hmk w1 w2.
  assert (Hreq : requests w2
    = rev (map fst (filter (fun t : string * gz_path => gz_at t.2 w1 = None)
                           (completion_order E _ (tasks date))))
      ++ requests w1).
  { subst w2. rewrite (download_day_run E date w1 Hmk). cbn [snd].
    rewrite fetch_pool_requests.
    - rewrite requests_set_day. f_equal. f_equal. f_equal.
      apply list_filter_iff. intros t. now rewrite gz_at_ensured.
    - rewrite (Hperm _ (tasks date)). apply tasks_NoDup. }
  split.
  - eexists. split; [exact Hreq|].
    rewrite <- Permutation_rev. now rewrite (Hperm _ (tasks date)).
  - intros Hall. rewrite Hreq.
    replace (filter _ _) with (@nil (string * gz_path)); [reflexivity|].
    symmetry. apply filter_none. intros t Ht Hnone.
    assert (Hin : t ∈ tasks date) by (now rewrite <- (Hperm _ (tasks date))).
    destruct (Hall t Hin) as [f Hf]. congruence.
Qed.

Lemma second_run_retrievals_witness :
  exists w1 w2 new,
    w1 = (download_day Demo.E "20240530" Demo.w0).2
    /\ w2 = (download_day Demo.E "20240530" w1).2
    /\ requests w2 = new ++ requests w1
    /\ new ≡ₚ map fst (filter (fun t => gz_at t.2 w1 = None)
                              (tasks "20240530")).
Proof.
  destruct (second_run_retrievals Demo.E "20240530" Demo.w0)
    as [(new & Hreq & Hnew) _].
  - intros A l. reflexivity.
  - reflexivity.
  - exists (download_day Demo.E "20240530" Demo.w0).2,
      (download_day Demo.E "20240530"
         (download_day Demo.E "20240530" Demo.w0).2).2, new.
    split; [reflexivity|]. split; [reflexivity|]. split; [exact Hreq|].
    exact Hnew.
Defined.

(** C9 as stated fails: when fetches of the first run failed, their
    destinations are missing and the second run asks the network for
    each of them again. *)
Lemma second_run_fetches_again :
  let w1 := (download_day Demo.E "20240530" Demo.w0).2 in
  let w2 := (download_day Demo.E "20240530" w1).2 in
  length (requests w1) = 1440%nat
  /\ length (requests w2) = (1440 + 1439)%nat
  /\ requests w2 <> requests w1.
Proof.
  cbv zeta.
  assert (H1 : length (requests (download_day Demo.E "20240530" Demo.w0).2)
               = 1440%nat) by (vm_compute; reflexivity).
  assert (H2 : length (requests
                 (download_day Demo.E "20240530"
                    (download_day Demo.E "20240530" Demo.w0).2).2)
               = 2879%nat) by (vm_compute; reflexivity).
  split; [exact H1|]. split; [exact H2|].
  intros Heq. rewrite Heq, H1 in H2.
  exact (proj1 (Nat.eqb_neq 1440 2879) eq_refl H2).
Qed.


(** ** Loops and exceptions *)


Lemma for_each_raises {A} (body : A -> M unit) (l : list A) (x : A) w :
  x ∈ l ->
  (forall w, exists e, (body x w).1 = Raise e) ->
  exists e, (for_each body l w).1 = Raise e.
Proof.
  intros Hx Hbody. revert w.
  induction l as [|a l IH]; intros w; [inversion Hx|].
  cbn [for_each]. unfold mbind, M_bind.
  destruct (body a w) as [[[]|e] w1] eqn:Ha; [|eauto].
  apply elem_of_cons in Hx as [->|Hx]; [|now apply IH].
  destruct (Hbody w) as [e He]. rewrite Ha in He. discriminate.
Qed.

(** A parse task leaves the world alone. *)
Lemma parse_task_world parser day n w :
  parse_task parser day n w = ((parse_task parser day n w).1, w).
Proof.
  unfold parse_task, mbind, M_bind, get_world.
  now destruct (decompressed (day_of day w) !! n) as [[?|]|].
Qed.

Lemma parse_pool parser day (l : list string) w :
  run_pool (parse_task parser day) l w
  = (map (fun n => (n, (parse_task parser day n w).1)) l, w).
Proof.
  induction l as [|n l IH]; [reflexivity|].
  cbn [run_pool map]. rewrite parse_task_world, IH. reflexivity.
Qed.

Lemma day_of_ensured date w date' :
  day_of date' (set_day date (day_of date w) w) = day_of date' w.
Proof.
  rewrite day_of_set_day. destruct (decide (date = date')) as [->|]; reflexivity.
Qed.

(** A document that does not parse makes the whole stage raise,
    whatever the order in which the pool completes. *)
Lemma malformed_document_raises E parser day w name :
  mkdir_ok E day Csv = true ->
  name ∈ completion_order E _ (glob E ".xml" (decompressed (day_of day w))) ->
  decompressed (day_of day w) !! name = Some Malformed ->
  exists e, (xml_to_csv E parser day w).1 = Raise e.
Proof.
  intros Hmk Hin Hdoc. unfold xml_to_csv, ensure_dir. rewrite Hmk.
  cbv beta iota zeta delta [mbind M_bind update_day modify get_world].
  rewrite parse_pool, !day_of_ensured.
  match goal with
  | |- context [for_each ?body ?l ?w1] =>
      destruct (for_each_raises body l
                  (name, (parse_task parser day name w1).1) w1) as [e He]
  end.
  - apply list_elem_of_fmap. eauto.
  - intros w2. exists ParseError. cbn [snd].
    unfold parse_task, mbind, M_bind, get_world, lift_result.
    now rewrite day_of_ensured, Hdoc.
  - exists e.
    match goal with
    | |- context [for_each ?body ?l ?w1] =>
        destruct (for_each body l w1) as [[[]|e'] w2]
    end; [discriminate|].
    cbn in He. now injection He as ->.
Qed.

(** C1, on the code. One malformed document among the documents of a
    day: [xml_to_csv] raises the parse error out of the stage in both
    programs, the table of the well-formed document is never written, and
    with the stage the whole day fails before any partition is made. The
    second archive has a corrupt compressed file: the decompressor leaves
    its partial output behind, and that output is the document that does
    not parse. *)
Theorem parse_error_aborts_batch :
  (Main.xml_to_csv Demo.E "20240530" Demo.w_docs).1 = Raise ParseError
  /\ csv (day_of "20240530"
            (Main.xml_to_csv Demo.E "20240530" Demo.w_docs).2) = ∅
  /\ (Refactored.xml_to_csv Demo.E "20240530" Demo.w_docs).1 = Raise ParseError
  /\ csv (day_of "20240530"
            (Refactored.xml_to_csv Demo.E "20240530" Demo.w_docs).2) = ∅
  /\ (Main.process_day Demo.E_corrupt "20240530" Demo.keep_all Demo.w0).1
     = Raise ParseError
  /\ VDID (day_of "20240530"
             (Main.process_day Demo.E_corrupt "20240530" Demo.keep_all
                               Demo.w0).2) = ∅.
Proof. repeat apply conj; vm_compute; reflexivity. Qed.

(** ** The split stage on an empty directory of tables *)

Lemma glob_empty {V} E suffix (dir : gmap string V) :
  (forall l, glob_order E l ≡ₚ l) -> dir = ∅ -> glob E suffix dir = [].
Proof.
  intros Hperm ->. unfold glob. rewrite map_to_list_empty. cbn.
  apply Permutation_nil. symmetry. apply Hperm.
Qed.

Lemma split_by_vdid_empty E day w :
  (forall l, glob_order E l ≡ₚ l) ->
  mkdir_ok E day Vdid = true ->
  csv (day_of day w) = ∅ ->
  split_by_vdid E day w = (Raise ValueError, set_day day (day_of day w) w).
Proof.
  intros Hperm Hmk Hcsv. unfold split_by_vdid, ensure_dir. rewrite Hmk.
  cbv beta iota zeta delta [mbind M_bind update_day modify get_world].
  rewrite day_of_ensured, (glob_empty E _ _ Hperm Hcsv). reflexivity.
Qed.

(** Every stage hands back the day it was given. *)
Lemma bind_returns {A B} (m : M A) (f : A -> M B) (d : B) w x w' :
  (forall a w x w', f a w = (Ok x, w') -> x = d) ->
  (m ≫= f) w = (Ok x, w') -> x = d.
Proof.
  intros Hf. unfold mbind, M_bind.
  destruct (m w) as [[a|e] w1]; [apply Hf | discriminate].
Qed.

Lemma ret_returns {B} (d : B) (w : world) x w' :
  (mret d : M B) w = (Ok x, w') -> x = d.
Proof. now intros [= <- _]. Qed.

Lemma run_bind {A B} (m : M A) (f : A -> M B) w :
  (m ≫= f) w
  = match m w with
    | (Ok a, w1) => f a w1
    | (Raise e, w1) => (Raise e, w1)
    end.
Proof. reflexivity. Qed.

Lemma download_day_returns E date w x w' :
  download_day E date w = (Ok x, w') -> x = date.
Proof.
  unfold download_day.
  repeat (apply bind_returns; intros ? ? ? ?). apply ret_returns.
Qed.

Lemma xml_to_csv_returns E parser day w x w' :
  xml_to_csv E parser day w = (Ok x, w') -> x = day.
Proof.
  unfold xml_to_csv.
  repeat (apply bind_returns; intros ? ? ? ?). apply ret_returns.
Qed.

Lemma process_day_stages E parser date o w :
  process_day E parser date o w
  = match first_three_stages E parser date w with
    | (Ok _, w3) =>
        (split_by_vdid E date;;
         cleanup date (keep_gz o) (keep_xml o) (keep_csv o);;
         (if zip_and_delete o then zip_day date true;; mret tt else mret tt))
          w3
    | (Raise e, w3) => (Raise e, w3)
    end.
Proof.
  unfold process_day, first_three_stages. rewrite !run_bind.
  destruct (download_day E date w) as [[d|e] w1] eqn:Hd; [|reflexivity].
  apply download_day_returns in Hd as ->. rewrite !run_bind.
  destruct (decompress_day E date w1) as [[d|e] w2]; [|reflexivity].
  rewrite !run_bind.
  destruct (xml_to_csv E parser date w2) as [[c|e] w3] eqn:Hx; [|reflexivity].
  apply xml_to_csv_returns in Hx as ->. reflexivity.
Qed.

(** C10. When the directory of per-document tables holds no table, the
    split stage raises (there is nothing to concatenate) and writes no
    partition; and when the first three stages of a day end with that
    directory empty, [process_day] raises at the split stage: the world is
    left as the first three stages made it, with only the partition
    directory ensured, neither cleaned up nor archived. *)
Theorem no_tables_raises (E : env) (parser : element -> DataFrame)
  (date : string) (o : options) (w : world) :
  (forall l, glob_order E l ≡ₚ l) ->
  mkdir_ok E date Vdid = true ->
  (csv (day_of date w) = ∅ ->
   split_by_vdid E date w = (Raise ValueError, set_day date (day_of date w) w))
  /\ (forall r w3,
        first_three_stages E parser date w = (Ok r, w3) ->
        csv (day_of date w3) = ∅ ->
        process_day E parser date o w
        = (Raise ValueError, set_day date (day_of date w3) w3)).
Proof.
  intros Hperm Hmk. split.
  - now apply split_by_vdid_empty.
  - intros r w3 H3 Hcsv. rewrite process_day_stages, H3, run_bind.
    now rewrite split_by_vdid_empty.
Qed.

Lemma no_tables_raises_witness :
  split_by_vdid Demo.E "20240531" Demo.w0
  = (Raise ValueError,
     set_day "20240531" (day_of "20240531" Demo.w0) Demo.w0)
  /\ Main.process_day Demo.E "20240531" Demo.keep_all Demo.w0
     = (Raise ValueError,
        set_day "20240531"
          (day_of "20240531"
             (first_three_stages Demo.E Lxml._parse_xml_lxml "20240531"
                                 Demo.w0).2)
          (first_three_stages Demo.E Lxml._parse_xml_lxml "20240531"
                              Demo.w0).2).
Proof.
  assert (Hperm : forall l, glob_order Demo.E l ≡ₚ l) by reflexivity.
  destruct (no_tables_raises Demo.E Lxml._parse_xml_lxml "20240531"
              Demo.keep_all Demo.w0 Hperm eq_refl) as [Hsplit Hday].
  split.
  - apply Hsplit. reflexivity.
  - apply (Hday "20240531").
    + vm_compute. reflexivity.
    + vm_compute. reflexivity.
Defined.

(** ** The batch *)





(** ** The table combiner *)

Lemma union_cols_NoDup l1 l2 : NoDup l1 -> NoDup (union_cols l1 l2).
Proof.
  unfold union_cols. revert l1.
  induction l2 as [|x l2 IH]; intros l1 H; cbn; [exact H|].
  apply IH. case_bool_decide; [exact H|].
  apply NoDup_app. split; [exact H|]. split; [|apply NoDup_singleton].
  intros y Hy Hx. apply list_elem_of_singleton in Hx. now subst.
Qed.

Lemma concat_cols_elem (dfs : list DataFrame) acc c :
  c ∈ fold_left (fun acc df => union_cols acc (columns df)) dfs acc
  <-> c ∈ acc \/ exists df, df ∈ dfs /\ c ∈ columns df.
Proof.
  revert acc. induction dfs as [|df dfs IH]; intros acc; cbn.
  - set_solver.
  - rewrite IH, union_cols_app. set_solver.
Qed.

Lemma concat_cols_NoDup (dfs : list DataFrame) acc :
  NoDup acc ->
  NoDup (fold_left (fun acc df => union_cols acc (columns df)) dfs acc).
Proof.
  revert acc. induction dfs as [|df dfs IH]; intros acc H; cbn; [exact H|].
  now apply IH, union_cols_NoDup.
Qed.

Lemma assign_columns col v df c :
  c ∈ columns (assign col v df) <-> c ∈ columns df \/ c = col.
Proof.
  unfold assign. destruct (index_of col (columns df)) as [i|] eqn:Hi; cbn.
  - split; [auto|]. intros [H| ->]; [exact H|].
    destruct (decide (col ∈ columns df)) as [Hin|Hnot]; [exact Hin|].
    now rewrite (index_of_None _ _ Hnot) in Hi.
  - set_solver.
Qed.

Lemma at_col_reindex new old r c :
  c ∈ new ->
  at_col new (reindex new old r) c = Some (default NaN (at_col old r c)).
Proof. intros H. unfold reindex. now rewrite (at_col_map _ new c H). Qed.

Lemma at_col_elem cols r c : c ∈ cols -> is_Some (at_col cols r c).
Proof.
  intros H. destruct (index_of_lookup c cols H) as (i & Hi & _).
  unfold at_col. rewrite Hi. cbn. eauto.
Qed.

(** C7, as the code has it. Combining two per-document tables gives a
    table whose columns are those of the first, those of the second and
    the stamp column [file_name], each once. Its rows are the stamped
    rows of the first table followed by those of the second, laid out
    under the combined columns: under a column its stamped table has, a
    row keeps its cell; under a column its table lacks, it holds the
    absent-value marker. The tables with columns VDID, L1_Speed and VDID,
    L2_Speed combine into one with columns VDID, L1_Speed, file_name,
    L2_Speed. *)
Theorem combiner_unions_columns (n1 n2 : string) (t1 t2 : DataFrame) :
  exists df,
    table_combiner [(n1, t1); (n2, t2)] = Ok df
    /\ (forall c, c ∈ columns df
                  <-> c ∈ columns t1 \/ c ∈ columns t2 \/ c = "file_name")
    /\ NoDup (columns df)
    /\ values df
       = map (reindex (columns df) (columns (assign "file_name" n1 t1)))
             (values (assign "file_name" n1 t1))
         ++ map (reindex (columns df) (columns (assign "file_name" n2 t2)))
                (values (assign "file_name" n2 t2))
    /\ (forall a r c,
          a = assign "file_name" n1 t1 \/ a = assign "file_name" n2 t2 ->
          c ∈ columns df ->
          (c ∈ columns a ->
           at_col (columns df) (reindex (columns df) (columns a) r) c
           = at_col (columns a) r c)
          /\ (c ∉ columns a ->
              at_col (columns df) (reindex (columns df) (columns a) r) c
              = Some NaN))
    /\ (t1 = Sample.table_a -> t2 = Sample.table_b ->
        columns df = ["VDID"; "L1_Speed"; "file_name"; "L2_Speed"]).
Proof.
  unfold table_combiner. cbn [map concat fst snd].
  eexists. split; [reflexivity|]. cbn [columns values].
  split; [|split; [|split; [|split]]].
  - intros c.
    change (union_cols (union_cols [] (columns (assign "file_name" n1 t1)))
                       (columns (assign "file_name" n2 t2)))
      with (fold_left (fun acc df => union_cols acc (columns df))
              [assign "file_name" n1 t1; assign "file_name" n2 t2] []).
    rewrite concat_cols_elem. split.
    + intros [H|(df & Hdf & Hc)]; [inversion H|].
      apply elem_of_cons in Hdf as [->|Hdf];
        [|apply list_elem_of_singleton in Hdf as ->];
        apply assign_columns in Hc; tauto.
    + intros H. right.
      destruct H as [H|[H|H]].
      * exists (assign "file_name" n1 t1). split; [left|].
        apply assign_columns. now left.
      * exists (assign "file_name" n2 t2). split; [right; left|].
        apply assign_columns. now left.
      * exists (assign "file_name" n1 t1). split; [left|].
        apply assign_columns. now right.
  - apply union_cols_NoDup, union_cols_NoDup. constructor.
  - cbn [flat_map]. now rewrite app_nil_r.
  - intros a r c _ Hc. rewrite (at_col_reindex _ _ _ _ Hc). split.
    + intros Ha. destruct (at_col_elem (columns a) r c Ha) as [x ->].
      reflexivity.
    + intros Ha. now rewrite (at_col_None _ _ _ Ha).
  - intros -> ->. reflexivity.
Qed.

Lemma combiner_unions_columns_witness :
  exists df,
    table_combiner [("a.csv", Sample.table_a); ("b.csv", Sample.table_b)]
    = Ok df
    /\ columns df = ["VDID"; "L1_Speed"; "file_name"; "L2_Speed"]
    /\ at_col (columns df)
         (reindex (columns df)
            (columns (assign "file_name" "a.csv" Sample.table_a))
            [Some "A"; Some "60"; Some "a.csv"]) "L2_Speed"
       = Some NaN.
Proof.
  destruct (combiner_unions_columns "a.csv" "b.csv" Sample.table_a
              Sample.table_b) as (df & Hdf & Hcols & _ & _ & Hcell & Hex).
  exists df. split; [exact Hdf|]. split; [now apply Hex|].
  apply (Hcell (assign "file_name" "a.csv" Sample.table_a)).
  - now left.
  - apply Hcols. right. left. vm_compute. right. left.
  - vm_compute. intros H. repeat (apply elem_of_cons in H as [[=]|H]).
    inversion H.
Defined.

(** C7 as stated fails: the combined table of the two example tables
    has a fourth column, the stamp [file_name], besides VDID, L1_Speed and
    L2_Speed. *)
Lemma combined_table_has_file_name :
  exists df,
    table_combiner [("a.csv", Sample.table_a); ("b.csv", Sample.table_b)]
    = Ok df
    /\ ~ (forall c, c ∈ columns df <-> c ∈ ["VDID"; "L1_Speed"; "L2_Speed"]).
Proof.
  eexists. split; [reflexivity|]. cbn [columns]. intros H.
  assert (Hin : "file_name" ∈ ["VDID"; "L1_Speed"; "L2_Speed"]).
  { apply H. vm_compute. do 2 right. left. }
  repeat (apply elem_of_cons in Hin as [[=]|Hin]). inversion Hin.
Qed.

(** ** The partition writer *)









(** An empty string is a value like any other: its rows are a group,
    written to the file [.csv]. *)
Lemma empty_VDID_is_a_partition :
  exists w',
    partition_writer Demo.E "20240530" Folders.unnamed Demo.w0 = (Ok tt, w')
    /\ VDID (day_of "20240530" w') !! ".csv"
       = Some (mkDataFrame ["VDID"; "L1_Speed"; "file_name"]
                 [[Some EmptyString; Some "50"; Some "VDLive_0000.csv"]])
    /\ is_Some (VDID (day_of "20240530" w') !! "A.csv").
Proof.
  eexists. split; [vm_compute; reflexivity|].
  split; [vm_compute; reflexivity | apply is_Some_alt; vm_compute; exact I].
Qed.

(** An identifier is put into the path as it is. One that holds a slash
    names a path through a directory that is not there: the write
    raises, after the partitions of the identifiers sorted before it
    were written. *)
Lemma slash_in_VDID_breaks_writer :
  exists w',
    partition_writer Demo.E "20240530" Folders.slashed Demo.w0
    = (Raise OSError, w')
    /\ is_Some (VDID (day_of "20240530" w') !! "B.csv")
    /\ VDID (day_of "20240530" w') !! "N1/S.csv" = None.
Proof.
  eexists. split; [vm_compute; reflexivity|].
  split; vm_compute; eauto.
Qed.

(** Where the path leads to an existing directory, the table lands
    there, outside the partitions of its day. *)
Lemma slash_in_VDID_leaves_the_day :
  exists w',
    partition_writer Folders.E_escape "20240530" Folders.slashed Demo.w0
    = (Ok tt, w')
    /\ is_Some (VDID (day_of "20240529" w') !! "A.csv")
    /\ VDID (day_of "20240530" w') !! "N1/S.csv" = None.
Proof.
  eexists. split; [vm_compute; reflexivity|].
  split; vm_compute; eauto.
Qed.

(** * Further properties *)

(** ** What a computation keeps *)

Section keeps.
Context {X : Type} (obs : world -> X).

Lemma keeps_ret {A} (a : A) : keeps obs (mret a : M A).
Proof. intros w. reflexivity. Qed.

Lemma keeps_raise {A} (e : exn) : keeps obs (raise e : M A).
Proof. intros w. reflexivity. Qed.

Lemma keeps_lift {A} (r : result A) : keeps obs (lift_result r).
Proof. intros w. reflexivity. Qed.

Lemma keeps_get_world : keeps obs get_world.
Proof. intros w. reflexivity. Qed.

Lemma keeps_modify (f : world -> world) :
  (forall w, obs (f w) = obs w) -> keeps obs (modify f).
Proof. intros H w. apply H. Qed.

Lemma keeps_bind {A B} (m : M A) (f : A -> M B) :
  keeps obs m -> (forall a, keeps obs (f a)) -> keeps obs (m ≫= f).
Proof.
  intros Hm Hf w. rewrite run_bind. specialize (Hm w).
  destruct (m w) as [[a|e] w1]; cbn [snd] in *; [|exact Hm].
  now rewrite Hf.
Qed.

Lemma keeps_try {A} (m : M A) (h : exn -> M A) :
  keeps obs m -> (forall e, keeps obs (h e)) -> keeps obs (try_except m h).
Proof.
  intros Hm Hh w. unfold try_except. specialize (Hm w).
  destruct (m w) as [[a|e] w1]; cbn [snd] in *; [exact Hm|].
  now rewrite Hh.
Qed.

Lemma keeps_for_each {A} (body : A -> M unit) (l : list A) :
  (forall a, a ∈ l -> keeps obs (body a)) -> keeps obs (for_each body l).
Proof.
  induction l as [|x l IH]; intros H; [apply keeps_ret|].
  cbn [for_each]. apply keeps_bind; [apply H; left|].
  intros _. apply IH. intros a Ha. apply H. now right.
Qed.

Lemma keeps_collect {A B} (f : A -> M B) (l : list A) :
  (forall a, a ∈ l -> keeps obs (f a)) -> keeps obs (collect f l).
Proof.
  induction l as [|x l IH]; intros H; [apply keeps_ret|].
  cbn [collect]. apply keeps_bind; [apply H; left|].
  intros y. apply keeps_bind; [|intros ys; apply keeps_ret].
  apply IH. intros a Ha. apply H. now right.
Qed.

Lemma keeps_pool {A B} (task : A -> M B) (l : list A) :
  (forall a, a ∈ l -> keeps obs (task a)) ->
  keeps obs (fun w => let '(os, w) := run_pool task l w in (Ok os, w)).
Proof.
  intros H w.
  assert (Hrun : obs (run_pool task l w).2 = obs w).
  { revert w. induction l as [|x l IH]; intros w; [reflexivity|].
    cbn [run_pool]. pose proof (H x (list_elem_of_here _ _) w) as Hx.
    destruct (task x w) as [o w1]. cbn [snd] in Hx.
    specialize (IH (fun a Ha => H a (list_elem_of_further _ _ _ Ha)) w1).
    destruct (run_pool task l w1) as [os w2]. cbn [snd] in *. congruence. }
  now destruct (run_pool task l w).
Qed.

Lemma keeps_results {A B} (os : list (A * result B)) : keeps obs (results os).
Proof.
  unfold results. apply keeps_for_each. intros o _.
  apply keeps_bind; [apply keeps_lift | intros; apply keeps_ret].
Qed.

End keeps.

(** One step through the structure of a computation. *)
Ltac keeps_step :=
  first
    [ apply keeps_ret | apply keeps_raise | apply keeps_lift
    | apply keeps_get_world | apply keeps_results
    | apply keeps_bind; [|intros ?]
    | apply keeps_try; [|intros ?]
    | apply keeps_for_each; intros ? ?
    | apply keeps_collect; intros ? ?
    | match goal with
      | |- keeps _ (match ?x with _ => _ end) => destruct x
      end ].

(** An observation of a world after days were set, requests added. *)
Ltac frame :=
  intros;
  repeat first
    [ rewrite day_of_set_day | rewrite lookup_insert_ne by congruence
    | progress cbn [days zips requests set_day add_request
                    compressed decompressed csv VDID
                    with_compressed with_decompressed with_csv with_VDID] ];
  repeat case_decide; subst; try reflexivity; try congruence.

Lemma keeps_update_day {X} (obs : world -> X) date f :
  (forall w, obs (set_day date (f (day_of date w)) w) = obs w) ->
  keeps obs (update_day date f).
Proof. intros H. apply keeps_modify. exact H. Qed.

Lemma keeps_ensure_dir {X} (obs : world -> X) E date sub :
  (forall w, obs (set_day date (day_of date w) w) = obs w) ->
  keeps obs (ensure_dir E date sub).
Proof.
  intros H. unfold ensure_dir. destruct (mkdir_ok E date sub).
  - now apply keeps_update_day.
  - apply keeps_raise.
Qed.

(** ** The fetch stage writes to its own directory only *)

Lemma download_one_keeps {X} (obs : world -> X) E url (dest : gz_path) :
  (forall w f, obs (set_day dest.1 (with_compressed f (day_of dest.1 w)) w)
               = obs w) ->
  (forall w u, obs (add_request u w) = obs w) ->
  keeps obs (_download_one E url dest).
Proof.
  intros Hset Hreq.
  assert (Hid : forall w, obs (set_day dest.1 (day_of dest.1 w) w) = obs w).
  { intros w. etransitivity; [|apply (Hset w (fun m => m))].
    do 2 f_equal. now destruct (day_of dest.1 w). }
  assert (Hunlink : forall b, keeps obs (gz_unlink b dest)).
  { intros b. unfold gz_unlink, gz_exists. repeat keeps_step.
    now apply keeps_update_day. }
  unfold _download_one, gz_exists, sess_get, gz_write, gz_stat_size.
  repeat keeps_step; try apply Hunlink;
    try (apply keeps_update_day; intros; apply Hset);
    try (apply keeps_ensure_dir; exact Hid);
    try (apply keeps_modify; intros; apply Hreq).
Qed.

Lemma with_id_day (d : day_dir) :
  with_decompressed (fun m => m) d = d /\ with_csv (fun m => m) d = d
  /\ with_VDID (fun m => m) d = d /\ with_compressed (fun m => m) d = d.
Proof. now destruct d. Qed.

Lemma download_day_keeps {X} (obs : world -> X) E date :
  (forall t, t ∈ completion_order E _ (tasks date) ->
     forall w f, obs (set_day t.2.1 (with_compressed f (day_of t.2.1 w)) w)
                 = obs w) ->
  (forall w f, obs (set_day date (with_compressed f (day_of date w)) w)
               = obs w) ->
  (forall w u, obs (add_request u w) = obs w) ->
  keeps obs (download_day E date).
Proof.
  intros Htasks Hset Hreq. unfold download_day.
  apply keeps_bind.
  { apply keeps_ensure_dir. intros w.
    etransitivity; [|apply (Hset w (fun m => m))].
    do 2 f_equal. symmetry. apply with_id_day. }
  intros _. apply keeps_bind; [|intros os; repeat keeps_step].
  apply keeps_pool. intros t Ht. apply download_one_keeps; [|exact Hreq].
  now apply Htasks.
Qed.

Lemma decompress_day_keeps {X} (obs : world -> X) E day :
  (forall w f, obs (set_day day (with_decompressed f (day_of day w)) w)
               = obs w) ->
  keeps obs (decompress_day E day).
Proof.
  intros Hset. unfold decompress_day.
  apply keeps_bind.
  { apply keeps_ensure_dir. intros w.
    etransitivity; [|apply (Hset w (fun m => m))].
    do 2 f_equal. symmetry. apply with_id_day. }
  intros _. apply keeps_bind; [apply keeps_get_world|]. intros w0.
  apply keeps_bind; [|intros; apply keeps_ret].
  apply keeps_for_each. intros gz _.
  apply keeps_bind; [apply keeps_get_world|]. intros w1.
  destruct (bool_decide _); [apply keeps_ret|].
  apply keeps_try; [|intros; apply keeps_ret].
  destruct (compressed (day_of day w1) !! gz) as [f|]; [|apply keeps_raise].
  destruct (gunzip f).
  - now apply keeps_update_day.
  - apply keeps_bind; [now apply keeps_update_day | intros; apply keeps_raise].
Qed.

Lemma parse_task_keeps {X} (obs : world -> X) parser day name :
  keeps obs (parse_task parser day name).
Proof. intros w. now rewrite parse_task_world. Qed.

Lemma xml_to_csv_keeps {X} (obs : world -> X) E parser day :
  (forall w f, obs (set_day day (with_csv f (day_of day w)) w) = obs w) ->
  keeps obs (xml_to_csv E parser day).
Proof.
  intros Hset. unfold xml_to_csv.
  apply keeps_bind.
  { apply keeps_ensure_dir. intros w.
    etransitivity; [|apply (Hset w (fun m => m))].
    do 2 f_equal. symmetry. apply with_id_day. }
  intros _. apply keeps_bind; [apply keeps_get_world|]. intros w0.
  apply keeps_bind.
  { apply keeps_pool. intros n _. apply parse_task_keeps. }
  intros os. apply keeps_bind; [|intros; apply keeps_ret].
  apply keeps_for_each. intros o _.
  apply keeps_bind; [apply keeps_lift|]. intros df.
  now apply keeps_update_day.
Qed.

Lemma write_table_keeps {X} (obs : world -> X) d dir n t :
  (forall w f, obs (set_day d (with_csv f (day_of d w)) w) = obs w) ->
  (forall w f, obs (set_day d (with_VDID f (day_of d w)) w) = obs w) ->
  keeps obs (write_table d dir n t).
Proof.
  intros Hcsv Hvdid. destruct dir; cbn [write_table];
    now apply keeps_update_day.
Qed.

(** What a write through a name that is not plain may change. *)
Lemma write_partition_keeps {X} (obs : world -> X) E day k g :
  (forall w f, obs (set_day day (with_VDID f (day_of day w)) w) = obs w) ->
  (forall w0 name d dir n,
     to_csv_elsewhere E day name w0 = Lands d dir n ->
     forall w f,
       obs (set_day d (with_csv f (day_of d w)) w) = obs w
       /\ obs (set_day d (with_VDID f (day_of d w)) w) = obs w) ->
  keeps obs (write_partition E day k g).
Proof.
  intros Hset Hland. unfold write_partition. cbv zeta.
  destruct (plain_name E (k +:+ ".csv")).
  { cbn [write_table]. now apply keeps_update_day. }
  apply keeps_bind; [apply keeps_get_world|]. intros w0.
  destruct (to_csv_elsewhere E day (k +:+ ".csv") w0) as [e|d dir n|] eqn:Hl.
  - apply keeps_raise.
  - apply write_table_keeps; intros; now apply (Hland _ _ _ _ _ Hl).
  - apply keeps_ret.
Qed.

Lemma split_by_vdid_keeps {X} (obs : world -> X) E day :
  (forall w f, obs (set_day day (with_VDID f (day_of day w)) w) = obs w) ->
  (forall w0 name d dir n,
     to_csv_elsewhere E day name w0 = Lands d dir n ->
     forall w f,
       obs (set_day d (with_csv f (day_of d w)) w) = obs w
       /\ obs (set_day d (with_VDID f (day_of d w)) w) = obs w) ->
  keeps obs (split_by_vdid E day).
Proof.
  intros Hset Hland. unfold split_by_vdid, partition_writer.
  apply keeps_bind.
  { apply keeps_ensure_dir. intros w.
    etransitivity; [|apply (Hset w (fun m => m))].
    do 2 f_equal. symmetry. apply with_id_day. }
  intros _. apply keeps_bind; [apply keeps_get_world|]. intros w0.
  apply keeps_bind.
  { apply keeps_collect. intros n _. unfold read_table.
    apply keeps_bind; [apply keeps_get_world|]. intros w1.
    destruct (csv (day_of day w1) !! n); [|apply keeps_raise].
    apply keeps_bind; [apply keeps_lift | intros; apply keeps_ret]. }
  intros tables. apply keeps_bind; [apply keeps_lift|]. intros combined.
  apply keeps_bind; [|intros; apply keeps_ret].
  apply keeps_bind; [apply keeps_lift|]. intros groups.
  apply keeps_for_each. intros g _. now apply write_partition_keeps.
Qed.

Lemma rmtree_sub_keeps {X} (obs : world -> X) day clear_sub :
  (forall w, obs (set_day day (clear_sub (day_of day w)) w) = obs w) ->
  keeps obs (rmtree_sub day clear_sub).
Proof.
  intros Hset. unfold rmtree_sub. apply keeps_modify. intros w.
  specialize (Hset w). unfold day_of in Hset.
  destruct (days w !! day); [exact Hset | reflexivity].
Qed.

Lemma cleanup_keeps {X} (obs : world -> X) day kg kx kc :
  (forall w f, obs (set_day day (with_compressed f (day_of day w)) w) = obs w) ->
  (forall w f, obs (set_day day (with_decompressed f (day_of day w)) w)
               = obs w) ->
  (forall w f, obs (set_day day (with_csv f (day_of day w)) w) = obs w) ->
  keeps obs (cleanup day kg kx kc).
Proof.
  intros H1 H2 H3. unfold cleanup.
  repeat (apply keeps_bind; [|intros _]);
    match goal with |- keeps _ (if ?b then _ else _) => destruct b end;
    try apply keeps_ret; apply rmtree_sub_keeps; intros; auto.
Qed.

Lemma zip_day_keeps {X} (obs : world -> X) day b :
  (forall w d, obs (mkWorld (days w) (<[day := d]> (zips w)) (requests w))
               = obs w) ->
  (forall w, obs (mkWorld (delete day (days w)) (zips w) (requests w))
             = obs w) ->
  keeps obs (zip_day day b).
Proof.
  intros Hz Hd. unfold zip_day.
  apply keeps_bind; [apply keeps_modify; intros; apply Hz|]. intros _.
  apply keeps_bind; [|intros; apply keeps_ret].
  destruct b; [|apply keeps_ret].
  apply keeps_bind; [apply keeps_get_world|]. intros w1.
  destruct (days w1 !! day); [|apply keeps_raise].
  apply keeps_modify. exact Hd.
Qed.

Lemma process_day_keeps {X} (obs : world -> X) E parser date o :
  (forall t, t ∈ completion_order E _ (tasks date) ->
     forall w f, obs (set_day t.2.1 (with_compressed f (day_of t.2.1 w)) w)
                 = obs w) ->
  (forall w d, obs (set_day date d w) = obs w) ->
  (forall w u, obs (add_request u w) = obs w) ->
  (zip_and_delete o = true ->
   forall w d, obs (mkWorld (days w) (<[date := d]> (zips w)) (requests w))
               = obs w) ->
  (zip_and_delete o = true ->
   forall w, obs (mkWorld (delete date (days w)) (zips w) (requests w))
             = obs w) ->
  (forall w0 name d dir n,
     to_csv_elsewhere E date name w0 = Lands d dir n ->
     forall w d', obs (set_day d d' w) = obs w) ->
  keeps obs (process_day E parser date o).
Proof.
  intros Htasks Hset Hreq Hz Hd Hland w.
  rewrite process_day_stages. unfold first_three_stages.
  assert (H3 : keeps obs (download_day E date ≫= fun day_folder =>
                 decompress_day E day_folder;;
                 xml_to_csv E parser day_folder)).
  { intros w0. rewrite run_bind.
    pose proof (download_day_keeps obs E date Htasks
                  (fun w f => Hset w _) Hreq w0) as Hdl.
    destruct (download_day E date w0) as [[d|e] w1] eqn:Hrun; [|exact Hdl].
    apply download_day_returns in Hrun as ->. cbn [snd] in Hdl.
    rewrite <- Hdl. apply keeps_bind.
    - apply decompress_day_keeps. intros; apply Hset.
    - intros _. apply xml_to_csv_keeps. intros; apply Hset. }
  specialize (H3 w).
  destruct ((download_day E date ≫= _) w) as [[c|e] w3]; cbn [snd] in H3;
    [|exact H3].
  rewrite <- H3. apply keeps_bind.
  - apply split_by_vdid_keeps; [intros; apply Hset|].
    intros w0 name d dir n Hl w1 f. split; apply (Hland _ _ _ _ _ Hl).
  - intros _. apply keeps_bind.
    + apply cleanup_keeps; intros; apply Hset.
    + intros _. destruct (zip_and_delete o); [|apply keeps_ret].
      apply keeps_bind; [apply zip_day_keeps; auto | intros; apply keeps_ret].
Qed.

(** ** What one download comes to *)

(** The file a retrieval leaves at a destination that was missing. *)
Lemma download_one_exact E url (dest : gz_path) w :
  exists b w',
    _download_one E url dest w = (Ok b, w')
    /\ (b = true <-> is_Some (gz_at dest w'))
    /\ (gz_at dest w = None ->
        gz_at dest w'
        = match remote E url with
          | Complete body =>
              if mkdir_ok E dest.1 Compressed
                 && negb (st_size body <? MIN_FILE_SIZE E)
              then Some body else None
          | _ => None
          end).
Proof.
  destruct dest as [date name]. run_fetch.
  destruct (gz_at (date, name) w) as [f|] eqn:Hat.
  { rewrite bool_decide_eq_true_2 by eauto. do 2 eexists.
    split; [reflexivity|]. rewrite Hat. split; [|discriminate].
    split; eauto. }
  rewrite bool_decide_eq_false_2 by (intros [? [=]]).
  destruct (remote E url) as [| |body] eqn:Hrem;
    [|destruct (mkdir_ok E date Compressed)..]; cbv beta iota zeta.
  all: repeat first
    [ rewrite gz_at_add_request, Hat
    | rewrite (bool_decide_eq_false_2 (is_Some None)) by (intros [? [=]])
    | progress cbv beta iota zeta ].
  - do 2 eexists. split; [reflexivity|]. rewrite gz_at_add_request, Hat.
    split; [|reflexivity]. split; [discriminate | intros [? [=]]].
  - observe. rewrite bool_decide_eq_true_2 by eauto. cbv beta iota zeta.
    do 2 eexists. split; [reflexivity|]. observe.
    split; [|reflexivity]. split; [discriminate | intros [? [=]]].
  - do 2 eexists. split; [reflexivity|]. rewrite gz_at_add_request, Hat.
    split; [|reflexivity]. split; [discriminate | intros [? [=]]].
  - observe. cbv beta iota zeta. cbn [andb].
    destruct (st_size body <? MIN_FILE_SIZE E) eqn:Hsz; cbv beta iota zeta;
      cbn [negb].
    + observe. rewrite bool_decide_eq_true_2 by eauto. cbv beta iota zeta.
      do 2 eexists. split; [reflexivity|]. observe.
      split; [|reflexivity]. split; [discriminate | intros [? [=]]].
    + do 2 eexists. split; [reflexivity|]. observe.
      split; [|reflexivity]. split; eauto.
  - do 2 eexists. split; [reflexivity|]. rewrite gz_at_add_request, Hat.
    split; [|reflexivity]. split; [discriminate | intros [? [=]]].
Qed.

Lemma tasks_as_map date :
  tasks date
  = map (fun n => (URL_PREFIX +:+ date +:+ "/" +:+ n, (date, n)))
        (h ← seq 0 24; m ← seq 0 60; [file_name h m]).
Proof. reflexivity. Qed.

Lemma tasks_urls_NoDup date : NoDup (map fst (tasks date)).
Proof.
  rewrite tasks_as_map, map_map. cbn [fst].
  apply (NoDup_fmap_2_strong (fun n => URL_PREFIX +:+ date +:+ "/" +:+ n));
    [|apply file_names_NoDup].
  intros a b _ _ H. now do 3 apply append_inj_r in H.
Qed.

Lemma day_descriptors (date : string) :
  length (tasks date) = 1440%nat
  /\ NoDup (map snd (tasks date))
  /\ NoDup (map fst (tasks date))
  /\ forall t, t ∈ tasks date ->
       t.2.1 = date
       /\ ends_with ".xml.gz" t.2.2 = true
       /\ t.1 = URL_PREFIX +:+ date +:+ "/" +:+ t.2.2.
Proof.
  split; [reflexivity|]. split; [apply tasks_NoDup|].
  split; [apply tasks_urls_NoDup|].
  intros t Ht. rewrite tasks_as_map in Ht.
  apply list_elem_of_fmap in Ht as (n & -> & Hn). cbn [fst snd].
  split; [reflexivity|]. split; [|reflexivity].
  assert (Hall : forallb (ends_with ".xml.gz")
                    (h ← seq 0 24; m ← seq 0 60; [file_name h m]) = true)
    by (vm_compute; reflexivity).
  rewrite forallb_forall in Hall. apply Hall. now apply list_elem_of_In.
Qed.

(** X1. The descriptors of a day: there are 1440 of them, no two with
    the same destination or the same URL; every destination is a file
    of the day's [compressed] directory whose name the decompressor's
    pattern [*.xml.gz] matches, and its URL is the archive's prefix, the
    date and that same name. *)
Theorem descriptors_of_a_day (date : string) :
  length (tasks date) = 1440%nat
  /\ NoDup (map snd (tasks date))
  /\ NoDup (map fst (tasks date))
  /\ forall t, t ∈ tasks date ->
       t.2.1 = date
       /\ ends_with ".xml.gz" t.2.2 = true
       /\ t.1 = URL_PREFIX +:+ date +:+ "/" +:+ t.2.2.
Proof. exact (day_descriptors date). Qed.

(** X2. One download task never raises; it returns [True] exactly when
    its destination exists afterwards, and it leaves every other
    destination as it was. *)
Theorem download_one_returns (E : env) (url : string) (dest : gz_path)
  (w : world) :
  exists b w',
    _download_one E url dest w = (Ok b, w')
    /\ (b = true <-> is_Some (gz_at dest w'))
    /\ forall p, p <> dest -> gz_at p w' = gz_at p w.
Proof.
  destruct (download_one_exact E url dest w) as (b & w' & Hrun & Hb & _).
  destruct (download_one_spec E url dest w) as (b' & w'' & Hrun' & Hframe & _).
  rewrite Hrun in Hrun'. injection Hrun' as <- <-. eauto.
Qed.

Lemma fetch_pool_frame E (l : list (string * gz_path)) p : forall w,
  p ∉ map snd l ->
  gz_at p (run_pool (fun t => _download_one E t.1 t.2) l w).2 = gz_at p w.
Proof.
  induction l as [|[url dest] l IH]; intros w Hp; [reflexivity|].
  cbn [run_pool fst snd].
  destruct (download_one_spec E url dest w) as (b & w1 & -> & Hframe & _).
  specialize (IH w1). destruct (run_pool _ l w1) as [os w'].
  cbn [snd] in *. rewrite IH, Hframe; [reflexivity| |].
  - intros ->. apply Hp. cbn. left.
  - intros Hin. apply Hp. cbn. now right.
Qed.

Lemma fetch_pool_exact E (l : list (string * gz_path)) url dest : forall w,
  NoDup (map snd l) -> (url, dest) ∈ l -> gz_at dest w = None ->
  gz_at dest (run_pool (fun t => _download_one E t.1 t.2) l w).2
  = match remote E url with
    | Complete body =>
        if mkdir_ok E dest.1 Compressed
           && negb (st_size body <? MIN_FILE_SIZE E)
        then Some body else None
    | _ => None
    end.
Proof.
  induction l as [|[u0 d0] l IH]; intros w Hnd Hin Hw; [inversion Hin|].
  cbn [map snd] in Hnd. apply NoDup_cons in Hnd as [Hd0 Hnd].
  cbn [run_pool fst snd].
  apply elem_of_cons in Hin as [[= <- <-]|Hin].
  - destruct (download_one_exact E url dest w) as (b & w1 & -> & _ & Hex).
    pose proof (fetch_pool_frame E l dest w1 Hd0) as Hfr.
    destruct (run_pool _ l w1) as [os w']. cbn [snd] in *.
    rewrite Hfr. now apply Hex.
  - destruct (download_one_spec E u0 d0 w) as (b & w1 & -> & Hframe & _).
    specialize (IH w1 Hnd Hin).
    destruct (run_pool _ l w1) as [os w']. cbn [snd] in *.
    apply IH. rewrite Hframe; [exact Hw|].
    intros ->. apply Hd0. apply list_elem_of_fmap. now exists (url, d0).
Qed.

(** X3. What a run of the fetch scheduler leaves at a destination that
    was missing: the body the archive serves for its URL when the
    transfer completes and the body has at least the minimum size, and
    nothing in every other case (refused, interrupted, undersized). *)
Theorem fetch_outcome (E : env) (date url : string) (dest : gz_path)
  (w : world) :
  (forall A (l : list A), completion_order E A l ≡ₚ l) ->
  mkdir_ok E date Compressed = true ->
  (url, dest) ∈ tasks date ->
  gz_at dest w = None ->
  gz_at dest (download_day E date w).2
  = match remote E url with
    | Complete body =>
        if st_size body <? MIN_FILE_SIZE E then None else Some body
    | _ => None
    end.
Proof.
  intros Hperm Hmk Hin Hw. rewrite (download_day_run E date w Hmk). cbn [snd].
  rewrite (fetch_pool_exact E _ url dest).
  - assert (dest.1 = date) as ->.
    { now destruct (proj2 (proj2 (proj2 (day_descriptors date)))
                      _ Hin). }
    rewrite Hmk. cbn [andb]. destruct (remote E url) as [| |body]; try reflexivity.
    now destruct (st_size body <? MIN_FILE_SIZE E).
  - rewrite (Hperm _ (tasks date)). apply tasks_NoDup.
  - now rewrite (Hperm _ (tasks date)).
  - now rewrite gz_at_ensured.
Qed.

Lemma fetch_outcome_witness :
  gz_at ("20240530", "VDLive_0000.xml.gz")
        (download_day Demo.E "20240530" Demo.w0).2
  = Some Demo.good.
Proof.
  rewrite (fetch_outcome Demo.E "20240530" (Demo.url "20240530" "0000")
             ("20240530", "VDLive_0000.xml.gz") Demo.w0
             (fun A l => Permutation_refl l) eq_refl).
  - reflexivity.
  - apply (list_elem_of_lookup_2 _ 0%nat). reflexivity.
  - reflexivity.
Defined.

(** ** What the stages leave alone *)

Lemma tasks_date date t : t ∈ tasks date -> t.2.1 = date.
Proof.
  intros Ht. now destruct (proj2 (proj2 (proj2 (day_descriptors date)))
                             _ Ht).
Qed.

Lemma pool_tasks_date E date t :
  (forall A (l : list A), completion_order E A l ≡ₚ l) ->
  t ∈ completion_order E _ (tasks date) -> t.2.1 = date.
Proof. intros Hperm Ht. rewrite Hperm in Ht. now apply tasks_date. Qed.

(** X4. The fetch stage writes to the [compressed] directory of its own
    day and nowhere else: the archives, the folders of the other days and
    the three other directories of the day are as before. *)
Theorem fetch_writes_only_compressed (E : env) (date : string) (w : world) :
  (forall A (l : list A), completion_order E A l ≡ₚ l) ->
  let w' := (download_day E date w).2 in
  zips w' = zips w
  /\ (forall d, d <> date -> days w' !! d = days w !! d)
  /\ decompressed (day_of date w') = decompressed (day_of date w)
  /\ csv (day_of date w') = csv (day_of date w)
  /\ VDID (day_of date w') = VDID (day_of date w).
Proof.
  intros Hperm w'. subst w'.
  split; [|split; [|repeat apply conj]].
  - apply (download_day_keeps zips); [| |reflexivity]; frame.
  - intros d Hd.
    apply (download_day_keeps (fun w => days w !! d)); [| |reflexivity].
    + intros t Ht. rewrite (pool_tasks_date E date t Hperm Ht). frame.
    + frame.
  - apply (download_day_keeps (fun w => decompressed (day_of date w)));
      [| |reflexivity]; frame.
  - apply (download_day_keeps (fun w => csv (day_of date w)));
      [| |reflexivity]; frame.
  - apply (download_day_keeps (fun w => VDID (day_of date w)));
      [| |reflexivity]; frame.
Qed.

Lemma fetch_writes_only_compressed_witness :
  let w' := (download_day Demo.E "20240530" Demo.w_docs).2 in
  zips w' = zips Demo.w_docs
  /\ (forall d, d <> "20240530" -> days w' !! d = days Demo.w_docs !! d)
  /\ decompressed (day_of "20240530" w')
     = decompressed (day_of "20240530" Demo.w_docs)
  /\ csv (day_of "20240530" w') = csv (day_of "20240530" Demo.w_docs)
  /\ VDID (day_of "20240530" w') = VDID (day_of "20240530" Demo.w_docs).
Proof.
  apply (fetch_writes_only_compressed Demo.E "20240530" Demo.w_docs).
  intros A l. reflexivity.
Defined.

Lemma keeps_bind_at {X A B} (obs : world -> X) (m : M A) (f : A -> M B) :
  keeps obs m ->
  (forall a w w', m w = (Ok a, w') -> obs (f a w').2 = obs w') ->
  keeps obs (m ≫= f).
Proof.
  intros Hm Hf w. rewrite run_bind. specialize (Hm w).
  destruct (m w) as [[a|e] w1] eqn:Hrun; cbn [snd] in *; [|exact Hm].
  rewrite <- Hm. now apply (Hf a w).
Qed.

Lemma after_fetch_keeps {X} (obs : world -> X) E parser date o :
  (forall day w d, obs (set_day day d w) = obs w) ->
  (forall w d, obs (mkWorld (days w) (<[date := d]> (zips w)) (requests w))
               = obs w) ->
  (forall w, obs (mkWorld (delete date (days w)) (zips w) (requests w))
             = obs w) ->
  forall w, obs (process_day E parser date o w).2
            = obs (download_day E date w).2.
Proof.
  intros Hset Hz Hd w. unfold process_day. rewrite run_bind.
  destruct (download_day E date w) as [[d|e] w1] eqn:Hrun; [|reflexivity].
  apply download_day_returns in Hrun as ->. cbn [snd].
  apply keeps_bind; [apply decompress_day_keeps; intros; apply Hset|].
  intros _. apply keeps_bind_at; [apply xml_to_csv_keeps; intros; apply Hset|].
  intros c w2 w3 Hrun. apply xml_to_csv_returns in Hrun as ->.
  apply keeps_bind.
  { apply split_by_vdid_keeps; [intros; apply Hset|].
    intros w0 name d dir n _ w4 f. split; apply Hset. }
  intros _. apply keeps_bind; [apply cleanup_keeps; intros; apply Hset|].
  intros _. destruct (zip_and_delete o); [|apply keeps_ret].
  apply keeps_bind; [now apply zip_day_keeps | intros; apply keeps_ret].
Qed.

(** X5. Only the fetch stage uses the network: the retrievals of a whole
    day are those of its fetch stage, each for a URL of the day's
    descriptors and none for the same URL twice, so at most 1440. *)
Theorem retrievals_of_a_day (E : env) (parser : element -> DataFrame)
  (date : string) (o : options) (w : world) :
  (forall A (l : list A), completion_order E A l ≡ₚ l) ->
  requests (process_day E parser date o w).2
  = requests (download_day E date w).2
  /\ exists new,
       requests (process_day E parser date o w).2 = new ++ requests w
       /\ new ⊆ map fst (tasks date)
       /\ NoDup new
       /\ (length new <= 1440)%nat.
Proof.
  intros Hperm.
  assert (Heq : requests (process_day E parser date o w).2
                = requests (download_day E date w).2).
  { apply (after_fetch_keeps requests); reflexivity. }
  split; [exact Heq|]. rewrite Heq.
  destruct (mkdir_ok E date Compressed) eqn:Hmk.
  - rewrite (download_day_run E date w Hmk). cbn [snd].
    rewrite fetch_pool_requests
      by (rewrite (Hperm _ (tasks date)); apply tasks_NoDup).
    rewrite requests_set_day.
    set (l := filter _ _).
    assert (Hsub : map fst l ⊆+ map fst (tasks date)).
    { rewrite <- (Hperm _ (tasks date)). apply fmap_submseteq.
      apply sublist_submseteq, sublist_filter. }
    exists (rev (map fst l)). split; [reflexivity|].
    split; [|split].
    + intros u Hu. rewrite <- Permutation_rev in Hu.
      eapply elem_of_submseteq; eauto.
    + rewrite <- Permutation_rev.
      apply (sublist_NoDup _ (map fst (completion_order E _ (tasks date)))).
      * rewrite (Hperm _ (tasks date)). apply tasks_urls_NoDup.
      * apply fmap_sublist, sublist_filter.
    + rewrite length_rev. apply submseteq_length in Hsub.
      rewrite (length_map _ (tasks date)) in Hsub.
      now rewrite (proj1 (day_descriptors date)) in Hsub.
  - rewrite (download_day_fail E date w Hmk). exists []. cbn.
    split; [reflexivity|]. split; [intros x Hx; inversion Hx|].
    split; [constructor | apply Nat.le_0_l].
Qed.

Lemma retrievals_of_a_day_witness :
  length (requests (Main.process_day Demo.E "20240530" Demo.keep_all
                      Demo.w0).2) = 1440%nat.
Proof.
  destruct (retrievals_of_a_day Demo.E Lxml._parse_xml_lxml "20240530"
              Demo.keep_all Demo.w0 (fun A l => Permutation_refl l))
    as [Heq _].
  unfold Main.process_day. rewrite Heq. vm_compute. reflexivity.
Defined.




(** ** File names through the stages *)

Lemma str_app_assoc (a b c : string) : (a +:+ b) +:+ c = a +:+ (b +:+ c).
Proof.
  induction a as [|x a IH]; [reflexivity|].
  change (String x ((a +:+ b) +:+ c) = String x (a +:+ (b +:+ c))).
  now rewrite IH.
Qed.

Lemma ends_with_app suffix s :
  ends_with suffix s = true <-> exists p, s = p +:+ suffix.
Proof.
  induction s as [|c r IH]; cbn [ends_with].
  - rewrite orb_false_r, String.eqb_eq. split.
    + intros <-. now exists EmptyString.
    + intros [[|c p] Hp]; [exact Hp | discriminate].
  - rewrite orb_true_iff, String.eqb_eq, IH. split.
    + intros [<-|[p ->]]; [now exists EmptyString | now exists (String c p)].
    + intros [[|c' p] Hp]; [now left|]. right. exists p.
      change (String c r = String c' (p +:+ suffix)) in Hp. congruence.
Qed.

Lemma has_dot_app a b : has_dot (a +:+ b) = has_dot a || has_dot b.
Proof.
  induction a as [|c a IH]; [reflexivity|].
  change (has_dot (String c (a +:+ b)) = has_dot (String c a) || has_dot b).
  cbn [has_dot]. now rewrite IH, orb_assoc.
Qed.

(** Dropping the suffix of a name that ends in [.gz] drops just that. *)
Lemma with_suffix_gz s : with_suffix_empty (s +:+ ".gz") = s.
Proof.
  induction s as [|c r IH]; [reflexivity|].
  change (with_suffix_empty (String c (r +:+ ".gz")) = String c r).
  cbn [with_suffix_empty]. rewrite has_dot_app.
  change (has_dot ".gz") with true.
  now rewrite orb_true_r, andb_false_r, IH.
Qed.

Lemma xml_gz_name n :
  ends_with ".xml.gz" n = true ->
  exists p, n = (p +:+ ".xml") +:+ ".gz" /\ with_suffix_empty n = p +:+ ".xml".
Proof.
  intros [p ->]%ends_with_app. exists p.
  assert (H : p +:+ ".xml.gz" = (p +:+ ".xml") +:+ ".gz")
    by now rewrite str_app_assoc.
  split; [exact H|]. now rewrite H, with_suffix_gz.
Qed.

Lemma with_suffix_inj n1 n2 :
  ends_with ".xml.gz" n1 = true -> ends_with ".xml.gz" n2 = true ->
  with_suffix_empty n1 = with_suffix_empty n2 -> n1 = n2.
Proof.
  intros (p1 & -> & ->)%xml_gz_name (p2 & -> & ->)%xml_gz_name. now intros ->.
Qed.

(** ** Listing a directory *)

Lemma elem_of_glob {V} E suffix (dir : gmap string V) n :
  (forall l, glob_order E l ≡ₚ l) ->
  n ∈ glob E suffix dir <-> ends_with suffix n = true /\ is_Some (dir !! n).
Proof.
  intros Hperm. unfold glob. rewrite Hperm, list_elem_of_filter.
  rewrite list_elem_of_fmap. split.
  - intros [Hn ([k v] & -> & Hin)]. split; [exact Hn|].
    apply elem_of_map_to_list in Hin. cbn. eauto.
  - intros [Hn [v Hv]]. split; [exact Hn|]. exists (n, v).
    split; [reflexivity|]. now apply elem_of_map_to_list.
Qed.

Lemma glob_NoDup {V} E suffix (dir : gmap string V) :
  (forall l, glob_order E l ≡ₚ l) -> NoDup (glob E suffix dir).
Proof.
  intros Hperm. unfold glob. rewrite Hperm. apply NoDup_filter.
  apply NoDup_fst_map_to_list.
Qed.

(** ** The decompression stage *)

Lemma decompress_day_loop E day :
  decompress_day E day
  = (ensure_dir E day Decompressed;;
     w ← get_world;
     for_each (decompress_body day)
              (glob E ".xml.gz" (compressed (day_of day w)));;
     mret day).
Proof. reflexivity. Qed.

(** One artifact: nothing when the output exists or the artifact cannot
    be opened, the unpacked document otherwise; never an exception. *)
Lemma decompress_body_run day gz w :
  decompress_body day gz w
  = (Ok tt,
     match decompressed (day_of day w) !! with_suffix_empty gz,
           compressed (day_of day w) !! gz with
     | None, Some f =>
         set_day day
           (with_decompressed (<[with_suffix_empty gz := unpacked f]>)
                              (day_of day w)) w
     | _, _ => w
     end).
Proof.
  unfold decompress_body.
  cbv beta iota zeta delta [mbind M_bind get_world mret M_ret].
  destruct (decompressed (day_of day w) !! with_suffix_empty gz) as [d|]
    eqn:Hout.
  { rewrite bool_decide_eq_true_2 by eauto. reflexivity. }
  rewrite bool_decide_eq_false_2 by (intros [? [=]]).
  unfold try_except, unpacked.
  destruct (compressed (day_of day w) !! gz) as [f|]; [|reflexivity].
  destruct (gunzip f); reflexivity.
Qed.

Lemma for_each_total {A} (body : A -> M unit) (l : list A) :
  (forall x w, (body x w).1 = Ok tt) ->
  forall w, for_each body l w
            = (Ok tt, fold_left (fun w x => (body x w).2) l w).
Proof.
  intros Hb. induction l as [|x l IH]; intros w; [reflexivity|].
  cbn [for_each fold_left]. rewrite run_bind.
  specialize (Hb x w). destruct (body x w) as [[[]|e] w1]; [|discriminate].
  apply IH.
Qed.

(** The two directories after one artifact. *)
Lemma decompress_step day gz w :
  let w1 := (decompress_body day gz w).2 in
  compressed (day_of day w1) = compressed (day_of day w)
  /\ decompressed (day_of day w1)
     = match decompressed (day_of day w) !! with_suffix_empty gz,
             compressed (day_of day w) !! gz with
       | None, Some f =>
           <[with_suffix_empty gz := unpacked f]> (decompressed (day_of day w))
       | _, _ => decompressed (day_of day w)
       end.
Proof.
  rewrite decompress_body_run. cbn [snd].
  destruct (decompressed (day_of day w) !! with_suffix_empty gz);
    [now split|].
  destruct (compressed (day_of day w) !! gz); [|now split].
  rewrite day_of_set_day, decide_True by reflexivity. now split.
Qed.

Lemma decompress_fold day (l : list string) : forall w,
  let w' := fold_left (fun w gz => (decompress_body day gz w).2) l w in
  compressed (day_of day w') = compressed (day_of day w)
  /\ (forall n doc, decompressed (day_of day w) !! n = Some doc ->
                    decompressed (day_of day w') !! n = Some doc)
  /\ (forall gz, gz ∈ l -> is_Some (compressed (day_of day w) !! gz) ->
                 is_Some (decompressed (day_of day w') !! with_suffix_empty gz))
  /\ (forall n, n ∉ map with_suffix_empty l ->
                decompressed (day_of day w') !! n
                = decompressed (day_of day w) !! n)
  /\ (NoDup (map with_suffix_empty l) ->
      forall gz f, gz ∈ l ->
        compressed (day_of day w) !! gz = Some f ->
        decompressed (day_of day w) !! with_suffix_empty gz = None ->
        decompressed (day_of day w') !! with_suffix_empty gz
        = Some (unpacked f)).
Proof.
  induction l as [|x l IH]; intros w; cbn [fold_left map].
  { split; [reflexivity|]. split; [auto|]. split; [intros ? []%elem_of_nil|].
    split; [reflexivity|]. intros _ ? ? []%elem_of_nil. }
  destruct (decompress_step day x w) as [Hc Hd].
  set (w1 := (decompress_body day x w).2) in *.
  destruct (IH w1) as (IHc & IHkeep & IHcover & IHother & IHexact).
  set (w' := fold_left _ l w1) in *. cbv zeta.
  assert (Hkeep1 : forall n doc, decompressed (day_of day w) !! n = Some doc ->
                                 decompressed (day_of day w1) !! n = Some doc).
  { intros n doc Hn. rewrite Hd.
    destruct (decompressed (day_of day w) !! with_suffix_empty x) eqn:Hx;
      [exact Hn|].
    destruct (compressed (day_of day w) !! x); [|exact Hn].
    rewrite lookup_insert_ne; [exact Hn|]. intros <-. congruence. }
  split; [congruence|]. split; [auto|]. split; [|split].
  - intros gz [->|Hin]%elem_of_cons Hgz.
    + assert (Hx : is_Some (decompressed (day_of day w1) !! with_suffix_empty x)).
      { rewrite Hd.
        destruct (decompressed (day_of day w) !! with_suffix_empty x) eqn:Hx;
          [rewrite Hx; eauto|].
        destruct Hgz as [f ->]. rewrite lookup_insert_eq. eauto. }
      destruct Hx as [doc Hx]. rewrite (IHkeep _ _ Hx). eauto.
    + apply IHcover; [exact Hin|]. now rewrite Hc.
  - intros n Hn. apply not_elem_of_cons in Hn as [Hnx Hn].
    rewrite (IHother n Hn), Hd.
    destruct (decompressed (day_of day w) !! with_suffix_empty x);
      [reflexivity|].
    destruct (compressed (day_of day w) !! x); [|reflexivity].
    now rewrite lookup_insert_ne.
  - intros Hnd gz f Hin Hgz Hout. apply NoDup_cons in Hnd as [Hx Hnd].
    apply elem_of_cons in Hin as [->|Hin].
    + rewrite (IHother _ Hx), Hd, Hout, Hgz. apply lookup_insert_eq.
    + apply (IHexact Hnd gz f Hin); [now rewrite Hc|].
      rewrite Hd.
      assert (Hne : with_suffix_empty x <> with_suffix_empty gz).
      { intros Heq. apply Hx. rewrite Heq. apply list_elem_of_fmap. eauto. }
      destruct (decompressed (day_of day w) !! with_suffix_empty x);
        [exact Hout|].
      destruct (compressed (day_of day w) !! x); [|exact Hout].
      now rewrite lookup_insert_ne.
Qed.

Lemma decompress_day_run E day w :
  mkdir_ok E day Decompressed = true ->
  decompress_day E day w
  = (Ok day,
     fold_left (fun w gz => (decompress_body day gz w).2)
               (glob E ".xml.gz" (compressed (day_of day w)))
               (set_day day (day_of day w) w)).
Proof.
  intros Hmk. rewrite decompress_day_loop. unfold ensure_dir. rewrite Hmk.
  cbv beta iota zeta delta
    [mbind M_bind get_world mret M_ret update_day modify].
  rewrite day_of_ensured.
  rewrite for_each_total; [reflexivity|].
  intros x w0. now rewrite decompress_body_run.
Qed.

(** X7. The decompression stage, when its directory can be made, never
    raises; it leaves the artifacts alone, never overwrites an existing
    output, and for every artifact [*.xml.gz] whose output (the name
    without [.gz]) was missing it leaves there what unpacking gives:
    the document, or the part that was copied before a corrupt artifact
    broke the copy. No other output appears. *)
Theorem decompress_day_outputs (E : env) (day : string) (w : world) :
  (forall l, glob_order E l ≡ₚ l) ->
  mkdir_ok E day Decompressed = true ->
  exists w',
    decompress_day E day w = (Ok day, w')
    /\ compressed (day_of day w') = compressed (day_of day w)
    /\ (forall n doc, decompressed (day_of day w) !! n = Some doc ->
                      decompressed (day_of day w') !! n = Some doc)
    /\ (forall gz f,
          compressed (day_of day w) !! gz = Some f ->
          ends_with ".xml.gz" gz = true ->
          exists stem,
            gz = stem +:+ ".xml.gz"
            /\ with_suffix_empty gz = stem +:+ ".xml"
            /\ (decompressed (day_of day w) !! (stem +:+ ".xml") = None ->
                decompressed (day_of day w') !! (stem +:+ ".xml")
                = Some (unpacked f)))
    /\ (forall n,
          (forall gz, is_Some (compressed (day_of day w) !! gz) ->
                      ends_with ".xml.gz" gz = true ->
                      n <> with_suffix_empty gz) ->
          decompressed (day_of day w') !! n = decompressed (day_of day w) !! n).
Proof.
  intros Hperm Hmk. rewrite (decompress_day_run E day w Hmk).
  eexists. split; [reflexivity|].
  set (l := glob E ".xml.gz" (compressed (day_of day w))).
  destruct (decompress_fold day l (set_day day (day_of day w) w))
    as (Hc & Hkeep & Hcover & Hother & Hexact).
  rewrite !day_of_ensured in *.
  assert (Hnd : NoDup (map with_suffix_empty l)).
  { apply NoDup_fmap_2_strong; [|now apply glob_NoDup].
    intros a b [Ha _]%elem_of_glob [Hb _]%elem_of_glob; try exact Hperm.
    now apply with_suffix_inj. }
  split; [exact Hc|]. split; [exact Hkeep|]. split.
  - intros gz f Hgz Hends.
    destruct (ends_with_app ".xml.gz" gz) as [[stem ->] _]; [exact Hends|].
    exists stem. split; [reflexivity|].
    destruct (xml_gz_name _ Hends) as (p & Hp & Hout).
    assert (p = stem) as ->.
    { rewrite str_app_assoc in Hp. now apply append_inj_l in Hp. }
    split; [exact Hout|]. intros Hnone. rewrite <- Hout.
    apply (Hexact Hnd _ f); [|exact Hgz|now rewrite Hout].
    apply elem_of_glob; [exact Hperm|]. split; [exact Hends | eauto].
  - intros n Hn. apply Hother. intros Hin.
    apply list_elem_of_fmap in Hin as (gz & -> & Hgz).
    apply elem_of_glob in Hgz as [Hends Hsome]; [|exact Hperm].
    now apply (Hn gz).
Qed.

Lemma decompress_day_outputs_witness :
  exists w',
    decompress_day Demo.E "20240530" Demo.w_stale = (Ok "20240530", w')
    /\ decompressed (day_of "20240530" w') !! "VDLive_0000.xml"
       = Some (WellFormed Sample.doc).
Proof.
  destruct (decompress_day_outputs Demo.E "20240530" Demo.w_stale
              (fun l => Permutation_refl l) eq_refl)
    as (w' & Hrun & _ & _ & Hex & _).
  exists w'. split; [exact Hrun|].
  destruct (Hex "VDLive_0000.xml.gz" Demo.short eq_refl eq_refl)
    as (stem & _ & Hout & Hdoc).
  change (with_suffix_empty "VDLive_0000.xml.gz") with "VDLive_0000.xml" in Hout.
  rewrite <- Hout in Hdoc. now apply Hdoc.
Defined.

Lemma set_day_id day w :
  is_Some (days w !! day) -> set_day day (day_of day w) w = w.
Proof.
  intros [d Hd]. unfold set_day, day_of. rewrite Hd. cbn [default].
  rewrite insert_id by exact Hd. now destruct w.
Qed.

Lemma decompress_fold_made day (l : list string) : forall w,
  is_Some (days w !! day) ->
  is_Some (days (fold_left (fun w gz => (decompress_body day gz w).2) l w)
             !! day).
Proof.
  induction l as [|x l IH]; intros w Hw; [exact Hw|].
  cbn [fold_left]. apply IH. rewrite decompress_body_run. cbn [snd].
  destruct (decompressed (day_of day w) !! with_suffix_empty x); [exact Hw|].
  destruct (compressed (day_of day w) !! x); [|exact Hw].
  cbn [set_day days]. rewrite lookup_insert_eq. eauto.
Qed.

Lemma decompress_fold_done day (l : list string) w :
  (forall gz, gz ∈ l ->
     is_Some (decompressed (day_of day w) !! with_suffix_empty gz)) ->
  fold_left (fun w gz => (decompress_body day gz w).2) l w = w.
Proof.
  induction l as [|x l IH]; intros Hall; [reflexivity|].
  cbn [fold_left]. rewrite decompress_body_run. cbn [snd].
  destruct (Hall x) as [doc ->]; [left|].
  apply IH. intros gz Hgz. apply Hall. now right.
Qed.

(** X8. Decompressing a day a second time does nothing at all: every
    artifact finds its output in place, be it a complete document or the
    partial output of a corrupt artifact, which is therefore never
    repaired by running the stage again. *)
Theorem decompress_day_twice (E : env) (day : string) (w : world) :
  (forall l, glob_order E l ≡ₚ l) ->
  mkdir_ok E day Decompressed = true ->
  let w1 := (decompress_day E day w).2 in
  decompress_day E day w1 = (Ok day, w1).
Proof.
  intros Hperm Hmk w1. subst w1.
  rewrite (decompress_day_run E day w Hmk). cbn [snd].
  set (l := glob E ".xml.gz" (compressed (day_of day w))).
  set (w0 := set_day day (day_of day w) w).
  destruct (decompress_fold day l w0) as (Hc & _ & Hcover & _).
  set (w1 := fold_left _ l w0) in *.
  rewrite (decompress_day_run E day w1 Hmk).
  assert (Hmade : is_Some (days w1 !! day)).
  { apply decompress_fold_made. unfold w0. cbn [set_day days].
    rewrite lookup_insert_eq. eauto. }
  rewrite (set_day_id day w1 Hmade), Hc.
  unfold w0 at 1. rewrite day_of_ensured. fold l.
  rewrite decompress_fold_done; [reflexivity|].
  intros gz Hgz. apply Hcover; [exact Hgz|].
  unfold w0. rewrite day_of_ensured.
  apply elem_of_glob in Hgz as [_ Hgz]; [exact Hgz | exact Hperm].
Qed.

Lemma decompress_day_twice_witness :
  let w1 := (decompress_day Demo.E "20240530" Demo.w_stale).2 in
  decompress_day Demo.E "20240530" w1 = (Ok "20240530", w1).
Proof.
  apply (decompress_day_twice Demo.E "20240530" Demo.w_stale
           (fun l => Permutation_refl l) eq_refl).
Defined.

Lemma file_names_stems :
  (h ← seq 0 24; m ← seq 0 60; [file_name h m])
  = map (fun s => "VDLive_" +:+ s +:+ ".xml.gz")
        (h ← seq 0 24; m ← seq 0 60; [two_digits h +:+ two_digits m]).
Proof. vm_compute. reflexivity. Qed.

(** X9. File names through the stages: for each of the 1440 descriptors
    of a day, written [VDLive_hhmm.xml.gz], the decompressor's output
    name is [VDLive_hhmm.xml] and the name the transform stage writes
    its table to is [VDLive_hhmm.csv]; the [hhmm] are pairwise distinct,
    so no two descriptors share a file at any stage. *)
Theorem names_through_the_stages (date : string) :
  let stems := h ← seq 0 24; m ← seq 0 60; [two_digits h +:+ two_digits m] in
  map (fun t => (t.2.2, with_suffix_empty t.2.2,
                 replace_xml_csv (with_suffix_empty t.2.2))) (tasks date)
  = map (fun s => ("VDLive_" +:+ s +:+ ".xml.gz", "VDLive_" +:+ s +:+ ".xml",
                   "VDLive_" +:+ s +:+ ".csv")) stems
  /\ NoDup stems.
Proof.
  intros stems. split.
  - rewrite tasks_as_map, map_map. cbn [fst snd]. vm_compute. reflexivity.
  - pose proof file_names_NoDup as H. rewrite file_names_stems in H.
    exact (NoDup_fmap_1 (fun s => "VDLive_" +:+ s +:+ ".xml.gz") stems H).
Qed.

(** ** The transform stage on well-formed documents *)

Lemma parse_task_run parser day n w :
  (parse_task parser day n w).1
  = match decompressed (day_of day w) !! n with
    | None => Raise OSError
    | Some Malformed => Raise ParseError
    | Some (WellFormed root) => Ok (parser root)
    end.
Proof.
  unfold parse_task. cbv beta iota zeta delta [mbind M_bind get_world].
  destruct (decompressed (day_of day w) !! n) as [[root|]|]; reflexivity.
Qed.

(** Writing the tables of outcomes that are all results. *)
Lemma write_tables day (kvs : list (string * DataFrame)) : forall w,
  exists w',
    for_each
      (fun o : string * result DataFrame =>
         df ← lift_result o.2;
         update_day day (with_csv (<[replace_xml_csv o.1 := df]>)))
      (map (fun kv => (kv.1, Ok kv.2)) kvs) w = (Ok tt, w')
    /\ csv (day_of day w')
       = fold_left (fun m kv => <[replace_xml_csv kv.1 := kv.2]> m) kvs
                   (csv (day_of day w))
    /\ decompressed (day_of day w') = decompressed (day_of day w).
Proof.
  induction kvs as [|[n df] kvs IH]; intros w.
  { exists w. now repeat split. }
  cbn [map for_each fst snd]. rewrite run_bind.
  cbv beta iota zeta delta [mbind M_bind lift_result update_day modify].
  destruct (IH (set_day day (with_csv <[replace_xml_csv n:=df]> (day_of day w)) w))
    as (w' & Hrun & Hcsv & Hdec).
  exists w'. split; [exact Hrun|].
  rewrite Hcsv, Hdec, day_of_set_day, decide_True by reflexivity.
  now split.
Qed.

Lemma fold_insert_other {V} (f : string -> string)
  (kvs : list (string * V)) (k : string) : forall m : gmap string V,
  k ∉ map (fun kv => f kv.1) kvs ->
  fold_left (fun m kv => <[f kv.1 := kv.2]> m) kvs m !! k = m !! k.
Proof.
  induction kvs as [|kv kvs IH]; intros m Hk; [reflexivity|].
  apply not_elem_of_cons in Hk as [Hne Hk]. cbn [fold_left].
  rewrite IH by exact Hk. now rewrite lookup_insert_ne.
Qed.

Lemma fold_insert_is_Some {V} (f : string -> string)
  (kvs : list (string * V)) (k : string) : forall m : gmap string V,
  is_Some (fold_left (fun m kv => <[f kv.1 := kv.2]> m) kvs m !! k)
  <-> is_Some (m !! k) \/ k ∈ map (fun kv => f kv.1) kvs.
Proof.
  induction kvs as [|kv kvs IH]; intros m; cbn [fold_left map].
  { split; [now left | intros [H|H]; [exact H | inversion H]]. }
  rewrite IH, elem_of_cons. destruct (decide (f kv.1 = k)) as [<-|Hne].
  - rewrite lookup_insert_eq. split; [intros _; right; now left | eauto].
  - rewrite lookup_insert_ne by exact Hne. split.
    + intros [H|H]; [now left | right; now right].
    + intros [H|[H|H]]; [now left | congruence | now right].
Qed.

Lemma fold_insert_last {V} (f : string -> string)
  (kvs : list (string * V)) (n : string) (v : V) : forall m : gmap string V,
  (n, v) ∈ kvs ->
  (forall kv, kv ∈ kvs -> f kv.1 = f n -> kv = (n, v)) ->
  fold_left (fun m kv => <[f kv.1 := kv.2]> m) kvs m !! f n = Some v.
Proof.
  induction kvs as [|kv kvs IH]; intros m Hin Hall; [inversion Hin|].
  cbn [fold_left].
  destruct (decide (f n ∈ map (fun kv => f kv.1) kvs)) as [Hk|Hk].
  - apply list_elem_of_fmap in Hk as (kv' & Hf & Hkv').
    apply IH; [|intros kv0 H0; apply Hall; now right].
    rewrite <- (Hall kv'); [exact Hkv' | now right | now symmetry].
  - rewrite fold_insert_other by exact Hk.
    apply elem_of_cons in Hin as [<-|Hin]; [apply lookup_insert_eq|].
    exfalso. apply Hk. apply list_elem_of_fmap. now exists (n, v).
Qed.

(** X10. The transform stage on a folder whose documents [*.xml] are all
    well-formed: it returns, leaves the documents in place, and the
    tables directory holds what it held plus one table per output name
    (the document name with [.xml] replaced by [.csv]); a table that
    was there under such a name is overwritten, not skipped. The table
    of a document that shares its output name with no other is what the
    parser makes of it. *)
Theorem xml_to_csv_tables (E : env) (parser : element -> DataFrame)
  (day : string) (w : world) :
  (forall A (l : list A), completion_order E A l ≡ₚ l) ->
  (forall l, glob_order E l ≡ₚ l) ->
  mkdir_ok E day Csv = true ->
  (forall n, ends_with ".xml" n = true ->
             decompressed (day_of day w) !! n <> Some Malformed) ->
  exists w',
    xml_to_csv E parser day w = (Ok day, w')
    /\ decompressed (day_of day w') = decompressed (day_of day w)
    /\ (forall k,
          is_Some (csv (day_of day w') !! k)
          <-> is_Some (csv (day_of day w) !! k)
              \/ exists n, is_Some (decompressed (day_of day w) !! n)
                           /\ ends_with ".xml" n = true
                           /\ replace_xml_csv n = k)
    /\ (forall n root,
          decompressed (day_of day w) !! n = Some (WellFormed root) ->
          ends_with ".xml" n = true ->
          (forall n', is_Some (decompressed (day_of day w) !! n') ->
                      ends_with ".xml" n' = true ->
                      replace_xml_csv n' = replace_xml_csv n -> n' = n) ->
          csv (day_of day w') !! replace_xml_csv n = Some (parser root)).
Proof.
  intros Hpool Hglob Hmk Hwf. unfold xml_to_csv, ensure_dir. rewrite Hmk.
  cbv beta iota zeta delta [mbind M_bind update_day modify get_world].
  rewrite parse_pool, !day_of_ensured.
  set (dir := decompressed (day_of day w)) in *.
  set (l := completion_order E string (glob E ".xml" dir)).
  assert (Hl : forall n, n ∈ l <-> ends_with ".xml" n = true /\ is_Some (dir !! n)).
  { intros n. unfold l. rewrite Hpool. now apply elem_of_glob. }
  set (g := fun n => match dir !! n with
                     | Some (WellFormed root) => Some (n, parser root)
                     | _ => None
                     end).
  assert (Hg : forall n, n ∈ l -> exists root,
                 dir !! n = Some (WellFormed root)
                 /\ g n = Some (n, parser root)).
  { intros n [Hn [doc Hdoc]]%Hl. specialize (Hwf n Hn). unfold g.
    rewrite Hdoc in *. destruct doc as [root|]; [eauto | congruence]. }
  set (w0 := set_day day (day_of day w) w).
  assert (Hos : forall l', (forall n, n ∈ l' -> n ∈ l) ->
            map (fun n => (n, (parse_task parser day n w0).1)) l'
            = map (fun kv => (kv.1, Ok kv.2)) (omap g l')).
  { induction l' as [|n l' IH]; intros Hsub; [reflexivity|].
    destruct (Hg n) as (root & Hroot & Hgn); [apply Hsub; left|].
    change (omap g (n :: l'))
      with (match g n with Some y => y :: omap g l' | None => omap g l' end).
    rewrite Hgn. cbn [map fst snd].
    rewrite IH by (intros n' Hn'; apply Hsub; now right).
    rewrite parse_task_run. unfold w0.
    rewrite day_of_ensured. fold dir. now rewrite Hroot. }
  rewrite (Hos l) by auto.
  destruct (write_tables day (omap g l) w0) as (w' & Hrun & Hcsv & Hdec).
  cbv beta iota zeta delta [mbind M_bind update_day modify get_world] in Hrun.
  rewrite Hrun. exists w'. split; [reflexivity|].
  unfold w0 in Hcsv, Hdec. rewrite day_of_ensured in Hcsv, Hdec. fold dir in Hdec.
  split; [exact Hdec|].
  assert (Hkeys : forall k, k ∈ map (fun kv : string * DataFrame =>
                                       replace_xml_csv kv.1) (omap g l)
                            <-> exists n, is_Some (dir !! n)
                                          /\ ends_with ".xml" n = true
                                          /\ replace_xml_csv n = k).
  { intros k. rewrite list_elem_of_fmap. split.
    - intros ([n df] & -> & Hin). apply list_elem_of_omap in Hin as (n' & Hn' & Hgn).
      destruct (Hg n' Hn') as (root & _ & Hgn'). rewrite Hgn' in Hgn.
      injection Hgn as <- <-. apply Hl in Hn' as [? ?]. exists n'. auto.
    - intros (n & Hsome & Hends & <-).
      destruct (Hg n) as (root & _ & Hgn); [apply Hl; auto|].
      exists (n, parser root). split; [reflexivity|].
      apply list_elem_of_omap. exists n. split; [apply Hl; auto | exact Hgn]. }
  split.
  - intros k. rewrite Hcsv, fold_insert_is_Some, Hkeys. reflexivity.
  - intros n root Hroot Hends Hinj. rewrite Hcsv.
    apply (fold_insert_last replace_xml_csv).
    + apply list_elem_of_omap. exists n. split; [apply Hl; eauto|].
      unfold g. now rewrite Hroot.
    + intros [n' df] Hin Heq. cbn [fst] in Heq.
      apply list_elem_of_omap in Hin as (n0 & Hn0 & Hgn).
      destruct (Hg n0 Hn0) as (root0 & Hroot0 & Hgn0). rewrite Hgn0 in Hgn.
      injection Hgn as <- <-. apply Hl in Hn0 as [Hends0 Hsome0].
      assert (n0 = n) as -> by now apply Hinj.
      rewrite Hroot in Hroot0. now injection Hroot0 as <-.
Qed.

Lemma xml_to_csv_tables_witness :
  exists w',
    Main.xml_to_csv Demo.E "20240530" Folders.one_document
    = (Ok "20240530", w')
    /\ is_Some (csv (day_of "20240530" w') !! "VDLive_0000.csv").
Proof.
  destruct (xml_to_csv_tables Demo.E Lxml._parse_xml_lxml "20240530"
              Folders.one_document
              (fun A l => Permutation_refl l) (fun l => Permutation_refl l)
              eq_refl) as (w' & Hrun & _ & Hnames & _).
  - intros n _ H. unfold Folders.one_document, day_of in H. cbn [days] in H.
    rewrite lookup_singleton_eq in H. cbn [default from_option id decompressed] in H.
    apply lookup_singleton_Some in H as [_ [=]].
  - exists w'. split; [exact Hrun|]. apply Hnames. right.
    exists "VDLive_0000.xml". split; [|split; reflexivity].
    unfold Folders.one_document, day_of. cbn [days].
    rewrite lookup_singleton_eq. cbn [default from_option id decompressed].
    rewrite lookup_singleton_eq. eauto.
Defined.

(** ** The split stage as a whole *)


Lemma read_table_run E day n w :
  read_table E day n w
  = (match csv (day_of day w) !! n with
     | None => Raise OSError
     | Some f => match read_csv E f with
                 | Ok t => Ok (n, t)
                 | Raise e => Raise e
                 end
     end, w).
Proof.
  unfold read_table.
  cbv beta iota zeta delta [mbind M_bind get_world lift_result raise mret M_ret].
  destruct (csv (day_of day w) !! n) as [f|]; [|reflexivity].
  now destruct (read_csv E f).
Qed.

(** Reading the tables changes nothing. *)
Lemma collect_read_world E day (l : list string) w :
  (collect (read_table E day) l w).2 = w.
Proof.
  revert w. induction l as [|n l IH]; intros w; [reflexivity|].
  cbn [collect]. rewrite run_bind, read_table_run.
  destruct (csv (day_of day w) !! n) as [f|]; [|reflexivity].
  destruct (read_csv E f) as [t|e]; [|reflexivity].
  rewrite run_bind. specialize (IH w).
  destruct (collect (read_table E day) l w) as [[ts|e] w1]; cbn [snd] in *;
    now subst.
Qed.


(** What was read, when every read returned. *)
Lemma collect_read_tables E day (l : list string) w : forall tables w1,
  collect (read_table E day) l w = (Ok tables, w1) ->
  map fst tables = l
  /\ Forall (fun nt => exists f, csv (day_of day w) !! nt.1 = Some f
                                 /\ read_csv E f = Ok nt.2) tables.
Proof.
  induction l as [|n l IH]; intros tables w1.
  { intros [= <- _]. split; [reflexivity | constructor]. }
  cbn [collect]. rewrite run_bind, read_table_run.
  destruct (csv (day_of day w) !! n) as [f|] eqn:Hf; [|discriminate].
  destruct (read_csv E f) as [t|e] eqn:Ht; [|discriminate].
  rewrite run_bind.
  destruct (collect (read_table E day) l w) as [[ts|e] w2] eqn:Hrun;
    [|discriminate].
  intros [= <- _]. destruct (IH ts w2 eq_refl) as [Hfst Hts].
  cbn [map fst]. rewrite Hfst. split; [reflexivity|].
  constructor; [|exact Hts]. cbn [fst snd]. eauto.
Qed.

Lemma split_by_vdid_steps E day w :
  mkdir_ok E day Vdid = true ->
  let w0 := set_day day (day_of day w) w in
  split_by_vdid E day w
  = match collect (read_table E day) (glob E ".csv" (csv (day_of day w))) w0 with
    | (Raise e, _) => (Raise e, w0)
    | (Ok tables, _) =>
        match table_combiner tables with
        | Raise e => (Raise e, w0)
        | Ok combined =>
            match groupby "VDID" combined with
            | Raise e => (Raise e, w0)
            | Ok gs =>
                match for_each (fun g => write_partition E day g.1 g.2)
                               gs w0 with
                | (Ok _, w') => (Ok day, w')
                | (Raise e, w') => (Raise e, w')
                end
            end
        end
    end.
Proof.
  intros Hmk w0. unfold split_by_vdid, ensure_dir. rewrite Hmk.
  rewrite run_bind. cbv beta iota zeta delta [update_day modify].
  fold w0. rewrite run_bind. cbv beta iota zeta delta [get_world].
  unfold w0 at 1. rewrite day_of_ensured. fold w0. rewrite run_bind.
  pose proof (collect_read_world E day
                (glob E ".csv" (csv (day_of day w))) w0) as Hw.
  destruct (collect _ _ w0) as [[tables|e] w1]; cbn [snd] in Hw; subst w1;
    [|reflexivity].
  rewrite run_bind. cbn [lift_result].
  destruct (table_combiner tables) as [combined|e]; [|reflexivity].
  rewrite run_bind. unfold partition_writer. rewrite run_bind.
  cbn [lift_result].
  destruct (groupby "VDID" combined) as [gs|e]; [|reflexivity].
  destruct (for_each _ gs w0) as [[[]|e] w']; reflexivity.
Qed.

(** A loop that raises does so in the body of one item, after the
    bodies of the items before it returned. *)
Lemma for_each_raise_split {A} (body : A -> M unit) (l : list A) :
  forall w e w',
    for_each body l w = (Raise e, w') ->
    exists done x rest w1,
      l = done ++ x :: rest
      /\ for_each body done w = (Ok tt, w1)
      /\ body x w1 = (Raise e, w').
Proof.
  induction l as [|x l IH]; intros w e w' Hrun; [discriminate|].
  cbn [for_each] in Hrun. rewrite run_bind in Hrun.
  destruct (body x w) as [[[]|e1] w1] eqn:Hx.
  - destruct (IH _ _ _ Hrun) as (done & y & rest & w2 & -> & Hdone & Hy).
    exists (x :: done), y, rest, w2. split; [reflexivity|].
    split; [|exact Hy]. cbn [for_each]. now rewrite run_bind, Hx.
  - injection Hrun as <- <-. exists [], x, l, w. now repeat split.
Qed.

(** A write raises only under a name that is not plain, and then
    writes nothing. *)
Lemma write_partition_raises E day k g w e w' :
  write_partition E day k g w = (Raise e, w') ->
  plain_name E (k +:+ ".csv") = false
  /\ w' = w
  /\ to_csv_elsewhere E day (k +:+ ".csv") w = Fails e.
Proof.
  unfold write_partition. cbv zeta.
  destruct (plain_name E (k +:+ ".csv")); [discriminate|].
  rewrite run_bind. cbv beta iota zeta delta [get_world].
  destruct (to_csv_elsewhere E day (k +:+ ".csv") w) as [e1|d dir n|].
  - intros [= <- <-]. auto.
  - destruct dir; discriminate.
  - discriminate.
Qed.



(** The stage on the folder with the two tables: it returns, with one
    partition for each of the two devices. *)
Lemma two_tables_are_split :
  exists w',
    split_by_vdid Demo.E "20240530" Folders.two_tables = (Ok "20240530", w')
    /\ is_Some (VDID (day_of "20240530" w') !! "A.csv")
    /\ is_Some (VDID (day_of "20240530" w') !! "B.csv").
Proof.
  eexists. split; [vm_compute; reflexivity|].
  split; vm_compute; eauto.
Qed.

(** X12. When the split stage raises, either nothing was written (the
    exception came from making the directory, reading, combining or
    grouping), or it came from the write of a partition whose name is
    no plain file name: then the tables of the folder were read and
    combined, the partitions of the groups sorted before that one were
    written, and none of those after it. *)
Theorem split_raises_after_a_prefix (E : env) (day : string) (w w' : world)
  (e : exn) :
  split_by_vdid E day w = (Raise e, w') ->
  (w' = w \/ w' = set_day day (day_of day w) w)
  \/ exists tables combined done k g rest,
       map fst tables = glob E ".csv" (csv (day_of day w))
       /\ Forall (fun nt => exists f, csv (day_of day w) !! nt.1 = Some f
                                      /\ read_csv E f = Ok nt.2) tables
       /\ table_combiner tables = Ok combined
       /\ groupby "VDID" combined = Ok (done ++ (k, g) :: rest)
       /\ plain_name E (k +:+ ".csv") = false
       /\ for_each (fun g => write_partition E day g.1 g.2) done
                   (set_day day (day_of day w) w) = (Ok tt, w')
       /\ to_csv_elsewhere E day (k +:+ ".csv") w' = Fails e.
Proof.
  intros Hrun. destruct (mkdir_ok E day Vdid) eqn:Hmk.
  - rewrite (split_by_vdid_steps E day w Hmk) in Hrun. cbv zeta in Hrun.
    destruct (collect _ _ _) as [[tables|e1] w1] eqn:Hread;
      [|left; right; congruence].
    apply collect_read_tables in Hread as [Hfst Hts].
    rewrite day_of_ensured in Hts.
    destruct (table_combiner tables) as [combined|e1] eqn:Hcomb;
      [|left; right; congruence].
    destruct (groupby "VDID" combined) as [gs|e1] eqn:Hgs;
      [|left; right; congruence].
    destruct (for_each _ gs _) as [[[]|e1] w2] eqn:Hloop; [discriminate|].
    injection Hrun as -> ->. right.
    apply for_each_raise_split in Hloop
      as (done & [k g] & rest & w1' & -> & Hdone & Hx).
    cbn [fst snd] in Hx.
    apply write_partition_raises in Hx as (Hplain & -> & Hfail).
    exists tables, combined, done, k, g, rest.
    split; [exact Hfst|]. split; [exact Hts|]. auto.
  - left. left. unfold split_by_vdid, ensure_dir in Hrun. rewrite Hmk in Hrun.
    now injection Hrun as _ <-.
Qed.

Lemma split_raises_after_a_prefix_witness :
  let w := Folders.slashed_table in
  let w' := (split_by_vdid Demo.E "20240530" w).2 in
  (w' = w \/ w' = set_day "20240530" (day_of "20240530" w) w)
  \/ exists tables combined done k g rest,
       map fst tables = glob Demo.E ".csv" (csv (day_of "20240530" w))
       /\ Forall (fun nt => exists f, csv (day_of "20240530" w) !! nt.1 = Some f
                                      /\ read_csv Demo.E f = Ok nt.2) tables
       /\ table_combiner tables = Ok combined
       /\ groupby "VDID" combined = Ok (done ++ (k, g) :: rest)
       /\ plain_name Demo.E (k +:+ ".csv") = false
       /\ for_each (fun g => write_partition Demo.E "20240530" g.1 g.2) done
                   (set_day "20240530" (day_of "20240530" w) w) = (Ok tt, w')
       /\ to_csv_elsewhere Demo.E "20240530" (k +:+ ".csv") w' = Fails OSError.
Proof.
  apply (split_raises_after_a_prefix Demo.E "20240530" Folders.slashed_table).
  vm_compute. reflexivity.
Defined.

(** The stage on the folder of the device with a slash: it raises after
    the partition of the device sorted before it was written. *)
Lemma slashed_table_raises_midway :
  exists w',
    split_by_vdid Demo.E "20240530" Folders.slashed_table
    = (Raise OSError, w')
    /\ is_Some (VDID (day_of "20240530" w') !! "B.csv")
    /\ VDID (day_of "20240530" w') !! "N1/S.csv" = None.
Proof.
  eexists. split; [vm_compute; reflexivity|].
  split; vm_compute; eauto.
Qed.

(** ** Cleanup, zip and the whole day *)

Lemma rmtree_sub_run day clear_sub w :
  rmtree_sub day clear_sub w
  = (Ok tt, match days w !! day with
            | Some d => set_day day (clear_sub d) w
            | None => w
            end).
Proof. reflexivity. Qed.

Lemma cleanup_run day kg kx kc w :
  exists w',
    cleanup day kg kx kc w = (Ok tt, w')
    /\ zips w' = zips w /\ requests w' = requests w
    /\ (forall d, d <> day -> days w' !! d = days w !! d)
    /\ (is_Some (days w' !! day) <-> is_Some (days w !! day))
    /\ day_of day w'
       = mkDay (if kg then compressed (day_of day w) else ∅)
               (if kx then decompressed (day_of day w) else ∅)
               (if kc then csv (day_of day w) else ∅)
               (VDID (day_of day w)).
Proof.
  unfold cleanup.
  destruct (days w !! day) as [d|] eqn:Hd.
  - assert (Hday : day_of day w = d) by (unfold day_of; now rewrite Hd).
    rewrite Hday.
    assert (Hstep : forall (b : bool) f w1 d1,
              days w1 !! day = Some d1 ->
              (if b then mret tt else rmtree_sub day f) w1
              = (Ok tt, if b then w1 else set_day day (f d1) w1)).
    { intros b f w1 d1 H1. destruct b; [reflexivity|].
      now rewrite rmtree_sub_run, H1. }
    rewrite run_bind, (Hstep kg _ w d Hd). cbv beta iota.
    set (w1 := if kg then w else _).
    set (d1 := if kg then d else with_compressed (fun _ => ∅) d).
    assert (H1 : days w1 !! day = Some d1).
    { unfold w1, d1. destruct kg; [exact Hd|]. cbn [set_day days].
      apply lookup_insert_eq. }
    rewrite run_bind, (Hstep kx _ w1 d1 H1). cbv beta iota.
    set (w2 := if kx then w1 else _).
    set (d2 := if kx then d1 else with_decompressed (fun _ => ∅) d1).
    assert (H2 : days w2 !! day = Some d2).
    { unfold w2, d2. destruct kx; [exact H1|]. cbn [set_day days].
      apply lookup_insert_eq. }
    rewrite (Hstep kc _ w2 d2 H2).
    eexists. split; [reflexivity|].
    assert (H3 : forall (b : bool) wa da,
              zips (if b then wa else set_day day da wa) = zips wa
              /\ requests (if b then wa else set_day day da wa) = requests wa
              /\ forall x, x <> day ->
                   days (if b then wa else set_day day da wa) !! x
                   = days wa !! x).
    { intros b wa da. destruct b; [now repeat split|]. cbn [set_day zips requests days].
      repeat split. intros x Hx. now rewrite lookup_insert_ne. }
    destruct (H3 kc w2 (with_csv (fun _ => ∅) d2)) as (Hz3 & Hr3 & Ho3).
    destruct (H3 kx w1 (with_decompressed (fun _ => ∅) d1)) as (Hz2 & Hr2 & Ho2).
    destruct (H3 kg w (with_compressed (fun _ => ∅) d)) as (Hz1 & Hr1 & Ho1).
    fold w1 in Hz1, Hr1, Ho1. fold w2 in Hz2, Hr2, Ho2.
    split; [congruence|]. split; [congruence|].
    split; [intros x Hx; rewrite Ho3, Ho2, Ho1; auto|].
    assert (H4 : days (if kc then w2 else set_day day (with_csv (fun _ => ∅) d2) w2)
                 !! day
                 = Some (if kc then d2 else with_csv (fun _ => ∅) d2)).
    { destruct kc; [exact H2|]. cbn [set_day days]. apply lookup_insert_eq. }
    split; [rewrite H4; split; eauto|].
    unfold day_of. rewrite H4. cbn [default from_option id].
    unfold d2, d1. destruct d, kg, kx, kc; reflexivity.
  - exists w.
    assert (Hstep : forall (b : bool) f,
              (if b then mret tt else rmtree_sub day f) w = (Ok tt, w)).
    { intros b f. destruct b; [reflexivity|]. now rewrite rmtree_sub_run, Hd. }
    rewrite run_bind, Hstep. cbv beta iota. rewrite run_bind, Hstep.
    cbv beta iota. rewrite Hstep. split; [reflexivity|].
    split; [reflexivity|]. split; [reflexivity|]. split; [auto|].
    split; [now rewrite Hd|].
    unfold day_of. rewrite Hd. cbn [default from_option id].
    destruct kg, kx, kc; reflexivity.
Qed.

(** X13. Cleanup never raises, and never makes or removes the day
    folder; of the folder it empties exactly the directories whose flag
    is off and keeps the partitions; it touches nothing else, and a
    missing folder is no error. *)
Theorem cleanup_empties_unkept (day : string) (kg kx kc : bool) (w : world) :
  exists w',
    cleanup day kg kx kc w = (Ok tt, w')
    /\ zips w' = zips w /\ requests w' = requests w
    /\ (forall d, d <> day -> days w' !! d = days w !! d)
    /\ (is_Some (days w' !! day) <-> is_Some (days w !! day))
    /\ day_of day w'
       = mkDay (if kg then compressed (day_of day w) else ∅)
               (if kx then decompressed (day_of day w) else ∅)
               (if kc then csv (day_of day w) else ∅)
               (VDID (day_of day w)).
Proof. apply cleanup_run. Qed.

(** A write removes no folder. *)
Lemma write_partition_made E day k g d w :
  is_Some (days w !! d) ->
  is_Some (days (write_partition E day k g w).2 !! d).
Proof.
  intros Hw.
  assert (Hset : forall d' x, is_Some (days (set_day d' x w) !! d)).
  { intros d' x. cbn [set_day days]. apply lookup_insert_is_Some'. auto. }
  unfold write_partition. cbv zeta.
  destruct (plain_name E (k +:+ ".csv")); [apply Hset|].
  rewrite run_bind. cbv beta iota zeta delta [get_world].
  destruct (to_csv_elsewhere E day (k +:+ ".csv") w) as [e|d' dir n|];
    [exact Hw| |exact Hw].
  destruct dir; apply Hset.
Qed.

Lemma write_groups_made E day (gs : list (string * DataFrame)) :
  forall w r w',
    for_each (fun g => write_partition E day g.1 g.2) gs w = (r, w') ->
    is_Some (days w !! day) -> is_Some (days w' !! day).
Proof.
  induction gs as [|g gs IH]; intros w r w' Hrun Hw.
  { now injection Hrun as _ <-. }
  cbn [for_each] in Hrun. rewrite run_bind in Hrun.
  pose proof (write_partition_made E day g.1 g.2 day w Hw) as H1.
  destruct (write_partition E day g.1 g.2 w) as [[[]|e] w1]; cbn [snd] in H1.
  - apply (IH _ _ _ Hrun H1).
  - now injection Hrun as _ <-.
Qed.

Lemma split_made E day w x w' :
  split_by_vdid E day w = (Ok x, w') -> x = day /\ is_Some (days w' !! day).
Proof.
  intros Hrun. destruct (mkdir_ok E day Vdid) eqn:Hmk.
  - rewrite (split_by_vdid_steps E day w Hmk) in Hrun. cbv zeta in Hrun.
    destruct (collect _ _ _) as [[tables|e1] w1]; [|discriminate].
    destruct (table_combiner tables) as [combined|e1]; [|discriminate].
    destruct (groupby "VDID" combined) as [gs|e1]; [|discriminate].
    destruct (for_each _ gs _) as [[[]|e1] w2] eqn:Hw; [|discriminate].
    injection Hrun as <- <-. split; [reflexivity|].
    apply (write_groups_made _ _ _ _ _ _ Hw). cbn [set_day days].
    rewrite lookup_insert_eq. eauto.
  - unfold split_by_vdid, ensure_dir in Hrun. rewrite Hmk in Hrun. discriminate.
Qed.

Lemma zip_day_run day w :
  is_Some (days w !! day) ->
  zip_day day true w
  = (Ok day, mkWorld (delete day (days w)) (<[day := day_of day w]> (zips w))
                     (requests w)).
Proof.
  intros [d Hd]. unfold zip_day.
  cbv beta iota zeta delta [mbind M_bind modify get_world mret M_ret].
  cbn [days]. now rewrite Hd.
Qed.

(** The day after a run of [process_day] that returned: the folder as
    cleanup leaves it after the split stage, archived or in place. *)
Lemma day_after_processing E parser date o w w' :
  process_day E parser date o w = (Ok tt, w') ->
  let w4 := (split_by_vdid E date (first_three_stages E parser date w).2).2 in
  let d := mkDay (if keep_gz o then compressed (day_of date w4) else ∅)
                 (if keep_xml o then decompressed (day_of date w4) else ∅)
                 (if keep_csv o then csv (day_of date w4) else ∅)
                 (VDID (day_of date w4)) in
  if zip_and_delete o
  then days w' !! date = None /\ zips w' = <[date := d]> (zips w)
  else days w' !! date = Some d /\ zips w' = zips w.
Proof.
  intros Hrun w4 d.
  set (o' := mkOptions (keep_gz o) (keep_xml o) (keep_csv o) false).
  pose proof (process_day_keeps zips E parser date o'
                (fun _ _ _ _ => eq_refl) (fun _ _ => eq_refl)
                (fun _ _ => eq_refl)
                (fun H => ltac:(discriminate H))
                (fun H => ltac:(discriminate H))
                (fun _ _ _ _ _ _ _ _ => eq_refl) w) as Hzips.
  rewrite process_day_stages in Hrun, Hzips. subst w4.
  destruct (first_three_stages E parser date w) as [[c|e] w3]; [|discriminate].
  cbn [snd] in *. rewrite run_bind in Hrun, Hzips.
  destruct (split_by_vdid E date w3) as [[x|e] w4] eqn:Hsplit; [|discriminate].
  apply split_made in Hsplit as [_ Hmade]. cbn [snd] in *.
  rewrite run_bind in Hrun, Hzips. cbn [keep_gz keep_xml keep_csv o'] in Hzips.
  destruct (cleanup_run date (keep_gz o) (keep_xml o) (keep_csv o) w4)
    as (w5 & Hclean & _ & _ & _ & Hsome & Hday).
  rewrite Hclean in Hrun, Hzips. change (zips w5 = zips w) in Hzips.
  apply Hsome in Hmade. fold d in Hday.
  destruct (zip_and_delete o).
  - rewrite run_bind, (zip_day_run date w5 Hmade) in Hrun.
    injection Hrun as <-. cbn [days zips].
    rewrite lookup_delete_eq, Hday, Hzips. now split.
  - injection Hrun as <-. split; [|exact Hzips].
    destruct Hmade as [d5 Hd]. unfold day_of in Hday. rewrite Hd in Hday.
    cbn in Hday. now rewrite Hd, Hday.
Qed.





(** ** The command line *)

Lemma bind_ret_unit (m : M unit) w : (m;; mret tt) w = m w.
Proof. rewrite run_bind. now destruct (m w) as [[[]|e] w1]. Qed.

(** X16. How the command line treats its date. With [--days 1] the
    date string goes to [process_day] as given, never parsed. With any
    other count it is parsed first: a string that is no date raises
    [ValueError] with nothing done, and a count of zero or less does
    nothing at all. When the date is one that formats back to itself,
    the two paths agree: the command is the batch of that many days. *)
Theorem main_date_handling (E : env) (parser : element -> DataFrame)
  (a : args) (w : world) :
  let kwargs := mkOptions (arg_keep_gz a) (arg_keep_xml a) (arg_keep_csv a)
                          (negb (arg_no_zip a)) in
  (arg_days a = 1 ->
   main E parser a w = process_day E parser (arg_date a) kwargs w)
  /\ (arg_days a <> 1 -> strptime E (arg_date a) = None ->
      main E parser a w = (Raise ValueError, w))
  /\ (arg_days a <= 0 -> forall dt, strptime E (arg_date a) = Some dt ->
      main E parser a w = (Ok tt, w))
  /\ (forall dt, strptime E (arg_date a) = Some dt ->
      strftime E dt = arg_date a ->
      main E parser a w
      = batch E parser (arg_date a) (arg_days a) kwargs w).
Proof.
  intros kwargs. unfold main. fold kwargs.
  split; [|split; [|split]].
  - intros ->. reflexivity.
  - intros Hne Hnone. apply Z.eqb_neq in Hne. rewrite Hne.
    unfold batch. now rewrite Hnone.
  - intros Hle dt Hdt.
    assert (Hne : (arg_days a =? 1) = false) by (apply Z.eqb_neq; lia).
    rewrite Hne. unfold batch. rewrite Hdt.
    replace (Z.to_nat (arg_days a)) with 0%nat by lia. reflexivity.
  - intros dt Hdt Hfmt. destruct (arg_days a =? 1) eqn:Hd; [|reflexivity].
    apply Z.eqb_eq in Hd. rewrite Hd. unfold batch. rewrite Hdt.
    change (Z.to_nat 1) with 1%nat. cbn [batch_loop]. rewrite Hfmt.
    symmetry. apply bind_ret_unit.
Qed.

Lemma main_date_handling_witness :
  main Demo.E Lxml._parse_xml_lxml (cli_defaults "20240530") Demo.w0
  = batch Demo.E Lxml._parse_xml_lxml "20240530" 1
          (mkOptions false false false true) Demo.w0.
Proof.
  apply (proj2 (proj2 (proj2
           (main_date_handling Demo.E Lxml._parse_xml_lxml
              (cli_defaults "20240530") Demo.w0)))
           (Calendar.days_from_civil 2024 5 30)).
  - vm_compute. reflexivity.
  - vm_compute. reflexivity.
Defined.

(** X17. A stage whose directory cannot be made raises [OSError] at
    once and leaves everything as it was; when that is the first
    directory of the day, the day's processing ends there, before any
    retrieval. *)
Theorem directory_failure (E : env) (parser : element -> DataFrame)
  (date : string) (o : options) (w : world) :
  (mkdir_ok E date Compressed = false ->
   download_day E date w = (Raise OSError, w)
   /\ process_day E parser date o w = (Raise OSError, w))
  /\ (mkdir_ok E date Decompressed = false ->
      decompress_day E date w = (Raise OSError, w))
  /\ (mkdir_ok E date Csv = false ->
      xml_to_csv E parser date w = (Raise OSError, w))
  /\ (mkdir_ok E date Vdid = false ->
      split_by_vdid E date w = (Raise OSError, w)).
Proof.
  split; [|split; [|split]]; intros Hmk.
  - split; [now apply download_day_fail|].
    unfold process_day. now rewrite run_bind, download_day_fail.
  - unfold decompress_day, ensure_dir. now rewrite Hmk.
  - unfold xml_to_csv, ensure_dir. now rewrite Hmk.
  - unfold split_by_vdid, ensure_dir. now rewrite Hmk.
Qed.

(** ** The rows of a parsed document *)

(** A label added to a list of labels unless it is there. *)
Lemma union_cols_cons l1 c l2 :
  union_cols l1 (c :: l2)
  = union_cols (if bool_decide (c ∈ l1) then l1 else l1 ++ [c]) l2.
Proof. reflexivity. Qed.

Lemma keys_set {V} (k : string) (v : V) (d : Dict.t V) :
  Dict.keys (Dict.set k v d)
  = if bool_decide (k ∈ Dict.keys d) then Dict.keys d else Dict.keys d ++ [k].
Proof.
  unfold Dict.keys. induction d as [|[k' v'] d IH]; [reflexivity|].
  cbn [Dict.set map fst].
  destruct (String.eqb k' k) eqn:Hk.
  - apply String.eqb_eq in Hk as ->.
    rewrite bool_decide_eq_true_2 by left. reflexivity.
  - apply String.eqb_neq in Hk. cbn [map fst]. rewrite IH.
    destruct (bool_decide (k ∈ map fst d)) eqn:Hin.
    + apply bool_decide_eq_true_1 in Hin.
      rewrite bool_decide_eq_true_2 by now right. reflexivity.
    + apply bool_decide_eq_false_1 in Hin.
      rewrite bool_decide_eq_false_2; [reflexivity|].
      intros [->|H]%elem_of_cons; [now apply Hk | now apply Hin].
Qed.

Lemma keys_setdefault {V} (k : string) (v : V) (d : Dict.t V) :
  Dict.keys (Dict.setdefault k v d).2
  = if bool_decide (k ∈ Dict.keys d) then Dict.keys d else Dict.keys d ++ [k].
Proof.
  unfold Dict.setdefault. destruct (Dict.get k d) as [v0|] eqn:Hget; cbn [snd].
  - rewrite bool_decide_eq_true_2; [reflexivity|]. apply keys_get. eauto.
  - rewrite keys_set. reflexivity.
Qed.

Lemma body_keys d x :
  Dict.keys (ET.body d x).1
  = if String.eqb (tag x) (Lxml.NS +:+ "VDLive") && negb (is_empty (VDID_of x))
    then if bool_decide (VDID_of x ∈ Dict.keys d) then Dict.keys d
         else Dict.keys d ++ [VDID_of x]
    else Dict.keys d.
Proof.
  rewrite body_data.
  destruct (String.eqb (tag x) _); cbn [andb negb]; [|reflexivity].
  destruct (is_empty (VDID_of x)); cbn [negb]; [reflexivity|].
  rewrite keys_set, keys_setdefault.
  destruct (bool_decide (VDID_of x ∈ Dict.keys d)) eqn:Hin.
  - now rewrite Hin.
  - rewrite bool_decide_eq_true_2; [reflexivity|]. set_solver.
Qed.

Lemma events_keys (evs : list element) : forall d,
  Dict.keys (fold_left (fun d x => (ET.body d x).1) evs d)
  = union_cols (Dict.keys d)
      (filter (fun v => v <> EmptyString)
         (map VDID_of
            (filter (fun x => tag x = Lxml.NS +:+ "VDLive") evs))).
Proof.
  induction evs as [|x evs IH]; intros d; [reflexivity|].
  cbn [fold_left]. rewrite IH, body_keys, filter_cons.
  destruct (decide (tag x = Lxml.NS +:+ "VDLive")) as [Ht|Ht].
  - rewrite Ht, String.eqb_refl. cbn [andb map]. rewrite filter_cons.
    destruct (decide (VDID_of x <> EmptyString)) as [Hv|Hv].
    + apply is_empty_false in Hv. rewrite Hv. cbn [negb].
      now rewrite union_cols_cons.
    + assert (Hv' : is_empty (VDID_of x) = true).
      { apply is_empty_true. now destruct (decide (VDID_of x = EmptyString)). }
      now rewrite Hv'.
  - apply String.eqb_neq in Ht. now rewrite Ht.
Qed.

Lemma parse_keys root :
  Dict.keys (ET.iterparse_loop [] root).1 = union_cols [] (device_ids root).
Proof. rewrite iterparse_loop_events. cbn [fst]. apply events_keys. Qed.

Lemma rows_VDID_cells (data : data_t) :
  let df := DataFrame_of_records (flatten_rows data) in
  map (fun r => at_col (columns df) r "VDID") (values df)
  = map (fun v => Some (Some v)) (Dict.keys data).
Proof.
  intros df. unfold df at 2. unfold DataFrame_of_records. cbn [values].
  fold (columns df). unfold flatten_rows, Dict.keys. rewrite !map_map.
  apply map_ext_in. intros [vdid lanes] Hin. cbn [fst].
  apply (DataFrame_of_records_cell (flatten_rows data)).
  - unfold flatten_rows. apply list_elem_of_fmap. exists (vdid, lanes).
    split; [reflexivity|]. now apply list_elem_of_In.
  - apply flatten_row_VDID.
Qed.

(** X18. The rows of a parsed document: one row for each device
    identifier the loop acts on, in the order in which the identifiers
    first appear in the document, however many snapshots a device has;
    a document without such an identifier gives the empty frame. *)
Theorem rows_by_device (root : element) (df : DataFrame) :
  df = Lxml._parse_xml_lxml root \/ df = ET._parse_xml root ->
  map (fun r => at_col (columns df) r "VDID") (values df)
  = map (fun v => Some (Some v)) (union_cols [] (device_ids root))
  /\ NoDup (union_cols [] (device_ids root))
  /\ (forall v, v ∈ union_cols [] (device_ids root) <-> v ∈ device_ids root)
  /\ (device_ids root = [] -> df = mkDataFrame [] []).
Proof.
  intros Hdf.
  assert (df = ET._parse_xml root) as ->
    by (destruct Hdf as [-> | ->]; [apply lxml_parse_is_et | reflexivity]).
  pose proof (parse_keys root) as Hkeys. unfold ET._parse_xml.
  destruct (ET.iterparse_loop [] root) as [data e']. cbn [fst] in Hkeys.
  split; [|split; [|split]].
  - rewrite <- Hkeys. apply rows_VDID_cells.
  - apply union_cols_NoDup. constructor.
  - intros v. rewrite union_cols_app. set_solver.
  - intros Hnone. rewrite Hnone in Hkeys. destruct data; [reflexivity|].
    discriminate.
Qed.

Lemma rows_by_device_witness :
  map (fun r => at_col (columns (Lxml._parse_xml_lxml Sample.doc)) r "VDID")
      (values (Lxml._parse_xml_lxml Sample.doc))
  = map (fun v => Some (Some v)) (union_cols [] (device_ids Sample.doc)).
Proof.
  apply (rows_by_device Sample.doc (Lxml._parse_xml_lxml Sample.doc)).
  now left.
Defined.

(** ** The shape of a parsed table *)

Lemma record_cols_NoDup (rows : list (Dict.t string)) : forall acc,
  NoDup acc ->
  NoDup (fold_left (fun acc r => union_cols acc (Dict.keys r)) rows acc).
Proof.
  induction rows as [|r rows IH]; intros acc Hacc; [exact Hacc|].
  cbn [fold_left]. apply IH. now apply union_cols_NoDup.
Qed.

Lemma union_cols_head a l1 l2 : head (union_cols (a :: l1) l2) = Some a.
Proof.
  revert l1. induction l2 as [|c l2 IH]; intros l1; [reflexivity|].
  rewrite union_cols_cons. destruct (bool_decide _); apply IH.
Qed.

Lemma record_cols_head (rows : list (Dict.t string)) a acc :
  head (fold_left (fun acc r => union_cols acc (Dict.keys r)) rows (a :: acc))
  = Some a.
Proof.
  revert acc. induction rows as [|r rows IH]; intros acc; [reflexivity|].
  cbn [fold_left].
  pose proof (union_cols_head a acc (Dict.keys r)) as H.
  destruct (union_cols (a :: acc) (Dict.keys r)) as [|a' acc']; [discriminate|].
  injection H as ->. apply IH.
Qed.

Lemma set_first {V} (k k0 : string) (v v0 : V) (d : Dict.t V) :
  exists v' d', Dict.set k v ((k0, v0) :: d) = (k0, v') :: d'.
Proof. cbn [Dict.set]. destruct (String.eqb k0 k); eauto. Qed.

Lemma update_first {V} (k0 : string) (other : Dict.t V) : forall (v0 : V) d,
  exists v' d', Dict.update ((k0, v0) :: d) other = (k0, v') :: d'.
Proof.
  unfold Dict.update. induction other as [|[k v] other IH]; intros v0 d;
    [cbn; eauto|].
  cbn [fold_left fst snd].
  destruct (set_first k k0 v v0 d) as (v' & d' & ->). apply IH.
Qed.

Lemma flatten_row_first vdid (lanes : lanes_t) :
  exists v' d', flatten_row vdid lanes = ("VDID", v') :: d'.
Proof.
  unfold flatten_row.
  assert (H : forall (d : Dict.t string) v0,
    exists v' d',
      fold_left (fun row '(lane_id, kv) =>
                   Dict.update row (record_columns lane_id kv))
                lanes (("VDID", v0) :: d) = ("VDID", v') :: d').
  { induction lanes as [|[lane_id kv] lanes IH]; intros d v0; [cbn; eauto|].
    cbn [fold_left].
    destruct (update_first "VDID" (record_columns lane_id kv) v0 d)
      as (v' & d' & ->).
    apply IH. }
  apply H.
Qed.

Lemma Forall_keys_update {V} (Q : string -> Prop) (other : Dict.t V) :
  forall d : Dict.t V,
  Forall (fun kv => Q kv.1) d -> Forall (fun kv => Q kv.1) other ->
  Forall (fun kv => Q kv.1) (Dict.update d other).
Proof.
  unfold Dict.update. induction other as [|[k v] other IH]; intros d Hd Ho;
    [exact Hd|].
  apply Forall_cons in Ho as [Hk Ho]. cbn [fold_left fst snd].
  apply IH; [|exact Ho]. now apply Forall_keys_set.
Qed.

Lemma Forall_pairs_set {V} (Q : string * V -> Prop) (k : string) (v : V)
  (d : Dict.t V) :
  Q (k, v) -> Forall Q d -> Forall Q (Dict.set k v d).
Proof.
  intros Hk. induction 1 as [|[k' v'] d Hx Hd IH]; cbn.
  - repeat constructor. exact Hk.
  - destruct (String.eqb k' k) eqn:E; constructor; auto.
    apply String.eqb_eq in E. now subst k'.
Qed.

Lemma fold_left_keeps {A B} (P : A -> Prop) (f : A -> B -> A) (l : list B) :
  (forall a b, P a -> P (f a b)) -> forall a, P a -> P (fold_left f l a).
Proof.
  intros Hf. induction l as [|b l IH]; intros a Ha; [exact Ha|].
  cbn [fold_left]. apply IH, Hf, Ha.
Qed.

Lemma vehicle_body_fields (rec : lane_rec) (veh : element) :
  Forall (fun kv => lane_field kv.1) rec ->
  Forall (fun kv => lane_field kv.1) (ET.vehicle_body rec veh).
Proof.
  intros Hrec. unfold ET.vehicle_body. cbv zeta.
  destruct (is_empty _) eqn:Hv; [exact Hrec|].
  apply is_empty_false in Hv.
  apply (Forall_keys_set lane_field).
  { right. right. eexists. split; [exact Hv | now right]. }
  apply (Forall_keys_set lane_field); [|exact Hrec].
  right. right. eexists. split; [exact Hv | now left].
Qed.

Lemma lane_body_records (lanes : lanes_t) (lane : element) :
  lane_records lanes -> lane_records (ET.lane_body lanes lane).
Proof.
  intros Hlanes. unfold ET.lane_body, Dict.setdefault. cbv zeta.
  assert (Hfill : forall (rec : lane_rec) s o vs,
    Forall (fun kv => lane_field kv.1) rec ->
    Forall (fun kv => lane_field kv.1)
      (fold_left ET.vehicle_body vs
         (Dict.set "Occupancy" o (Dict.set "Speed" s rec)))).
  { intros rec s o vs Hrec.
    apply (fold_left_keeps (Forall (fun kv => lane_field kv.1)));
      [intros a b; apply vehicle_body_fields|].
    apply (Forall_keys_set lane_field); [right; now left|].
    apply (Forall_keys_set lane_field); [now left | exact Hrec]. }
  destruct (Dict.get _ lanes) as [rec|] eqn:Hget.
  - apply get_Some_elem in Hget.
    pose proof (proj1 (Forall_forall _ _) Hlanes _ Hget) as [_ Hrec].
    apply Forall_pairs_set; [|exact Hlanes].
    split; [eexists; reflexivity | now apply Hfill].
  - apply Forall_pairs_set.
    + split; [eexists; reflexivity | apply Hfill; constructor].
    + apply Forall_pairs_set; [|exact Hlanes].
      split; [eexists; reflexivity | constructor].
Qed.

Lemma body_records (d : data_t) (e : element) :
  Forall (fun kv => lane_records kv.2) d ->
  Forall (fun kv => lane_records kv.2) (ET.body d e).1.
Proof.
  intros Hd. rewrite body_data.
  destruct (String.eqb _ _); [|exact Hd].
  destruct (is_empty _); [exact Hd|].
  apply Forall_pairs_set.
  - cbn [snd]. apply (fold_left_keeps lane_records);
      [intros a b; apply lane_body_records|].
    destruct (Dict.get _ d) as [lanes|] eqn:Hget; [|constructor].
    apply get_Some_elem in Hget.
    exact (proj1 (Forall_forall _ _) Hd _ Hget).
  - unfold Dict.setdefault. destruct (Dict.get _ d); cbn [snd]; [exact Hd|].
    apply Forall_pairs_set; [constructor | exact Hd].
Qed.

Lemma record_columns_fields lane_id (kv : lane_rec) :
  Forall (fun c => lane_field c.1) kv ->
  Forall (fun c => exists k, c.1 = lane_id +:+ "_" +:+ k /\ lane_field k)
         (record_columns lane_id kv).
Proof.
  unfold record_columns.
  assert (H : forall acc : Dict.t string,
    Forall (fun c => lane_field c.1) kv ->
    Forall (fun c => exists k, c.1 = lane_id +:+ "_" +:+ k /\ lane_field k)
           acc ->
    Forall (fun c => exists k, c.1 = lane_id +:+ "_" +:+ k /\ lane_field k)
      (fold_left (fun acc '(k, v) => Dict.set (lane_id +:+ "_" +:+ k) v acc)
                 kv acc)).
  { induction kv as [|[k v] kv IH]; intros acc Hkv Hacc; [exact Hacc|].
    apply Forall_cons in Hkv as [Hk Hkv]. cbn [fold_left]. apply IH;
      [exact Hkv|].
    apply (Forall_keys_set
             (fun c => exists k, c = lane_id +:+ "_" +:+ k /\ lane_field k));
      [|exact Hacc].
    exists k. split; [reflexivity | exact Hk]. }
  intros Hkv. apply H; [exact Hkv | constructor].
Qed.

Lemma flatten_row_columns vdid (lanes : lanes_t) :
  lane_records lanes ->
  Forall (fun kv => kv.1 = "VDID" \/ lane_column kv.1)
         (flatten_row vdid lanes).
Proof.
  unfold flatten_row.
  assert (H : forall row : Dict.t string,
    lane_records lanes ->
    Forall (fun kv => kv.1 = "VDID" \/ lane_column kv.1) row ->
    Forall (fun kv => kv.1 = "VDID" \/ lane_column kv.1)
           (fold_left (fun row '(lane_id, kv) =>
                         Dict.update row (record_columns lane_id kv))
                      lanes row)).
  { induction lanes as [|[lane_id kv] lanes IH]; intros row Hlanes Hrow;
      [exact Hrow|].
    apply Forall_cons in Hlanes as [[[id Hid] Hkv] Hlanes].
    cbn [fst snd] in Hid, Hkv. subst lane_id.
    cbn [fold_left]. apply IH; [exact Hlanes|].
    apply (Forall_keys_update (fun s => s = "VDID" \/ lane_column s));
      [exact Hrow|].
    eapply Forall_impl; [apply record_columns_fields, Hkv|].
    intros c (k & Hc & Hk). right. exists id, k. now split. }
  intros Hlanes. apply H; [exact Hlanes|].
  constructor; [now left | constructor].
Qed.

(** X19. The shape of a parsed table: its column labels are pairwise
    distinct, every row has one cell per column, the first column of a
    table with rows is [VDID], and every other label is a lane key,
    the letter L and a lane identifier, joined by an underscore to a
    name of a lane record: [Speed], [Occupancy], or a vehicle type
    that is not empty followed by [_Volume] or [_Vehicle_Speed]. *)
Theorem parsed_table_shape (root : element) (df : DataFrame) :
  df = Lxml._parse_xml_lxml root \/ df = ET._parse_xml root ->
  NoDup (columns df)
  /\ rectangular df
  /\ (values df <> [] -> head (columns df) = Some "VDID")
  /\ (forall c, c ∈ columns df -> c = "VDID" \/ lane_column c).
Proof.
  intros Hdf.
  assert (df = ET._parse_xml root) as ->
    by (destruct Hdf as [-> | ->]; [apply lxml_parse_is_et | reflexivity]).
  unfold ET._parse_xml.
  pose proof (iterparse_loop_inv
                (Forall (fun kv => lane_records kv.2)) body_records
                root [] (Forall_nil_2 _)) as Hdata.
  destruct (ET.iterparse_loop [] root) as [data e']. cbn [fst] in Hdata.
  split; [|split; [|split]].
  - apply record_cols_NoDup. constructor.
  - unfold rectangular, DataFrame_of_records. cbn [columns values].
    apply Forall_forall. intros r [r0 [-> _]]%list_elem_of_fmap.
    apply length_map.
  - destruct data as [|[vdid lanes] data]; [intros H; now destruct H|].
    intros _. unfold DataFrame_of_records. cbn [columns flatten_rows map fold_left].
    destruct (flatten_row_first vdid lanes) as (v' & d' & ->).
    cbn [Dict.keys map fst]. rewrite union_cols_cons.
    rewrite bool_decide_eq_false_2 by (intros H; inversion H).
    cbn [app].
    pose proof (union_cols_head "VDID" [] (map fst d')) as H.
    destruct (union_cols ["VDID"] (map fst d')) as [|a acc]; [discriminate|].
    injection H as ->. apply record_cols_head.
  - intros c Hc. unfold DataFrame_of_records in Hc. cbn [columns] in Hc.
    apply record_cols_elem in Hc as [Hc|(r & Hr & Hc)]; [inversion Hc|].
    unfold flatten_rows in Hr.
    apply list_elem_of_fmap in Hr as ([vdid lanes] & -> & Hin).
    pose proof (proj1 (Forall_forall _ _) Hdata _ Hin) as Hlanes.
    cbn [snd] in Hlanes.
    pose proof (flatten_row_columns vdid lanes Hlanes) as Hkeys.
    rewrite Forall_forall in Hkeys. unfold Dict.keys in Hc.
    apply list_elem_of_fmap in Hc as (kv & -> & Hkv). now apply Hkeys.
Qed.

Lemma parsed_table_shape_witness :
  NoDup (columns (ET._parse_xml Sample.doc))
  /\ rectangular (ET._parse_xml Sample.doc)
  /\ (values (ET._parse_xml Sample.doc) <> [] ->
      head (columns (ET._parse_xml Sample.doc)) = Some "VDID")
  /\ (forall c, c ∈ columns (ET._parse_xml Sample.doc) ->
        c = "VDID" \/ lane_column c).
Proof.
  apply (parsed_table_shape Sample.doc (ET._parse_xml Sample.doc)).
  now right.
Defined.

(** ** Speed and occupancy of a lane *)

Lemma append_shorter (a b s : string) :
  (length (String.list_ascii_of_string s)
   < length (String.list_ascii_of_string b))%nat ->
  a +:+ b <> s.
Proof.
  intros Hlt <-. rewrite to_list_append, length_app in Hlt. lia.
Qed.

(** No vehicle field is named like a lane field. *)
Lemma vehicle_keys_not_lane_keys (vt : string) :
  vt +:+ "_Volume" <> "Speed" /\ vt +:+ "_Vehicle_Speed" <> "Speed"
  /\ vt +:+ "_Volume" <> "Occupancy" /\ vt +:+ "_Vehicle_Speed" <> "Occupancy".
Proof.
  split; [|split; [|split]]; try (apply append_shorter; cbn; lia).
  intros H. apply (f_equal (fun s => last (String.list_ascii_of_string s))) in H.
  rewrite last_append in H by discriminate. discriminate.
Qed.

Lemma vehicle_fold_lane_key (vs : list element) (k : string) :
  k = "Speed" \/ k = "Occupancy" ->
  forall rec : lane_rec,
    Dict.get k (fold_left Lxml.vehicle_body vs rec) = Dict.get k rec.
Proof.
  intros Hk. induction vs as [|veh vs IH]; intros rec; [reflexivity|].
  cbn [fold_left]. rewrite IH, vehicle_body_get.
  destruct (is_empty (VehicleType_of veh)); [reflexivity|].
  destruct (vehicle_keys_not_lane_keys (VehicleType_of veh))
    as (H1 & H2 & H3 & H4).
  destruct Hk as [-> | ->].
  - apply String.eqb_neq in H1, H2. now rewrite H1, H2.
  - apply String.eqb_neq in H3, H4. now rewrite H3, H4.
Qed.

(** The lane fields after the lanes of one snapshot: those of the last
    lane element that carries the lane identifier. *)
Lemma lane_fold_speed (ls : list element) (lanes : lanes_t) (id : string)
  (lane : element) :
  last (filter (fun l => LaneID_of l = id) ls) = Some lane ->
  exists rec,
    Dict.get ("L" +:+ id) (fold_left Lxml.lane_body ls lanes) = Some rec
    /\ Dict.get "Speed" rec = Some (Speed_of lane)
    /\ Dict.get "Occupancy" rec = Some (Occupancy_of lane).
Proof.
  revert lane. induction ls as [|x ls IH] using rev_ind; intros lane Hlast;
    [discriminate|].
  rewrite filter_app, filter_cons, filter_nil in Hlast.
  rewrite fold_left_app. cbn [fold_left].
  destruct (decide (LaneID_of x = id)) as [<-|Hne].
  - rewrite last_snoc in Hlast. injection Hlast as <-.
    rewrite lane_body_get. eexists. split; [reflexivity|].
    rewrite !vehicle_fold_lane_key by auto.
    rewrite get_set_ne by discriminate. rewrite !get_set_eq. now split.
  - rewrite app_nil_r in Hlast. destruct (IH lane Hlast) as (rec & Hrec & H).
    exists rec. split; [|exact H]. rewrite lane_body_get_ne; [exact Hrec|].
    intros Heq. apply append_inj_r in Heq. congruence.
Qed.

Lemma filter_last_is_Some {A} (P : A -> Prop) `{forall x, Decision (P x)}
  (l : list A) (x : A) :
  x ∈ l -> P x -> exists y, last (filter P l) = Some y /\ y ∈ l /\ P y.
Proof.
  intros Hin HP.
  assert (Hx : x ∈ filter P l) by (apply list_elem_of_filter; auto).
  destruct (last (filter P l)) as [y|] eqn:Hlast.
  - exists y. split; [reflexivity|].
    apply last_Some in Hlast as [l' Hl'].
    assert (Hy : y ∈ filter P l) by (rewrite Hl'; set_solver).
    apply list_elem_of_filter in Hy as [? ?]. auto.
  - apply last_None in Hlast. rewrite Hlast in Hx. inversion Hx.
Qed.

(** X20. Every lane of a snapshot with a device identifier has its
    speed and occupancy in the table. After the lanes of one snapshot,
    the record of a lane identifier holds the speed and the occupancy of
    the last lane element that carries the identifier; no vehicle
    element can overwrite them, whatever its classification. In the
    table of a document, the device's row has the lane's [Speed] and
    [Occupancy] columns filled. *)
Theorem lane_speed_occupancy :
  (forall (ls : list element) (lanes : lanes_t) (id : string) (lane : element),
      last (filter (fun l => LaneID_of l = id) ls) = Some lane ->
      exists rec,
        Dict.get ("L" +:+ id) (fold_left Lxml.lane_body ls lanes) = Some rec
        /\ Dict.get ("L" +:+ id) (fold_left ET.lane_body ls lanes) = Some rec
        /\ Dict.get "Speed" rec = Some (Speed_of lane)
        /\ Dict.get "Occupancy" rec = Some (Occupancy_of lane))
  /\ (forall root df x lane,
        df = Lxml._parse_xml_lxml root \/ df = ET._parse_xml root ->
        x ∈ (end_events root).1 ->
        tag x = Lxml.NS +:+ "VDLive" -> VDID_of x <> EmptyString ->
        lane ∈ lanes_of x ->
        exists r spd occ,
          r ∈ values df
          /\ at_col (columns df) r "VDID" = Some (Some (VDID_of x))
          /\ at_col (columns df) r ("L" +:+ LaneID_of lane +:+ "_" +:+ "Speed")
             = Some (Some spd)
          /\ at_col (columns df) r
               ("L" +:+ LaneID_of lane +:+ "_" +:+ "Occupancy")
             = Some (Some occ)).
Proof.
  split.
  - intros ls lanes id lane Hlast.
    destruct (lane_fold_speed ls lanes id lane Hlast) as (rec & Hrec & HS & HO).
    assert (Hfold : fold_left ET.lane_body ls lanes
                    = fold_left Lxml.lane_body ls lanes).
    { clear. revert lanes. induction ls as [|l ls IH]; intros lanes;
        [reflexivity|].
      cbn [fold_left]. rewrite <- (lane_body_agree lanes l). apply IH. }
    exists rec. split; [exact Hrec|]. split; [|now split].
    now rewrite <- Hrec, <- Hfold.
  - intros root df x lane Hdf Hx Ht Hid Hl.
    assert (df = ET._parse_xml root) as ->
      by (destruct Hdf as [-> | ->]; [apply lxml_parse_is_et | reflexivity]).
    destruct (filter_last_is_Some (fun l => LaneID_of l = LaneID_of lane)
                (lanes_of x) lane Hl eq_refl) as (lane' & Hlast & _ & _).
    apply list_elem_of_split in Hx as (l1 & l2 & Hevs).
    pose proof (iterparse_loop_events root []) as Hloop. rewrite Hevs in Hloop.
    rewrite fold_left_app in Hloop. cbn [fold_left] in Hloop.
    set (d1 := fold_left (fun d x => (ET.body d x).1) l1 []) in *.
    destruct (lane_fold_speed (lanes_of x)
                (default Dict.empty (Dict.get (VDID_of x) d1))
                (LaneID_of lane) lane' Hlast) as (rec & Hrec & HS & HO).
    assert (Hbody : forall k, is_Some (Dict.get k rec) ->
              has_field (ET.body d1 x).1 (VDID_of x)
                        ("L" +:+ LaneID_of lane) k).
    { intros k Hk. unfold has_field. rewrite body_get.
      rewrite Ht, !String.eqb_refl. apply is_empty_false in Hid. rewrite Hid.
      cbn [andb negb]. eauto. }
    assert (Hfield : forall k, is_Some (Dict.get k rec) ->
              has_field (ET.iterparse_loop [] root).1 (VDID_of x)
                        ("L" +:+ LaneID_of lane) k).
    { intros k Hk. rewrite Hloop. cbn [fst]. apply events_mono. auto. }
    unfold ET._parse_xml.
    destruct (ET.iterparse_loop [] root) as [data e']. cbn [fst] in Hfield.
    destruct (Hfield "Speed") as (lanes & r1 & Hlanes & Hr1 & HkS);
      [rewrite HS; eauto|].
    destruct (Hfield "Occupancy") as (lanes' & r2 & Hlanes' & Hr2 & HkO);
      [rewrite HO; eauto|].
    assert (lanes' = lanes) as -> by congruence.
    assert (r2 = r1) as -> by congruence.
    assert (Hrow : flatten_row (VDID_of x) lanes ∈ flatten_rows data).
    { apply get_Some_elem in Hlanes. unfold flatten_rows.
      apply list_elem_of_fmap. now exists (VDID_of x, lanes). }
    destruct (flatten_row_field (VDID_of x) lanes _ r1 _ Hr1 HkS) as [spd HSc].
    destruct (flatten_row_field (VDID_of x) lanes _ r1 _ Hr1 HkO) as [occ HOc].
    set (df := DataFrame_of_records (flatten_rows data)).
    exists (map (fun c => Dict.get c (flatten_row (VDID_of x) lanes))
                (columns df)), spd, occ.
    split; [|split; [|split]].
    + cbn. apply list_elem_of_fmap. eauto.
    + apply (DataFrame_of_records_cell _ _ "VDID" _ Hrow).
      apply flatten_row_VDID.
    + apply (DataFrame_of_records_cell _ _ _ spd Hrow). exact HSc.
    + apply (DataFrame_of_records_cell _ _ _ occ Hrow). exact HOc.
Qed.

Lemma lane_speed_occupancy_witness :
  exists r spd occ,
    r ∈ values (Lxml._parse_xml_lxml Sample.doc)
    /\ at_col (columns (Lxml._parse_xml_lxml Sample.doc)) r "VDID"
       = Some (Some (VDID_of SampleParts.snapshot))
    /\ at_col (columns (Lxml._parse_xml_lxml Sample.doc)) r
         ("L" +:+ LaneID_of SampleParts.lane +:+ "_" +:+ "Speed")
       = Some (Some spd)
    /\ at_col (columns (Lxml._parse_xml_lxml Sample.doc)) r
         ("L" +:+ LaneID_of SampleParts.lane +:+ "_" +:+ "Occupancy")
       = Some (Some occ).
Proof.
  apply (proj2 lane_speed_occupancy Sample.doc
           (Lxml._parse_xml_lxml Sample.doc) SampleParts.snapshot
           SampleParts.lane).
  - now left.
  - apply (list_elem_of_lookup_2 _ 30%nat). reflexivity.
  - reflexivity.
  - vm_compute. discriminate.
  - apply (list_elem_of_lookup_2 _ 0%nat). reflexivity.
Defined.

(** ** The table combiner on any number of tables *)

Lemma index_of_lt c cols i : index_of c cols = Some i -> (i < length cols)%nat.
Proof.
  revert i. induction cols as [|c' cols IH]; intros i; [discriminate|].
  cbn [index_of length]. destruct (String.eqb c' c).
  - intros [= <-]. lia.
  - destruct (index_of c cols) as [j|]; [|discriminate].
    intros [= <-]. specialize (IH j eq_refl). lia.
Qed.

Lemma index_of_snoc c cols :
  index_of c cols = None -> index_of c (cols ++ [c]) = Some (length cols).
Proof.
  induction cols as [|c' cols IH]; cbn [index_of app length].
  - now rewrite String.eqb_refl.
  - destruct (String.eqb c' c); [discriminate|].
    destruct (index_of c cols); [discriminate|].
    intros _. now rewrite IH.
Qed.

(** The cell [assign] writes, in a frame whose rows are aligned with
    its columns. *)
Lemma assign_cell col v df r :
  rectangular df -> r ∈ values (assign col v df) ->
  at_col (columns (assign col v df)) r col = Some (Some v).
Proof.
  unfold rectangular, assign. rewrite Forall_forall. intros Hrect.
  destruct (index_of col (columns df)) as [i|] eqn:Hi; cbn [columns values];
    intros [r0 [-> Hr0]]%list_elem_of_fmap; unfold at_col.
  - rewrite Hi. cbn. rewrite list_lookup_insert_eq; [reflexivity|].
    rewrite (Hrect r0 Hr0). exact (index_of_lt _ _ _ Hi).
  - rewrite (index_of_snoc _ _ Hi). cbn. rewrite <- (Hrect r0 Hr0).
    now rewrite list_lookup_middle.
Qed.

Lemma length_flat_map_sum {A B} (f : A -> list B) (l : list A) :
  length (flat_map f l) = sum_list (map (fun x => length (f x)) l).
Proof.
  induction l as [|x l IH]; [reflexivity|].
  cbn [flat_map map sum_list]. now rewrite length_app, IH.
Qed.

(** X21. The table combiner on any number of tables, at least one: it
    returns a table whose columns are [file_name] and the columns of
    the inputs, each once; its rows are the rows of the inputs in
    order, table after table, each with one cell per column; and every
    row carries in [file_name] the name of the file it was read from,
    replacing what a column of that name held in the input. *)
Theorem combiner_stamps_rows (tables : list (string * DataFrame)) :
  tables <> [] ->
  Forall (fun nt => rectangular nt.2) tables ->
  exists df,
    table_combiner tables = Ok df
    /\ NoDup (columns df)
    /\ (forall c, c ∈ columns df
                  <-> c = "file_name" \/ exists nt, nt ∈ tables /\ c ∈ columns nt.2)
    /\ rectangular df
    /\ length (values df)
       = sum_list (map (fun nt => length (values nt.2)) tables)
    /\ values df
       = flat_map
           (fun nt =>
              map (reindex (columns df) (columns (assign "file_name" nt.1 nt.2)))
                  (values (assign "file_name" nt.1 nt.2)))
           tables
    /\ (forall nt r, nt ∈ tables ->
          r ∈ values (assign "file_name" nt.1 nt.2) ->
          at_col (columns df)
                 (reindex (columns df)
                          (columns (assign "file_name" nt.1 nt.2)) r)
                 "file_name"
          = Some (Some nt.1)).
Proof.
  intros Hne Hrect. unfold table_combiner, concat.
  destruct tables as [|nt0 tables0] eqn:Htables; [now destruct Hne|].
  rewrite <- Htables in *. clear Hne.
  assert (Hmap : exists a l,
            map (fun nt => assign "file_name" nt.1 nt.2) tables = a :: l).
  { rewrite Htables. cbn [map]. eauto. }
  destruct Hmap as (a & l & Hmap). rewrite Hmap. rewrite <- Hmap.
  set (dfs := map (fun nt => assign "file_name" nt.1 nt.2) tables).
  set (cols := fold_left (fun acc df => union_cols acc (columns df)) dfs []).
  eexists. split; [reflexivity|]. cbn [columns values].
  assert (Hcols : forall c, c ∈ cols
            <-> c = "file_name" \/ exists nt, nt ∈ tables /\ c ∈ columns nt.2).
  { intros c. unfold cols. rewrite concat_cols_elem. split.
    - intros [H|(df & Hdf & Hc)]; [inversion H|].
      apply list_elem_of_fmap in Hdf as (nt & -> & Hnt).
      apply assign_columns in Hc as [Hc| ->]; [right; eauto | now left].
    - intros [->|(nt & Hnt & Hc)].
      + right. exists a. split.
        * unfold dfs. rewrite Hmap. left.
        * assert (Ha : a ∈ dfs) by (unfold dfs; rewrite Hmap; left).
          apply list_elem_of_fmap in Ha as (nt & -> & _).
          apply assign_columns. now right.
      + right. exists (assign "file_name" nt.1 nt.2). split.
        * apply list_elem_of_fmap. eauto.
        * apply assign_columns. now left. }
  split; [apply concat_cols_NoDup; constructor|].
  split; [exact Hcols|].
  split; [|split; [|split]].
  - unfold rectangular. cbn [columns values]. apply Forall_forall.
    intros r Hr. apply list_elem_of_In, in_flat_map in Hr as (df & _ & Hr).
    apply in_map_iff in Hr as (r0 & <- & _). apply length_map.
  - rewrite length_flat_map_sum. unfold dfs. rewrite map_map. f_equal.
    apply map_ext. intros [n t]. cbn [fst snd]. rewrite length_map.
    unfold assign. destruct (index_of "file_name" (columns t));
      cbn [values]; apply length_map.
  - unfold dfs. now rewrite flat_map_concat_map, map_map, <- flat_map_concat_map.
  - intros nt r Hnt Hr.
    rewrite at_col_reindex by (apply Hcols; now left).
    rewrite Forall_forall in Hrect.
    now rewrite (assign_cell _ _ _ _ (Hrect nt Hnt) Hr).
Qed.

Lemma combiner_stamps_rows_witness :
  exists df,
    table_combiner [("a.csv", Sample.table_a); ("b.csv", Sample.table_b)]
    = Ok df
    /\ length (values df) = 2%nat
    /\ at_col (columns df)
         (reindex (columns df)
            (columns (assign "file_name" "b.csv" Sample.table_b))
            [Some "B"; Some "70"; Some "b.csv"])
         "file_name"
       = Some (Some "b.csv").
Proof.
  destruct (combiner_stamps_rows
              [("a.csv", Sample.table_a); ("b.csv", Sample.table_b)])
    as (df & Hdf & _ & _ & _ & Hlen & _ & Hstamp).
  - discriminate.
  - repeat constructor.
  - exists df. split; [exact Hdf|]. split; [exact Hlen|].
    apply (Hstamp ("b.csv", Sample.table_b)).
    + right. left.
    + left.
Defined.

(** ** Where a day can fail *)

(** X22. A day's processing can only fail in its first four stages:
    once the split stage has returned, cleanup and zip return too, so
    an exception of [process_day] is the exception of the fetch,
    decompress or transform stage, or of the split stage run after
    them. *)
Theorem later_stages_never_fail (E : env) (parser : element -> DataFrame)
  (date : string) (o : options) (w w' : world) (e : exn) :
  process_day E parser date o w = (Raise e, w') ->
  first_three_stages E parser date w = (Raise e, w')
  \/ exists c w3,
       first_three_stages E parser date w = (Ok c, w3)
       /\ split_by_vdid E date w3 = (Raise e, w').
Proof.
  rewrite process_day_stages.
  destruct (first_three_stages E parser date w) as [[c|e1] w3];
    [|intros [= -> ->]; now left].
  intros Hrun. right. exists c, w3. split; [reflexivity|].
  rewrite run_bind in Hrun.
  destruct (split_by_vdid E date w3) as [[x|e1] w4] eqn:Hsplit;
    [|now injection Hrun as -> ->].
  exfalso. apply split_made in Hsplit as [_ Hmade]. rewrite run_bind in Hrun.
  destruct (cleanup_run date (keep_gz o) (keep_xml o) (keep_csv o) w4)
    as (w5 & Hclean & _ & _ & _ & Hsome & _).
  rewrite Hclean in Hrun. apply Hsome in Hmade.
  destruct (zip_and_delete o); [|discriminate].
  rewrite run_bind, (zip_day_run date w5 Hmade) in Hrun. discriminate.
Qed.

Lemma later_stages_never_fail_witness :
  let w' := (Main.process_day Demo.E "20240531" Demo.keep_all Demo.w0).2 in
  first_three_stages Demo.E Lxml._parse_xml_lxml "20240531" Demo.w0
  = (Raise ValueError, w')
  \/ exists c w3,
       first_three_stages Demo.E Lxml._parse_xml_lxml "20240531" Demo.w0
       = (Ok c, w3)
       /\ split_by_vdid Demo.E "20240531" w3 = (Raise ValueError, w').
Proof.
  apply (later_stages_never_fail Demo.E Lxml._parse_xml_lxml "20240531"
           Demo.keep_all Demo.w0).
  vm_compute. reflexivity.
Defined.

(** ** What the loop sees and what it leaves *)

Lemma events_filter (evs : list element) : forall d,
  fold_left (fun d x => (ET.body d x).1) evs d
  = fold_left (fun d x => (ET.body d x).1)
              (filter (fun x => tag x = Lxml.NS +:+ "VDLive") evs) d.
Proof.
  induction evs as [|x evs IH]; intros d; [reflexivity|].
  rewrite filter_cons. cbn [fold_left].
  destruct (decide (tag x = Lxml.NS +:+ "VDLive")) as [Ht|Ht].
  - cbn [fold_left]. apply IH.
  - rewrite IH, body_data. apply String.eqb_neq in Ht. now rewrite Ht.
Qed.

(** X23. The table of a document depends on nothing but the snapshot
    elements the loop is given: two documents with the same snapshot
    elements, in the same order, give the same table, whatever else
    they contain. *)
Theorem table_depends_on_snapshots (r1 r2 : element) :
  filter (fun x => tag x = Lxml.NS +:+ "VDLive") (end_events r1).1
  = filter (fun x => tag x = Lxml.NS +:+ "VDLive") (end_events r2).1 ->
  Lxml._parse_xml_lxml r1 = Lxml._parse_xml_lxml r2
  /\ ET._parse_xml r1 = ET._parse_xml r2.
Proof.
  intros Heq. rewrite !lxml_parse_is_et.
  assert (H : ET._parse_xml r1 = ET._parse_xml r2); [|now split].
  unfold ET._parse_xml.
  rewrite (iterparse_loop_events r1), (iterparse_loop_events r2).
  now rewrite (events_filter (end_events r1).1), Heq, <- events_filter.
Qed.

Lemma table_depends_on_snapshots_witness :
  Lxml._parse_xml_lxml (Element "wrapper" (Some "text") [Sample.doc])
  = Lxml._parse_xml_lxml Sample.doc.
Proof.
  apply (table_depends_on_snapshots
           (Element "wrapper" (Some "text") [Sample.doc]) Sample.doc).
  vm_compute. reflexivity.
Defined.

Lemma descendants_children t x (cs : list element) :
  descendants (Element t x cs) = flat_map (fun c => c :: descendants c) cs.
Proof.
  cbn [descendants]. induction cs as [|c cs IH]; [reflexivity|].
  cbn [flat_map]. now rewrite IH.
Qed.

Lemma end_events_children t x (cs : list element) :
  end_events (Element t x cs)
  = let e := Element t x (map (fun c => (end_events c).2) cs) in
    (flat_map (fun c => (end_events c).1) cs ++ [e],
     if String.eqb t (Lxml.NS +:+ "VDLive") then clear e else e).
Proof.
  cbn [end_events].
  match goal with
  | |- (let '(_, _) := ?g cs in _) = _ =>
      assert (Hgo : g cs = (flat_map (fun c => (end_events c).1) cs,
                            map (fun c => (end_events c).2) cs))
  end.
  { induction cs as [|c cs IH]; [reflexivity|].
    rewrite IH. cbn [flat_map map]. now destruct (end_events c). }
  now rewrite Hgo.
Qed.

(** Snapshot elements at or below an element are cleared. *)
Lemma end_events_cleared (e : element) :
  Forall (fun c => tag c = Lxml.NS +:+ "VDLive" ->
                   children c = [] /\ text c = None)
         ((end_events e).2 :: descendants (end_events e).2)
  /\ Forall (fun x =>
       Forall (fun c => tag c = Lxml.NS +:+ "VDLive" ->
                        children c = [] /\ text c = None)
              (descendants x))
       (end_events e).1.
Proof.
  induction e as [t x cs IH] using element_children_ind.
  rewrite end_events_children. cbv zeta. cbn [fst snd].
  set (cs' := map (fun c => (end_events c).2) cs).
  assert (Hbelow : Forall (fun c => tag c = Lxml.NS +:+ "VDLive" ->
                                    children c = [] /\ text c = None)
                          (descendants (Element t x cs'))).
  { rewrite descendants_children. unfold cs'. clear cs'.
    induction IH as [|c cs [Hc _] _ IHcs]; [constructor|].
    cbn [map flat_map]. apply Forall_app. split; [exact Hc | exact IHcs]. }
  split.
  - destruct (String.eqb t (Lxml.NS +:+ "VDLive")) eqn:Ht.
    + cbn [clear descendants]. repeat constructor.
    + constructor; [|exact Hbelow]. cbn [tag]. intros ->.
      now rewrite String.eqb_refl in Ht.
  - apply Forall_app. split; [|repeat constructor; exact Hbelow].
    clear Hbelow cs'. induction IH as [|c cs [_ Hc] _ IHcs]; [constructor|].
    cbn [flat_map]. apply Forall_app. split; [exact Hc | exact IHcs].
Qed.

(** X24. Snapshot elements are cleared as the loop goes, with or
    without a device identifier: in the tree both loops leave behind,
    every snapshot element has neither text nor children; and the
    elements a loop body is given are those of [end_events], in which
    the snapshot elements below the given one are already empty, so the
    lanes of a nested snapshot are never read again for the snapshot
    around it. *)
Theorem snapshots_are_cleared (root : element) (d : data_t) :
  (Lxml.iterparse_loop (Lxml.NS +:+ "VDLive") d root).2
  = (ET.iterparse_loop d root).2
  /\ Forall (fun c => tag c = Lxml.NS +:+ "VDLive" ->
                      children c = [] /\ text c = None)
            ((ET.iterparse_loop d root).2
               :: descendants (ET.iterparse_loop d root).2)
  /\ ET.iterparse_loop d root
     = (fold_left (fun d x => (ET.body d x).1) (end_events root).1 d,
        (end_events root).2)
  /\ Forall (fun x =>
       Forall (fun c => tag c = Lxml.NS +:+ "VDLive" ->
                        children c = [] /\ text c = None)
              (descendants x))
       (end_events root).1.
Proof.
  rewrite iterparse_loop_agree, iterparse_loop_events. cbn [snd].
  destruct (end_events_cleared root) as [Htree Hevs].
  split; [reflexivity|]. split; [exact Htree|]. split; [reflexivity|].
  exact Hevs.
Qed.

(** ** Running a day again *)

Lemma filter_all {A} (P : A -> Prop) `{forall x, Decision (P x)} (l : list A) :
  (forall x, x ∈ l -> P x) -> filter P l = l.
Proof.
  induction l as [|x l IH]; intros Hall; [reflexivity|].
  rewrite filter_cons_True by (apply Hall; left).
  f_equal. apply IH. intros y Hy. apply Hall. now right.
Qed.

(** X25. The archive is no cache: after a day was processed to its end
    with zipping, its folder is gone, so processing the same day again
    retrieves every one of its 1440 descriptors anew. *)
Theorem rerun_fetches_everything (E : env) (parser : element -> DataFrame)
  (date : string) (o : options) (w w1 : world) :
  (forall A (l : list A), completion_order E A l ≡ₚ l) ->
  mkdir_ok E date Compressed = true ->
  zip_and_delete o = true ->
  process_day E parser date o w = (Ok tt, w1) ->
  exists new,
    requests (process_day E parser date o w1).2 = new ++ requests w1
    /\ new ≡ₚ map fst (tasks date).
Proof.
  intros Hperm Hmk Hzip Hrun.
  pose proof (day_after_processing _ _ _ _ _ _ Hrun) as Hgone.
  cbv zeta in Hgone. rewrite Hzip in Hgone. destruct Hgone as [Hgone _].
  rewrite (after_fetch_keeps requests) by reflexivity.
  rewrite (download_day_run E date w1 Hmk). cbn [snd].
  rewrite fetch_pool_requests
    by (rewrite (Hperm _ (tasks date)); apply tasks_NoDup).
  rewrite requests_set_day. eexists. split; [reflexivity|].
  rewrite <- Permutation_rev, filter_all, (Hperm _ (tasks date)); [reflexivity|].
  intros t Ht. rewrite gz_at_ensured.
  rewrite (Hperm _ (tasks date)) in Ht. unfold gz_at, day_of.
  pose proof (tasks_date date t Ht) as Hd. destruct t as [u [dt n]].
  cbn [fst snd] in *. subst dt. now rewrite Hgone.
Qed.

Lemma rerun_fetches_everything_witness :
  let w1 := (Main.process_day Demo.E "20240530" default_options Demo.w0).2 in
  exists new,
    requests (Main.process_day Demo.E "20240530" default_options w1).2
    = new ++ requests w1
    /\ new ≡ₚ map fst (tasks "20240530").
Proof.
  pose proof (rerun_fetches_everything Demo.E Lxml._parse_xml_lxml "20240530"
                default_options Demo.w0) as H.
  assert (H1 : (process_day Demo.E Lxml._parse_xml_lxml "20240530"
                  default_options Demo.w0).1 = Ok tt)
    by (vm_compute; reflexivity).
  unfold Main.process_day.
  destruct (process_day Demo.E Lxml._parse_xml_lxml "20240530"
              default_options Demo.w0) as [r w1].
  cbn [fst snd] in *. subst r.
  exact (H w1 (fun A l => Permutation_refl l) eq_refl eq_refl eq_refl).
Defined.
